(** * The weld plugin of Nitrolaunch: staging of pack directories and hook dispatch

    A shallow embedding of the two variants of the plugin,
    [plugins/weld/mcvm_weld.py] (variant 1, module [Mcvm]) and
    [plugins/weld/nitro_weld.py] (variant 2, module [Nitro]), and the
    properties of the emitter, the directory stager and the hook dispatcher. *)

From Stdlib Require Import String Ascii ZArith List Bool Lia DecimalString.
From stdpp Require Import base option list strings gmap fin_maps.

Set Warnings "-register-all".
Local Open Scope string_scope.
Local Open Scope list_scope.

(** ** Strings *)

(** Python's [pat in s] on two [str]: [pat] occurs in [s] as a substring.
    The empty pattern occurs in every string. *)
Fixpoint contains (pat s : string) : bool :=
  String.prefix pat s ||
  match s with
  | EmptyString => false
  | String _ s' => contains pat s'
  end.

(** The double quote and the line feed, by their codes. *)
Definition dquote : ascii := ascii_of_N 34.
Definition newline : ascii := ascii_of_N 10.

(** [s] between double quotes, with nothing escaped. *)
Definition quoted (s : string) : string := String dquote (s +:+ String dquote "").

(** [sep.join(l)]. *)
Fixpoint join (sep : string) (l : list string) : string :=
  match l with
  | [] => ""
  | [x] => x
  | x :: l' => x +:+ sep +:+ join sep l'
  end.

(** ** JSON values, as [json.loads] returns them and [json.dumps] takes them

    [None] is [JNull], a [dict] is the list of its items in insertion
    order, numbers are integers (floats are left out), and a character of a
    string is a code point below 256. *)
Inductive json : Type :=
| JNull
| JBool (b : bool)
| JNum (z : Z)
| JStr (s : string)
| JArr (items : list json)
| JObj (fields : list (string * json)).

Definition hex_digit (n : N) : ascii :=
  match n with
  | 0 => "0" | 1 => "1" | 2 => "2" | 3 => "3" | 4 => "4" | 5 => "5"
  | 6 => "6" | 7 => "7" | 8 => "8" | 9 => "9" | 10 => "a" | 11 => "b"
  | 12 => "c" | 13 => "d" | 14 => "e" | _ => "f"
  end%N%char.

(** [json.encoder.py_encode_basestring_ascii] on one character: quote and
    backslash are escaped, the usual control characters have their short
    escapes, everything else outside [' '..'~'] becomes [\u00xx]. *)
Definition escape_char (c : ascii) : string :=
  let n := N_of_ascii c in
  if (n =? 34)%N then String "\" (String dquote "")
  else if (n =? 92)%N then "\\"
  else if (n =? 10)%N then "\n"
  else if (n =? 13)%N then "\r"
  else if (n =? 9)%N then "\t"
  else if (n =? 8)%N then "\b"
  else if (n =? 12)%N then "\f"
  else if ((32 <=? n) && (n <=? 126))%N then String c ""
  else "\u00" +:+ String (hex_digit (n / 16)) (String (hex_digit (n mod 16)) "").

Fixpoint escape (s : string) : string :=
  match s with
  | EmptyString => ""
  | String c s' => escape_char c +:+ escape s'
  end.

Definition dumps_str (s : string) : string := quoted (escape s).

(** [json.dumps] with its default separators [", "] and [": "]. *)
Fixpoint dumps (j : json) : string :=
  match j with
  | JNull => "null"
  | JBool true => "true"
  | JBool false => "false"
  | JNum z => NilZero.string_of_int (Z.to_int z)
  | JStr s => dumps_str s
  | JArr items => "[" +:+ join ", " (map dumps items) +:+ "]"
  | JObj fields =>
      "{" +:+ join ", " (map (fun kv => dumps_str (fst kv) +:+ ": " +:+ dumps (snd kv)) fields) +:+ "}"
  end.

(** ** Exceptions and outcomes *)

(** A raised exception: its class and [str(e)]. *)
Record exn := Exn { exn_type : string; exn_str : string }.

Inductive outcome (A : Type) : Type :=
| Done (a : A)
| Raise (e : exn).
Arguments Done {A} a.
Arguments Raise {A} e.

(** Evaluation of an expression: the first exception ends it. *)
Global Instance outcome_ret : MRet outcome := λ A a, Done a.
Global Instance outcome_bind : MBind outcome := λ A B f o,
  match o with
  | Done a => f a
  | Raise e => Raise e
  end.

(** [let? x := e in k]: evaluate [e], name its value [x], go on with [k]. *)
Definition and_then {A B} (o : outcome A) (f : A → outcome B) : outcome B := o ≫= f.

Notation "'let?' x := e 'in' k" := (and_then e (λ x, k))
  (at level 10, x name, e at level 100, k at level 200, only parsing).

(** ** Python's operators on the values [json.loads] returns *)

Fixpoint assoc (k : string) (fields : list (string * json)) : option json :=
  match fields with
  | [] => None
  | (k', v) :: rest => if String.eqb k' k then Some v else assoc k rest
  end.

Definition is_str (s : string) (j : json) : bool :=
  match j with
  | JStr s' => String.eqb s' s
  | _ => false
  end.

Definition type_name (j : json) : string :=
  match j with
  | JNull => "NoneType"
  | JBool _ => "bool"
  | JNum _ => "int"
  | JStr _ => "str"
  | JArr _ => "list"
  | JObj _ => "dict"
  end.

Definition TypeError (msg : string) : exn := Exn "TypeError" msg.

(** [key in c]: a key of a dict, an element of a list, a substring of a
    string; the other values are no containers. *)
Definition py_in (key : string) (c : json) : outcome bool :=
  match c with
  | JObj fields => Done (bool_decide (is_Some (assoc key fields)))
  | JArr items => Done (existsb (is_str key) items)
  | JStr s => Done (contains key s)
  | _ => Raise (TypeError ("argument of type '" +:+ type_name c +:+ "' is not iterable"))
  end.

(** [c[key]] with a string key. *)
Definition py_getitem (c : json) (key : string) : outcome json :=
  match c with
  | JObj fields =>
      match assoc key fields with
      | Some v => Done v
      | None => Raise (Exn "KeyError" ("'" +:+ key +:+ "'"))
      end
  | JArr _ => Raise (TypeError "list indices must be integers or slices, not str")
  | JStr _ => Raise (TypeError "string indices must be integers, not 'str'")
  | _ => Raise (TypeError ("'" +:+ type_name c +:+ "' object is not subscriptable"))
  end.

(** Truth value of a condition. *)
Definition truthy (j : json) : bool :=
  match j with
  | JNull => false
  | JBool b => b
  | JNum z => negb (z =? 0)%Z
  | JStr s => negb (String.eqb s "")
  | JArr items => match items with [] => false | _ => true end
  | JObj fields => match fields with [] => false | _ => true end
  end.

Fixpoint chars (s : string) : list string :=
  match s with
  | EmptyString => []
  | String c s' => String c "" :: chars s'
  end.

(** What [for x in c] runs over. *)
Definition py_iter (c : json) : outcome (list json) :=
  match c with
  | JArr items => Done items
  | JObj fields => Done (map (fun kv => JStr (fst kv)) fields)
  | JStr s => Done (map JStr (chars s))
  | _ => Raise (TypeError ("'" +:+ type_name c +:+ "' object is not iterable"))
  end.

(** [ignored in entry] where [entry] is a [str]. *)
Definition in_str (ignored : json) (entry : string) : outcome bool :=
  match ignored with
  | JStr pat => Done (contains pat entry)
  | _ => Raise (TypeError ("'in <string>' requires string as left operand, not "
                           +:+ type_name ignored))
  end.

(** ** Paths, as [pathlib] holds them: an anchor and the parts below it *)

Record Path := { anchor : bool; parts : list string }.

Fixpoint split_slash (s cur : string) : list string :=
  match s with
  | EmptyString => [cur]
  | String c s' =>
      if Ascii.eqb c "/" then cur :: split_slash s' "" else split_slash s' (cur +:+ String c "")
  end.

Definition keep_part (c : string) : bool := negb (String.eqb c "") && negb (String.eqb c ".").

(** [Path(s)]: empty parts and [.] are dropped, [..] is kept as a name. *)
Definition Path_of (s : string) : Path :=
  {| anchor := String.prefix "/" s; parts := List.filter keep_part (split_slash s "") |}.

(** [p.joinpath(q)]: an anchored [q] replaces [p]. *)
Definition joinpath (p q : Path) : Path :=
  if anchor q then q else {| anchor := anchor p; parts := parts p ++ parts q |}.

(** [p.joinpath(name)] for one file name (no slash in it). *)
Definition child (p : Path) (name : string) : Path :=
  {| anchor := anchor p; parts := parts p ++ [name] |}.

(** [str(p)]. *)
Definition path_str (p : Path) : string :=
  match anchor p, parts p with
  | false, [] => "."
  | false, ps => join "/" ps
  | true, ps => "/" +:+ join "/" ps
  end.

(** ** The file system: a tree of regular files and directories

    A path is looked up by its parts from the root of the tree (the working
    directory is the root; links and [..] are left out). *)
Inductive node : Type :=
| File (data : string)
| Dir (entries : gmap string node).

Fixpoint fs_lookup (p : list string) (n : node) : option node :=
  match p with
  | [] => Some n
  | x :: q =>
      match n with
      | Dir es => match es !! x with Some m => fs_lookup q m | None => None end
      | File _ => None
      end
  end.

(** Puts [v] at [p] ([None] takes the entry away); the parent of [p] has to
    be a directory, and the root is never replaced. *)
Fixpoint fs_put (p : list string) (v : option node) (n : node) : option node :=
  match p with
  | [] => None
  | x :: q =>
      match n with
      | File _ => None
      | Dir es =>
          match q with
          | [] => Some (Dir (match v with Some m => <[x:=m]> es | None => delete x es end))
          | _ :: _ =>
              match es !! x with
              | Some m =>
                  match fs_put q v m with
                  | Some m' => Some (Dir (<[x:=m']> es))
                  | None => None
                  end
              | None => None
              end
          end
      end
  end.

Definition names (es : gmap string node) : list string := (map_to_list es).*1.

Definition is_dir_node (n : node) : bool := match n with Dir _ => true | File _ => false end.

Definition OSError (cls : string) (msg : string) (p : Path) : exn :=
  Exn cls (msg +:+ ": '" +:+ path_str p +:+ "'").
Definition FileNotFoundError := OSError "FileNotFoundError" "[Errno 2] No such file or directory".
Definition FileExistsError := OSError "FileExistsError" "[Errno 17] File exists".
Definition NotADirectoryError := OSError "NotADirectoryError" "[Errno 20] Not a directory".
Definition IsADirectoryError := OSError "IsADirectoryError" "[Errno 21] Is a directory".
Definition DirectoryNotEmpty := OSError "OSError" "[Errno 39] Directory not empty".

(** ** The process: file system, standard output, calls of the merge engine *)

(** A pack handed to the engine: variant 1 hands [Path] objects, variant 2
    their [str]. *)
Inductive pack : Type :=
| PackPath (p : Path)
| PackStr (s : string).

(** [run_weld(packs=..., config={"output": ...}, directory=...)]. *)
Record weld_call := WeldCall {
  call_packs : list pack;
  call_output : string;
  call_directory : Path }.

(** What the engine's context holds once the packs are merged: the bytes
    that [ctx.data.save] and [ctx.assets.save] write. *)
Record weld_ctx := WeldCtx { ctx_data : string; ctx_assets : string }.

Record world := World {
  fs : node;
  stdout : list string;
  welds : list weld_call }.

(** A statement or expression of the program: it runs in a world, changes
    it, and returns a value or raises. *)
Definition py (A : Type) : Type := world → world * outcome A.

Global Instance py_ret : MRet py := λ A a w, (w, Done a).
Global Instance py_bind : MBind py := λ A B f m w,
  match m w with
  | (w', Done a) => f a w'
  | (w', Raise e) => (w', Raise e)
  end.

Definition ret {A} (a : A) : py A := mret a.

(** [let* x := m in k]: run [m], name its value [x], go on with [k]. *)
Definition bind {A B} (m : py A) (f : A → py B) : py B := m ≫= f.

Notation "'let*' x := m 'in' k" := (bind m (λ x, k))
  (at level 10, x name, m at level 100, k at level 200, only parsing).


(** Nothing to do: [pass], or a [continue] or [return] that ends the branch. *)
Definition pass : py unit := ret tt.

Definition raise {A} (e : exn) : py A := λ w, (w, Raise e).

Definition lift {A} (o : outcome A) : py A := λ w, (w, o).

(** [try: m except Exception as e: h e]. *)
Definition try_except {A} (m : py A) (h : exn → py A) : py A := λ w,
  match m w with
  | (w', Done a) => (w', Done a)
  | (w', Raise e) => h e w'
  end.

(** [for x in l: body x]. *)
Fixpoint for_each {A} (l : list A) (body : A → py unit) : py unit :=
  match l with
  | [] => pass
  | x :: l' => body x;; for_each l' body
  end.

(** [print(s)]. *)
Definition print (s : string) : py unit := λ w,
  (World (fs w) (stdout w ++ [s]) (welds w), Done tt).

Definition set_fs (n : node) : py unit := λ w, (World n (stdout w) (welds w), Done tt).

(** [sys.argv[i]]. *)
Definition argv_at (argv : list string) (i : nat) : py string :=
  match argv !! i with
  | Some s => ret s
  | None => raise (Exn "IndexError" "list index out of range")
  end.

(** [p.exists()]. *)
Definition path_exists (p : Path) : py bool := λ w,
  (w, Done (bool_decide (is_Some (fs_lookup (parts p) (fs w))))).

(** [p.is_file()]. *)
Definition is_file (p : Path) : py bool := λ w,
  (w, Done match fs_lookup (parts p) (fs w) with Some (File _) => true | _ => false end).

(** [os.mkdir(p)]. The parent must be a directory; Python tells a missing
    parent ([FileNotFoundError]) from one that is a regular file
    ([NotADirectoryError]), here the first stands for both, also in
    [os_remove], [os_rename] and [save_pack]. *)
Definition os_mkdir (p : Path) : py unit := λ w,
  match fs_lookup (parts p) (fs w) with
  | Some _ => (w, Raise (FileExistsError p))
  | None =>
      match fs_put (parts p) (Some (Dir ∅)) (fs w) with
      | Some n => set_fs n w
      | None => (w, Raise (FileNotFoundError p))
      end
  end.

(** [os.listdir(p)], in the order of the map. *)
Definition os_listdir (p : Path) : py (list string) := λ w,
  match fs_lookup (parts p) (fs w) with
  | Some (Dir es) => (w, Done (names es))
  | Some (File _) => (w, Raise (NotADirectoryError p))
  | None => (w, Raise (FileNotFoundError p))
  end.

(** [os.remove(p)]: regular files only. *)
Definition os_remove (p : Path) : py unit := λ w,
  match fs_lookup (parts p) (fs w) with
  | Some (File _) =>
      match fs_put (parts p) None (fs w) with
      | Some n => set_fs n w
      | None => (w, Raise (FileNotFoundError p))
      end
  | Some (Dir _) => (w, Raise (IsADirectoryError p))
  | None => (w, Raise (FileNotFoundError p))
  end.

(** Whether [rename] may replace what is at the target. *)
Definition rename_blocked (src : node) (dst : Path) (old : option node) : option exn :=
  match src, old with
  | _, None => None
  | File _, Some (File _) => None
  | File _, Some (Dir _) => Some (IsADirectoryError dst)
  | Dir _, Some (File _) => Some (NotADirectoryError dst)
  | Dir _, Some (Dir es) => match names es with [] => None | _ => Some (DirectoryNotEmpty dst) end
  end.

(** [os.rename(src, dst)] (POSIX): the entry, with all below it, leaves
    [src] and stands at [dst]. The text of a failure names the one path at
    fault; Python's names both, [src] and [dst]. *)
Definition os_rename (src dst : Path) : py unit := λ w,
  match fs_lookup (parts src) (fs w) with
  | None => (w, Raise (FileNotFoundError src))
  | Some n =>
      if bool_decide (parts src = parts dst) then (w, Done tt)
      else
        match rename_blocked n dst (fs_lookup (parts dst) (fs w)) with
        | Some e => (w, Raise e)
        | None =>
            match fs_put (parts src) None (fs w) with
            | None => (w, Raise (OSError "OSError" "[Errno 16] Device or resource busy" src))
            | Some n1 =>
                match fs_put (parts dst) (Some n) n1 with
                | Some n2 => set_fs n2 w
                | None => (w, Raise (FileNotFoundError dst))
                end
            end
        end
  end.

(** [next(os.walk(p))[1]]: the names of the immediate subdirectories; a walk
    of what is no directory yields nothing, and [next] raises. *)
Definition walk_dirs (p : Path) : py (list string) := λ w,
  match fs_lookup (parts p) (fs w) with
  | Some (Dir es) => (w, Done (List.filter (λ kv, is_dir_node kv.2) (map_to_list es)).*1)
  | _ => (w, Raise (Exn "StopIteration" ""))
  end.

(** [Path(x)] and [p.joinpath(x)] on a value of the argument. *)
Definition to_path (x : json) : py Path :=
  match x with
  | JStr s => ret (Path_of s)
  | _ => raise (TypeError ("expected str, bytes or os.PathLike object, not " +:+ type_name x))
  end.

(** [pack.save(path=p, overwrite=True)]: the archive replaces what is at [p]. *)
Definition save_pack (p : Path) (bytes : string) : py unit := λ w,
  match fs_put (parts p) (Some (File bytes)) (fs w) with
  | Some n => set_fs n w
  | None => (w, Raise (FileNotFoundError p))
  end.

(** The engine is not part of the plugin: [engine call fs] is what
    [smithed.weld.run_weld] makes of a call on a file system, a context or an
    exception. The call is recorded; the engine itself writes nothing, the
    plugin saves its result. *)
Definition call_engine (engine : weld_call → node → outcome weld_ctx)
    (packs : list pack) (output : string) (directory : Path) : py weld_ctx := λ w,
  let c := WeldCall packs output directory in
  (World (fs w) (stdout w) (welds w ++ [c]), engine c (fs w)).

(** ** Variant 1: [mcvm_weld.py] *)
Module Mcvm.
Section plugin.
Variable loads : string → outcome json.
Variable engine : weld_call → node → outcome weld_ctx.

(** [output(method, data=None)] *)
Definition output (method : string) (data : json) : py unit :=
  match data with
  | JNull => print ("%_" +:+ quoted method)
  | _ =>
      let out := JObj [(method, data)] in
      let out2 := dumps out in
      print ("%_" +:+ out2)
  end.

(** [weld_dir(dir, ignore)] *)
Definition weld_dir (dir : Path) (ignore : json) : py unit :=
  (* Dir to store unwelded files so that they persist across updates *)
  let unwelded_path := child dir "unwelded" in
  let* there := path_exists unwelded_path in
  (if negb there then os_mkdir unwelded_path else pass);;
  (* Move all files to the unwelded dir *)
  let* entries := os_listdir dir in
  for_each entries (λ entry,
    let path := child dir entry in
    if contains "weld_pack" entry then pass (* continue *)
    else
      let* ignored_all := lift (py_iter ignore) in
      for_each ignored_all (λ ignored,
        let* hit := lift (in_str ignored entry) in
        if hit then pass (* continue, in the inner loop *) else pass);;
      let* regular := is_file path in
      if regular then
        let target := child unwelded_path entry in
        (* It won't move if the target already exists *)
        let* taken := path_exists target in
        (if taken then os_remove target else pass);;
        os_rename path target
      else pass);;
  (* Now Weld *)
  let beet_config := path_str dir in
  let* staged := os_listdir unwelded_path in
  let packs := map (λ x, PackPath (child dir x)) staged in
  let* ctx := call_engine engine packs beet_config dir in
  save_pack (child dir "weld_pack.zip") (ctx_data ctx).

Definition start_message : json :=
  JObj [("contents", JObj [("StartProcess", JStr "Welding packs")]); ("level", JStr "important")].
Definition success_message : json :=
  JObj [("contents", JObj [("Success", JStr "Packs welded")]); ("level", JStr "important")].

(** Lines 70 to 83 of [run]: the datapack directories. *)
Definition datapack_dirs (arg : json) (game_dir : Path) : py (list Path) :=
  let* config := lift (py_getitem arg "config") in
  let* datapack_folder := lift (py_getitem config "datapack_folder") in
  match datapack_folder with
  | JNull =>
      let* side := lift (py_getitem arg "side") in
      if is_str "client" side then
        let saves_dir := joinpath game_dir (Path_of "saves") in
        (* Trick to only get the immediate subdirectories *)
        let* subdirs := walk_dirs saves_dir in
        for_each subdirs (λ entry,
          (* saves_dir.join(entry[0]): a Path has no method join *)
          raise (Exn "AttributeError" "'PosixPath' object has no attribute 'join'"));;
        ret []
      else ret [joinpath game_dir (Path_of "world/datapacks")]
  | _ =>
      let* folder := to_path datapack_folder in
      ret [joinpath game_dir folder]
  end.

(** ["disable_weld" in arg["config"] and arg["config"]["disable_weld"]] *)
Definition weld_disabled (arg : json) : outcome bool :=
  let? config := py_getitem arg "config" in
  let? has := py_in "disable_weld" config in
  if has then
    let? config := py_getitem arg "config" in
    let? v := py_getitem config "disable_weld" in
    Done (truthy v)
  else Done false.

(** Lines 87 to 89 of [run]: the ignore list. *)
Definition weld_ignore_of (arg : json) : outcome json :=
  let? config := py_getitem arg "config" in
  let? has := py_in "weld_ignore" config in
  if has then
    let? config := py_getitem arg "config" in
    py_getitem config "weld_ignore"
  else Done (JArr []).

(** [run()] *)
Definition run (argv : list string) : py unit :=
  let* hook := argv_at argv 1 in
  if negb (String.eqb hook "on_instance_setup") then pass (* return *)
  else
    let* arg_raw := argv_at argv 2 in
    let* arg := lift (loads arg_raw) in
    let* update_depth := lift (py_getitem arg "update_depth") in
    if is_str "shallow" update_depth then pass (* return *)
    else
      let* disabled := lift (weld_disabled arg) in
      if disabled then pass (* return *)
      else
        output "start_process" JNull;;
        output "message" start_message;;
        (* Figure out the paths to load packs into *)
        let* game_dir_raw := lift (py_getitem arg "game_dir") in
        let* game_dir := to_path game_dir_raw in
        let* datapacks := datapack_dirs arg game_dir in
        let resourcepack_dirs := [joinpath game_dir (Path_of "resourcepacks")] in
        let* weld_ignore := lift (weld_ignore_of arg) in
        (* Run Weld on each directory *)
        for_each datapacks (λ dir, weld_dir dir weld_ignore);;
        for_each resourcepack_dirs (λ dir, weld_dir dir weld_ignore);;
        output "message" success_message;;
        output "end_process" JNull.

(** [main()] *)
Definition main (argv : list string) : py unit := run argv.

Definition no_override : json :=
  JObj [("main_class_override", JNull); ("jar_path_override", JNull);
        ("classpath_extension", JArr [])].

(** The module body, run as a script: after the imports and the function
    definitions its only statement is the call of [output] on lines 110 to
    114; [main] is defined and never called. *)
Definition script (argv : list string) : py unit :=
  output "set_result" no_override.
End plugin.
End Mcvm.

(** ** Variant 2: [nitro_weld.py] *)
Module Nitro.
Section plugin.
Variable loads : string → outcome json.
Variable engine : weld_call → node → outcome weld_ctx.

(** [output(method, data=None)] *)
Definition output (method : string) (data : json) : py unit :=
  match data with
  | JNull => print ("%_" +:+ quoted method)
  | _ =>
      let out := JObj [(method, if is_str "__null__" data then JNull else data)] in
      let out2 := dumps out in
      print ("%_" +:+ out2)
  end.

(** [weld_dir(dir, ignore, mode)]: welds a single datapack or
    resourcepack directory; [mode] is either ["data"] or ["resource"]. *)
Definition weld_dir (dir : Path) (ignore : json) (mode : string) : py unit :=
  (* Dir to store unwelded files so that they persist across updates *)
  let unwelded_path := child dir "unwelded" in
  let* there := path_exists unwelded_path in
  (if negb there then os_mkdir unwelded_path else pass);;
  (* Move all non-ignored packs to the unwelded dir *)
  let* entries := os_listdir dir in
  for_each entries (λ entry,
    let path := child dir entry in
    if contains "Welded Packs" entry then pass (* continue *)
    else
      let* ignored_all := lift (py_iter ignore) in
      for_each ignored_all (λ ignored,
        let* hit := lift (in_str ignored entry) in
        if hit then pass (* continue, in the inner loop *) else pass);;
      let* regular := is_file path in
      if regular then
        let target := child unwelded_path entry in
        (* It won't move if the target already exists *)
        let* taken := path_exists target in
        (if taken then os_remove target else pass);;
        os_rename path target
      else pass);;
  (* Move any ignored packs out of the unwelded dir *)
  let* staged := os_listdir unwelded_path in
  for_each staged (λ entry,
    let* ignored_all := lift (py_iter ignore) in
    for_each ignored_all (λ ignored,
      let* hit := lift (in_str ignored entry) in
      if hit then
        let source := child unwelded_path entry in
        let target := child dir entry in
        let* taken := path_exists target in
        (if taken then os_remove target else pass);;
        os_rename source target
      else pass));;
  (* Now Weld *)
  let beet_config := path_str dir in
  let* staged := os_listdir unwelded_path in
  let packs := map (λ x, PackStr (path_str (child unwelded_path x))) staged in
  let target_pack_path := child dir "Welded Packs.zip" in
  let* ctx := call_engine engine packs beet_config dir in
  if String.eqb mode "data" then save_pack target_pack_path (ctx_data ctx)
  else if String.eqb mode "resource" then save_pack target_pack_path (ctx_assets ctx)
  else pass.

Definition no_override : json :=
  JObj [("main_class_override", JNull); ("jar_path_override", JNull);
        ("classpath_extension", JArr [])].

(** [set_result(hook)] *)
Definition set_result (hook : string) : py unit :=
  if String.eqb hook "on_instance_setup" then output "set_result" no_override
  else output "set_result" (JStr "__null__").

Definition start_message : json :=
  JObj [("contents", JObj [("StartProcess", JStr "Welding packs")]); ("level", JStr "important")].
Definition success_message : json :=
  JObj [("contents", JObj [("Success", JStr "Packs welded")]); ("level", JStr "important")].
Definition error_message (e : exn) : json :=
  JObj [("contents", JObj [("Error", JStr ("Failed to weld packs:" +:+ String newline (exn_str e)))]);
        ("level", JStr "important")].

Definition recognized (hook : string) : bool :=
  String.eqb hook "after_packages_installed" || String.eqb hook "on_instance_setup"
  || String.eqb hook "update_world_files".

(** [hook == "on_instance_setup" and "update_depth" in arg and
    arg["update_depth"] == "full"] *)
Definition full_setup (hook : string) (arg : json) : outcome bool :=
  if String.eqb hook "on_instance_setup" then
    let? has := py_in "update_depth" arg in
    if has then
      let? update_depth := py_getitem arg "update_depth" in
      Done (is_str "full" update_depth)
    else Done false
  else Done false.

(** ["disable_weld" in arg["config"] and arg["config"]["disable_weld"]] *)
Definition weld_disabled (arg : json) : outcome bool :=
  let? config := py_getitem arg "config" in
  let? has := py_in "disable_weld" config in
  if has then
    let? config := py_getitem arg "config" in
    let? v := py_getitem config "disable_weld" in
    Done (truthy v)
  else Done false.

(** Lines 128 to 130 of [run]: the ignore list. *)
Definition weld_ignore_of (arg : json) : outcome json :=
  let? config := py_getitem arg "config" in
  let? has := py_in "weld_ignore" config in
  if has then
    let? config := py_getitem arg "config" in
    py_getitem config "weld_ignore"
  else Done (JArr []).

(** Lines 118 to 121 of [run]: the loop over the saves; [found] is
    [datapack_dirs] so far. *)
Fixpoint existing_datapacks (saves_dir : Path) (entries : list string) (found : list Path)
    : py (list Path) :=
  match entries with
  | [] => ret found
  | entry :: rest =>
      let path := joinpath (child saves_dir entry) (Path_of "datapacks") in
      let* there := path_exists path in
      if there then existing_datapacks saves_dir rest (found ++ [path])
      else existing_datapacks saves_dir rest found
  end.

(** Lines 110 to 124 of [run]: the datapack directories. *)
Definition datapack_dirs (arg : json) (game_dir : Path) : py (list Path) :=
  let* config := lift (py_getitem arg "config") in
  let* has := lift (py_in "datapack_folder" config) in
  let* datapack_folder :=
    (if has then
       let* config := lift (py_getitem arg "config") in
       lift (py_getitem config "datapack_folder")
     else ret JNull) in
  match datapack_folder with
  | JNull =>
      let* side := lift (py_getitem arg "side") in
      if is_str "client" side then
        let saves_dir := joinpath game_dir (Path_of "saves") in
        (* Trick to only get the immediate subdirectories *)
        let* subdirs := walk_dirs saves_dir in
        existing_datapacks saves_dir subdirs []
      else ret [joinpath game_dir (Path_of "world/datapacks")]
  | _ =>
      let* folder := to_path datapack_folder in
      ret [joinpath game_dir folder]
  end.

(** [run()] *)
Definition run (argv : list string) : py unit :=
  let* hook := argv_at argv 1 in
  (if negb (recognized hook) then
     print "$_Incorrect hook";;
     set_result hook
   else pass);;
  let* arg_raw := argv_at argv 2 in
  let* arg := lift (loads arg_raw) in
  (* If this is a full instance update we want to weld after packages are installed *)
  let* deferred := lift (full_setup hook arg) in
  if deferred then set_result hook (* return *)
  else
    let* disabled := lift (weld_disabled arg) in
    if disabled then set_result hook (* return *)
    else
      output "start_process" JNull;;
      output "message" start_message;;
      (* Figure out the paths to load packs into *)
      let* game_dir_raw := lift (py_getitem arg "game_dir") in
      match game_dir_raw with
      | JNull => set_result hook (* return *)
      | _ =>
          let* game_dir := to_path game_dir_raw in
          let* datapacks := datapack_dirs arg game_dir in
          let resourcepack_dirs := [joinpath game_dir (Path_of "resourcepacks")] in
          let* weld_ignore := lift (weld_ignore_of arg) in
          (* Run Weld on each directory *)
          for_each datapacks (λ dir, weld_dir dir weld_ignore "data");;
          for_each resourcepack_dirs (λ dir, weld_dir dir weld_ignore "resource");;
          output "message" success_message;;
          output "end_process" JNull;;
          set_result hook
      end.

(** [main()] *)
Definition main (argv : list string) : py unit :=
  try_except (run argv) (λ e, output "message" (error_message e)).

(** The module body, run as a script: [if __name__ == "__main__": main()]. *)
Definition script (argv : list string) : py unit := main argv.
End plugin.
End Nitro.

(** ** Notions the statements use *)

(** The world after the lines [l] were printed. *)
Definition says (w : world) (l : list string) : world :=
  World (fs w) (stdout w ++ l) (welds w).

(** A character that [json.dumps] leaves as it is. *)
Definition plain_char (c : ascii) : bool :=
  let n := N_of_ascii c in
  (32 <=? n)%N && (n <=? 126)%N && negb (n =? 34)%N && negb (n =? 92)%N.

Fixpoint plain (s : string) : bool :=
  match s with
  | EmptyString => true
  | String c s' => plain_char c && plain s'
  end.

(** The text holds no line feed: printed, it is one line. *)
Fixpoint one_line (s : string) : bool :=
  match s with
  | EmptyString => true
  | String c s' => negb (Ascii.eqb c newline) && one_line s'
  end.

(** The line the emitter is to write for a kind and a payload: the sentinel,
    then the kind as a JSON string when there is no payload, else the JSON
    object with the kind as its one key. Variant 2 writes a null for the
    marker ["__null__"]; variant 1 has no marker. *)
Definition mcvm_line (kind : string) (payload : json) : string :=
    match payload with
    | JNull => "%_" +:+ dumps (JStr kind)
    | _ => "%_" +:+ dumps (JObj [(kind, payload)])
    end.
Definition nitro_line (kind : string) (payload : json) : string :=
    match payload with
    | JNull => "%_" +:+ dumps (JStr kind)
    | _ => if is_str "__null__" payload then "%_" +:+ dumps (JObj [(kind, JNull)])
           else "%_" +:+ dumps (JObj [(kind, payload)])
    end.


(** A kind with a quote in it. *)
Definition odd_kind : string := "a" +:+ String dquote "b".

(** A world to run examples in: a game directory [/g] with two resource
    packs, a server world and two saves, one of them with datapacks. *)
Definition demo_packs : gmap string node := {[ "a.zip" := File "A"; "b.zip" := File "B" ]}.

Definition demo_root : node :=
  Dir {[ "g" := Dir {[ "resourcepacks" := Dir demo_packs;
                       "world" := Dir {[ "datapacks" := Dir ∅ ]};
                       "saves" := Dir {[ "A" := Dir {[ "datapacks" := Dir ∅ ]};
                                         "B" := Dir ∅ ]} ]} ]}.

Definition demo_world : world := World demo_root [] [].

Definition empty_world : world := World (Dir ∅) [] [].

(** An engine that merges whatever it is given, and a parser that returns
    a fixed argument. *)
Definition engine_ok : weld_call → node → outcome weld_ctx :=
  λ _ _, Done (WeldCtx "merged data" "merged assets").

Definition loads_as (arg : json) : string → outcome json := λ _, Done arg.

Definition demo_config : json := JObj [("weld_ignore", JArr [JStr "b"])].

Definition server_arg : json :=
  JObj [("config", demo_config); ("game_dir", JStr "/g"); ("side", JStr "server")].

Definition client_arg : json :=
  JObj [("update_depth", JStr "full"); ("config", JObj [("datapack_folder", JNull)]);
        ("game_dir", JStr "/g"); ("side", JStr "client")].

Definition lost_arg : json :=
  JObj [("config", JObj []); ("game_dir", JStr "/nowhere"); ("side", JStr "server")].

Definition disabled_arg : json :=
  JObj [("config", JObj [("disable_weld", JBool true)]); ("game_dir", JStr "/g");
        ("side", JStr "server")].

(** The protocol lines of the dispatcher. *)
Definition start_line : string := "%_" +:+ quoted "start_process".
Definition end_line : string := "%_" +:+ quoted "end_process".
Definition message_line (variant text : string) : string :=
  "%_{" +:+ quoted "message" +:+ ": {" +:+ quoted "contents" +:+ ": {" +:+ quoted variant
  +:+ ": " +:+ text +:+ "}, " +:+ quoted "level" +:+ ": " +:+ quoted "important" +:+ "}}".
Definition start_message_line : string := message_line "StartProcess" (quoted "Welding packs").
Definition success_line : string := message_line "Success" (quoted "Packs welded").
Definition error_head : string :=
  "%_{" +:+ quoted "message" +:+ ": {" +:+ quoted "contents" +:+ ": {" +:+ quoted "Error"
  +:+ ": " +:+ String dquote "Failed to weld packs:\n".
Definition error_tail : string :=
  String dquote ("}, " +:+ quoted "level" +:+ ": " +:+ quoted "important" +:+ "}}").
Definition error_line (e : exn) : string := error_head +:+ escape (exn_str e) +:+ error_tail.
Definition null_result_line : string := "%_{" +:+ quoted "set_result" +:+ ": null}".
Definition override_line : string :=
  "%_{" +:+ quoted "set_result" +:+ ": {" +:+ quoted "main_class_override" +:+ ": null, "
  +:+ quoted "jar_path_override" +:+ ": null, " +:+ quoted "classpath_extension" +:+ ": []}}".
Definition result_line (hook : string) : string :=
  if String.eqb hook "on_instance_setup" then override_line else null_result_line.
Definition incorrect_hook_line : string := "$_Incorrect hook".

(** What the check of the hook name prints. *)
Definition hook_lines (hook : string) : list string :=
  if Nitro.recognized hook then [] else [incorrect_hook_line; result_line hook].

(** The lines that can precede a failure. *)
Definition early_lines : list string :=
  [incorrect_hook_line; null_result_line; override_line; start_line; start_message_line].

(** A statement that prints nothing. *)
Definition quiet {A} (m : py A) : Prop := ∀ w, stdout (m w).1 = stdout w.

(** A statement that only adds to what is printed. *)
Definition grows {A} (m : py A) : Prop :=
  ∀ w w' r, m w = (w', r) → ∃ out, stdout w' = stdout w ++ out.

(** ** The target directory seen from inside

    [weld_dir] only touches what is below its directory. The proofs look at
    that directory as a map from names to nodes; its staging subdirectory is
    the entry [unwelded] of the map. *)

(** The tree with the node at [p] replaced by [n']. *)
Fixpoint fs_graft (p : list string) (n' n : node) : node :=
  match p with
  | [] => n'
  | x :: q =>
      match n with
      | Dir es =>
          match es !! x with
          | Some m => Dir (<[x:=fs_graft q n' m]> es)
          | None => n
          end
      | File _ => n
      end
  end.

(** [dir] is a directory of [w] and holds the entries [d]. *)
Definition at_dir (dir : Path) (d : gmap string node) (w : world) : Prop :=
  fs_lookup (parts dir) (fs w) = Some (Dir d).

(** [w] with the entries of [dir] replaced by [d]. *)
Definition with_dir (dir : Path) (d : gmap string node) (w : world) : world :=
  World (fs_graft (parts dir) (Dir d) (fs w)) (stdout w) (welds w).

(** The entries of the staging subdirectory. *)
Definition staged (d : gmap string node) : option (gmap string node) :=
  match d !! "unwelded" with
  | Some (Dir u) => Some u
  | _ => None
  end.

(** The staging subdirectory of [dir] in [w], if there is one. *)
Definition staging_of (dir : Path) (w : world) : option node :=
  fs_lookup (parts dir ++ ["unwelded"]) (fs w).

Definition is_file_node (o : option node) : bool :=
  match o with Some (File _) => true | _ => false end.

Definition is_dir_entry (o : option node) : bool :=
  match o with Some (Dir _) => true | _ => false end.

(** A step of the staging, on the entries of the directory: [None] stands
    for a raised exception. *)
Definition step : Type := gmap string node → option (gmap string node).

(** [for x in l: f x]. *)
Fixpoint each (l : list string) (f : string → step) : step := λ d,
  match l with
  | [] => Some d
  | x :: l' => match f x d with Some d' => each l' f d' | None => None end
  end.

(** The statement [S] on [dir] does what the step [s] does on its entries. *)
Definition follows (dir : Path) (S : py unit) (s : step) : Prop :=
  ∀ w d, at_dir dir d w →
    match s d with
    | Some d' => S w = (with_dir dir d' w, Done tt)
    | None => ∃ w' ex, S w = (w', Raise ex)
    end.

(** A regular file moves into the staging directory and replaces a file of
    its name there. *)
Definition move_in (e : string) : step := λ d,
  match d !! e with
  | Some (File x) =>
      match staged d with
      | Some u =>
          match u !! e with
          | Some (Dir _) => None
          | _ => Some (<["unwelded" := Dir (<[e:=File x]> u)]> (delete e d))
          end
      | None => None
      end
  | _ => Some d
  end.

(** The body of the first loop of [weld_dir]. *)
Definition stage_entry (marker e : string) : step := λ d,
  if contains marker e then Some d else move_in e d.

(** An entry of the staging directory moves back and replaces a file of its
    name in the directory. *)
Definition move_out (e : string) : step := λ d,
  match staged d with
  | Some u =>
      match d !! e with
      | Some (Dir _) => None
      | _ =>
          match u !! e with
          | Some n => Some (<[e:=n]> (<["unwelded" := Dir (delete e u)]> d))
          | None => None
          end
      end
  | None => None
  end.

(** The body of the second loop of variant 2: once for each pattern that
    the name contains. *)
Fixpoint restore (P : list string) (e : string) : step := λ d,
  match P with
  | [] => Some d
  | p :: P' =>
      if contains p e then match move_out e d with Some d' => restore P' e d' | None => None end
      else restore P' e d
  end.

Definition make_staging (d : gmap string node) : gmap string node :=
  match d !! "unwelded" with
  | None => <["unwelded" := Dir ∅]> d
  | Some _ => d
  end.

(** Lines 17 to 36 of variant 1, lines 21 to 41 of variant 2. *)
Definition stage_all (marker : string) : step := λ d,
  let d0 := make_staging d in each (names d0) (stage_entry marker) d0.

(** Lines 43 to 51 of variant 2. *)
Definition restore_all (P : list string) : step := λ d,
  match staged d with
  | Some u => each (names u) (restore P) d
  | None => None
  end.

(** The name contains one of the patterns. *)
Definition ignored (P : list string) (e : string) : bool := existsb (λ p, contains p e) P.

(** A regular file that the first loop moves. *)
Definition movable (marker : string) (d : gmap string node) (e : string) : bool :=
  negb (contains marker e) && is_file_node (d !! e).

(** The world after the engine was called with [c]. *)
Definition called (w : world) (c : weld_call) : world :=
  World (fs w) (stdout w) (welds w ++ [c]).

(** The calls the two variants make once [u] is staged in [dir]. *)
Definition mcvm_call (dir : Path) (u : gmap string node) : weld_call :=
  WeldCall (map (λ x, PackPath (child dir x)) (names u)) (path_str dir) dir.

Definition nitro_call (dir : Path) (u : gmap string node) : weld_call :=
  WeldCall (map (λ x, PackStr (path_str (child (child dir "unwelded") x))) (names u))
           (path_str dir) dir.

(** What variant 2 saves for a mode. *)
Definition saved (mode : string) (ctx : weld_ctx) (d : gmap string node) : gmap string node :=
  if String.eqb mode "data" then <["Welded Packs.zip" := File (ctx_data ctx)]> d
  else if String.eqb mode "resource" then <["Welded Packs.zip" := File (ctx_assets ctx)]> d
  else d.

(** How many of the patterns the name contains. *)
Fixpoint hits (P : list string) (e : string) : nat :=
  match P with
  | [] => 0
  | p :: P' => (if contains p e then 1 else 0) + hits P' e
  end.

(** The two variants of the plugin, and [weld_dir] of either ([mode] is
    variant 2's own). *)
Inductive variant : Type := Variant1 | Variant2.

Definition weld_dir_of (v : variant) (engine : weld_call → node → outcome weld_ctx)
    (dir : Path) (ignore : json) (mode : string) : py unit :=
  match v with
  | Variant1 => Mcvm.weld_dir engine dir ignore
  | Variant2 => Nitro.weld_dir engine dir ignore mode
  end.

(** The merged archive of a variant and the marker its name carries. *)
Definition archive_of (v : variant) : string :=
  match v with Variant1 => "weld_pack.zip" | Variant2 => "Welded Packs.zip" end.

Definition marker_of (v : variant) : string :=
  match v with Variant1 => "weld_pack" | Variant2 => "Welded Packs" end.

(** ** Notions of the further properties *)

(** The paths [p] and [q] part ways: at some depth their names differ. *)
Fixpoint diverge (p q : list string) : bool :=
  match p, q with
  | a :: p', b :: q' => if String.eqb a b then diverge p' q' else true
  | _, _ => false
  end.

(** The statement changes the file system at or below [p] only. *)
Definition stays_below {A} (p : list string) (m : py A) : Prop :=
  ∀ w w' r, m w = (w', r) → ∃ n, fs w' = fs_graft p n (fs w).

(** What a variant writes into its archive: variant 1 always the data pack
    (line 44), variant 2 the pack of its mode and nothing for another mode
    (lines 62 to 65). *)
Definition archive_bytes (v : variant) (mode : string) (ctx : weld_ctx) : option string :=
  match v with
  | Variant1 => Some (ctx_data ctx)
  | Variant2 =>
      if String.eqb mode "data" then Some (ctx_data ctx)
      else if String.eqb mode "resource" then Some (ctx_assets ctx)
      else None
  end.

(** The ignore list as a variant heeds it: variant 1 not at all. *)
Definition heeds (v : variant) (P : list string) (e : string) : bool :=
  match v with Variant1 => false | Variant2 => ignored P e end.

(** The pack is a path that names nothing in the file system. *)
Definition pack_missing (n : node) (pk : pack) : bool :=
  match pk with
  | PackPath p => bool_decide (fs_lookup (parts p) n = None)
  | PackStr _ => false
  end.

(** What a completed run of variant 2 can have printed between the lines of
    the hook check and the result. *)
Definition run_shapes : list (list string) :=
  [ []; [start_line; start_message_line];
    [start_line; start_message_line; success_line; end_line] ].

(** The lines of the hook check for a command line. *)
Definition argv_hook_lines (argv : list string) : list string :=
  match argv !! 1 with Some hook => hook_lines hook | None => [] end.

Definition IndexError : exn := Exn "IndexError" "list index out of range".
Definition KeyError (key : string) : exn := Exn "KeyError" ("'" +:+ key +:+ "'").
Definition AttributeError_join : exn :=
  Exn "AttributeError" "'PosixPath' object has no attribute 'join'".

(** An engine that fails on every call. *)
Definition engine_down : weld_call → node → outcome weld_ctx :=
  λ _ _, Raise (Exn "RuntimeError" "merge failed").

(** A name an entry of a directory can have, and a path made of such names:
    the tree knows no parent reference, so [..] is no name to look up. *)
Definition proper_name (x : string) : bool :=
  negb (String.eqb x "") && negb (String.eqb x ".") && negb (String.eqb x "..")
  && negb (contains "/" x).

Definition proper_path (p : list string) : bool := forallb proper_name p.

(** The result line the instance-setup hook would have if every field of
    the override struct were null. *)
Definition all_null_override_line : string :=
  "%_" +:+ dumps (JObj [("set_result",
                         JObj [("main_class_override", JNull); ("jar_path_override", JNull);
                               ("classpath_extension", JNull)])]).

(** An argument of a full instance setup on a server. *)
Definition setup_arg : json :=
  JObj [("update_depth", JStr "full"); ("config", JObj [("datapack_folder", JNull)]);
        ("game_dir", JStr "/g"); ("side", JStr "server")].

(** A directory [/d] with two packs that two patterns match. *)
Definition twin_packs : gmap string node := {[ "b1.zip" := File "1"; "b2.zip" := File "2" ]}.

Definition twin_world : world := World (Dir {[ "d" := Dir twin_packs ]}) [] [].

(** * Facts *)

(** ** The emitter *)

Section json_induction.
Variable P : json → Prop.
Hypothesis Hnull : P JNull.
Hypothesis Hbool : ∀ b, P (JBool b).
Hypothesis Hnum : ∀ z, P (JNum z).
Hypothesis Hstr : ∀ s, P (JStr s).
Hypothesis Harr : ∀ items, Forall P items → P (JArr items).
Hypothesis Hobj : ∀ fields, Forall (λ kv, P kv.2) fields → P (JObj fields).

Fixpoint json_rect' (j : json) : P j :=
  match j with
  | JNull => Hnull
  | JBool b => Hbool b
  | JNum z => Hnum z
  | JStr s => Hstr s
  | JArr items =>
      Harr items ((fix go (l : list json) : Forall P l :=
                     match l with
                     | [] => List.Forall_nil _
                     | x :: l' => List.Forall_cons _ x l' (json_rect' x) (go l')
                     end) items)
  | JObj fields =>
      Hobj fields ((fix go (l : list (string * json)) : Forall (λ kv, P kv.2) l :=
                      match l with
                      | [] => List.Forall_nil _
                      | kv :: l' => List.Forall_cons (λ kv, P kv.2) kv l' (json_rect' kv.2) (go l')
                      end) fields)
  end.
End json_induction.

Lemma one_line_app a b : one_line (a +:+ b) = one_line a && one_line b.
Proof. induction a as [|c a IH]; simpl; [done|]. by rewrite IH, andb_assoc. Qed.

Lemma one_line_escape_char c : one_line (escape_char c) = true.
Proof. destruct c as [[] [] [] [] [] [] [] []]; reflexivity. Qed.

Lemma one_line_escape s : one_line (escape s) = true.
Proof.
  induction s as [|c s IH]; simpl; [done|].
  by rewrite one_line_app, one_line_escape_char, IH.
Qed.

Lemma one_line_quoted s : one_line (quoted s) = one_line s.
Proof.
  unfold quoted. change (String dquote (s +:+ String dquote "")) with (String dquote "" +:+ (s +:+ String dquote "")).
  rewrite !one_line_app. simpl. by rewrite andb_true_r.
Qed.

Lemma one_line_dumps_str s : one_line (dumps_str s) = true.
Proof. unfold dumps_str. by rewrite one_line_quoted, one_line_escape. Qed.

Lemma one_line_uint d : one_line (NilEmpty.string_of_uint d) = true.
Proof. induction d; simpl; auto. Qed.

Lemma one_line_int i : one_line (NilZero.string_of_int i) = true.
Proof.
  destruct i as [d|d]; unfold NilZero.string_of_int, NilZero.string_of_uint;
    pose proof (one_line_uint d) as H; destruct d; try done; simpl; exact H.
Qed.

Lemma one_line_join sep l :
  one_line sep = true → Forall (λ s, one_line s = true) l → one_line (join sep l) = true.
Proof.
  intros Hsep. induction 1 as [|x l Hx Hl IH]; simpl; [done|].
  destruct l as [|y l']; [done|].
  rewrite !one_line_app, Hx, Hsep. simpl. exact IH.
Qed.

Lemma one_line_dumps j : one_line (dumps j) = true.
Proof.
  induction j as [| b | z | s | items IH | fields IH] using json_rect'; simpl.
  - done.
  - by destruct b.
  - apply one_line_int.
  - apply one_line_dumps_str.
  - rewrite !one_line_app. simpl. rewrite andb_true_r.
    apply one_line_join; [done|]. by apply Forall_fmap.
  - rewrite !one_line_app. simpl. rewrite andb_true_r.
    apply one_line_join; [done|]. apply Forall_fmap.
    eapply Forall_impl; [exact IH|]. intros [k v] Hv; unfold compose; cbn [fst snd] in *.
    rewrite !one_line_app, one_line_dumps_str, Hv. reflexivity.
Qed.

Lemma escape_plain s : plain s = true → escape s = s.
Proof.
  induction s as [|c s IH]; simpl; [done|].
  intros [Hc Hs]%andb_true_iff. rewrite (IH Hs). clear IH Hs.
  destruct c as [[] [] [] [] [] [] [] []]; try discriminate Hc; reflexivity.
Qed.

Lemma one_line_plain s : plain s = true → one_line s = true.
Proof.
  induction s as [|c s IH]; simpl; [done|].
  intros [Hc Hs]%andb_true_iff. rewrite (IH Hs), andb_true_r. clear IH Hs.
  destruct c as [[] [] [] [] [] [] [] []]; try discriminate Hc; reflexivity.
Qed.

(** ** Statements: sequencing, exceptions, printing *)

Lemma bind_done {A B} (m : py A) (f : A → py B) w w1 a :
  m w = (w1, Done a) → bind m f w = f a w1.
Proof. intros H. unfold bind, mbind, py_bind. by rewrite H. Qed.

Lemma bind_raise {A B} (m : py A) (f : A → py B) w w1 e :
  m w = (w1, Raise e) → bind m f w = (w1, Raise e).
Proof. intros H. unfold bind, mbind, py_bind. by rewrite H. Qed.

Lemma seq_done {A B} (m : py A) (k : py B) w w1 a :
  m w = (w1, Done a) → (m ;; k) w = k w1.
Proof. intros H. unfold mbind, py_bind. by rewrite H. Qed.

Lemma seq_raise {A B} (m : py A) (k : py B) w w1 e :
  m w = (w1, Raise e) → (m ;; k) w = (w1, Raise e).
Proof. intros H. unfold mbind, py_bind. by rewrite H. Qed.

Lemma for_each_cons {A} (x : A) l (body : A → py unit) :
  for_each (x :: l) body = (body x;; for_each l body).
Proof. reflexivity. Qed.

Lemma seq_is_bind {A B} (m : py A) (k : py B) : (m ;; k) = bind m (λ _, k).
Proof. reflexivity. Qed.

Lemma bind_inv {A B} (m : py A) (f : A → py B) w w' r :
  bind m f w = (w', r) →
  (∃ w1 a, m w = (w1, Done a) ∧ f a w1 = (w', r))
  ∨ (∃ e, m w = (w', Raise e) ∧ r = Raise e).
Proof.
  unfold bind, mbind, py_bind. destruct (m w) as [w1 [a|e]]; intros H.
  - left. eauto.
  - right. inversion H; subst. eauto.
Qed.

Lemma lift_run {A} (o : outcome A) w : lift o w = (w, o).
Proof. reflexivity. Qed.

Lemma quiet_ret {A} (a : A) : quiet (ret a).
Proof. by intros w. Qed.
Lemma quiet_pass : quiet pass.
Proof. by intros w. Qed.
Lemma quiet_raise {A} e : quiet (@raise A e).
Proof. by intros w. Qed.
Lemma quiet_lift {A} (o : outcome A) : quiet (lift o).
Proof. by intros w. Qed.

Lemma quiet_bind {A B} (m : py A) (f : A → py B) :
  quiet m → (∀ a, quiet (f a)) → quiet (bind m f).
Proof.
  intros Hm Hf w. unfold bind, mbind, py_bind.
  specialize (Hm w). destruct (m w) as [w1 [a|e]]; simpl in *; [|done].
  by rewrite Hf.
Qed.

Lemma quiet_seq {A B} (m : py A) (k : py B) : quiet m → quiet k → quiet (m ;; k).
Proof. intros Hm Hk. apply (quiet_bind m (λ _, k)); auto. Qed.

Lemma quiet_for_each {A} (l : list A) (body : A → py unit) :
  (∀ x, quiet (body x)) → quiet (for_each l body).
Proof.
  intros Hb. induction l as [|x l IH]; simpl; [apply quiet_ret|].
  apply quiet_seq; auto.
Qed.

Lemma quiet_set_fs n : quiet (set_fs n).
Proof. by intros w. Qed.
Lemma quiet_path_exists p : quiet (path_exists p).
Proof. by intros w. Qed.
Lemma quiet_is_file p : quiet (is_file p).
Proof. by intros w. Qed.
Lemma quiet_mkdir p : quiet (os_mkdir p).
Proof. intros w. unfold os_mkdir. repeat case_match; done. Qed.
Lemma quiet_listdir p : quiet (os_listdir p).
Proof. intros w. unfold os_listdir. repeat case_match; done. Qed.
Lemma quiet_remove p : quiet (os_remove p).
Proof. intros w. unfold os_remove. repeat case_match; done. Qed.
Lemma quiet_rename p q : quiet (os_rename p q).
Proof. intros w. unfold os_rename. repeat case_match; done. Qed.
Lemma quiet_walk_dirs p : quiet (walk_dirs p).
Proof. intros w. unfold walk_dirs. repeat case_match; done. Qed.
Lemma quiet_to_path x : quiet (to_path x).
Proof. intros w. unfold to_path. repeat case_match; done. Qed.
Lemma quiet_save_pack p b : quiet (save_pack p b).
Proof. intros w. unfold save_pack. repeat case_match; done. Qed.
Lemma quiet_call_engine eng packs o d : quiet (call_engine eng packs o d).
Proof. by intros w. Qed.
Lemma quiet_argv_at argv i : quiet (argv_at argv i).
Proof. intros w. unfold argv_at. case_match; done. Qed.

Create HintDb quiet.
#[local] Hint Resolve quiet_ret quiet_pass quiet_raise quiet_lift quiet_set_fs quiet_path_exists
  quiet_is_file quiet_mkdir quiet_listdir quiet_remove quiet_rename quiet_walk_dirs
  quiet_to_path quiet_save_pack quiet_call_engine quiet_argv_at : quiet.

Ltac quiet_step :=
  match goal with
  | |- quiet (bind _ _) => apply quiet_bind; [|intros ?]
  | |- quiet (_ ≫= _) => apply quiet_seq
  | |- quiet (for_each _ _) => apply quiet_for_each; intros ?
  | |- quiet (if ?b then _ else _) => destruct b
  | |- quiet (match ?x with _ => _ end) => destruct x
  | |- quiet (let _ := _ in _) => cbv zeta
  | |- quiet _ => solve [auto with quiet]
  end.

Lemma quiet_mcvm_weld_dir engine dir ignore : quiet (Mcvm.weld_dir engine dir ignore).
Proof. unfold Mcvm.weld_dir. repeat quiet_step. Qed.

Lemma quiet_nitro_weld_dir engine dir ignore mode : quiet (Nitro.weld_dir engine dir ignore mode).
Proof. unfold Nitro.weld_dir. repeat quiet_step. Qed.

Lemma quiet_existing_datapacks saves entries found :
  quiet (Nitro.existing_datapacks saves entries found).
Proof.
  revert found. induction entries as [|e l IH]; intros found; simpl; repeat quiet_step; apply IH.
Qed.

Lemma quiet_nitro_datapack_dirs arg game_dir : quiet (Nitro.datapack_dirs arg game_dir).
Proof.
  unfold Nitro.datapack_dirs. repeat quiet_step; apply quiet_existing_datapacks.
Qed.

Lemma nitro_set_result_says hook w :
  Nitro.set_result hook w = (says w [result_line hook], Done tt).
Proof.
  unfold Nitro.set_result, result_line. destruct (String.eqb hook "on_instance_setup"); reflexivity.
Qed.

Lemma nitro_start_says w :
  Nitro.output "start_process" JNull w = (says w [start_line], Done tt).
Proof. reflexivity. Qed.

Lemma nitro_start_message_says w :
  Nitro.output "message" Nitro.start_message w = (says w [start_message_line], Done tt).
Proof. reflexivity. Qed.

Lemma nitro_success_says w :
  Nitro.output "message" Nitro.success_message w = (says w [success_line], Done tt).
Proof. reflexivity. Qed.

Lemma nitro_end_says w :
  Nitro.output "end_process" JNull w = (says w [end_line], Done tt).
Proof. reflexivity. Qed.

Lemma append_assoc (a b c : string) : (a +:+ b) +:+ c = a +:+ (b +:+ c).
Proof.
  induction a as [|x a IH]; [reflexivity|].
  change (String x ((a +:+ b) +:+ c) = String x (a +:+ (b +:+ c))). by rewrite IH.
Qed.
Lemma escape_cons c s : escape (String c s) = escape_char c +:+ escape s.
Proof. reflexivity. Qed.

Lemma escape_app a b : escape (a +:+ b) = escape a +:+ escape b.
Proof.
  induction a as [|x a IH]; [reflexivity|].
  change (String x a +:+ b) with (String x (a +:+ b)).
  by rewrite !escape_cons, IH, append_assoc.
Qed.

Lemma quoted_app s : quoted s = String dquote "" +:+ s +:+ String dquote "".
Proof. reflexivity. Qed.

Lemma dumps_error_text (x : string) :
  dumps_str ("Failed to weld packs:" +:+ String newline x)
  = String dquote "Failed to weld packs:\n" +:+ escape x +:+ String dquote "".
Proof.
  unfold dumps_str. rewrite escape_app, escape_cons, quoted_app, !append_assoc. reflexivity.
Qed.

Lemma nitro_error_says e w :
  Nitro.output "message" (Nitro.error_message e) w = (says w [error_line e], Done tt).
Proof.
  unfold Nitro.output, Nitro.error_message, print, says. simpl. f_equal. f_equal. f_equal. f_equal.
  rewrite dumps_error_text. unfold error_line, error_head, error_tail.
  rewrite !append_assoc. reflexivity.
Qed.

Lemma says_says w a b : says (says w a) b = says w (a ++ b).
Proof. unfold says; simpl. by rewrite <- app_assoc. Qed.

Lemma says_nil w : says w [] = w.
Proof. destruct w; unfold says; simpl. by rewrite app_nil_r. Qed.

Lemma weld_disabled_true fields cfg v :
  assoc "config" fields = Some (JObj cfg) → assoc "disable_weld" cfg = Some v →
  Nitro.weld_disabled (JObj fields) = Done (truthy v)
  ∧ Mcvm.weld_disabled (JObj fields) = Done (truthy v).
Proof.
  intros Hc Hd. unfold Nitro.weld_disabled, Mcvm.weld_disabled, and_then; simpl.
  rewrite Hc; simpl. rewrite Hd; simpl. done.
Qed.

Lemma full_setup_total hook fields :
  ∃ b, Nitro.full_setup hook (JObj fields) = Done b.
Proof.
  unfold Nitro.full_setup, and_then; simpl.
  destruct (String.eqb hook "on_instance_setup"); [|eauto].
  destruct (assoc "update_depth" fields) as [d|] eqn:E; simpl.
  - eauto.
  - eauto.
Qed.

Lemma quiet_run {A} (m : py A) w w1 r : quiet m → m w = (w1, r) → stdout w1 = stdout w.
Proof. intros Hq H. specialize (Hq w). by rewrite H in Hq. Qed.

Lemma print_run s w : print s w = (says w [s], Done tt).
Proof. reflexivity. Qed.

Lemma argv_at_inv argv i w w1 r :
  argv_at argv i w = (w1, r) →
  w1 = w ∧ ((∃ s, argv !! i = Some s ∧ r = Done s) ∨ (argv !! i = None ∧ ∃ e, r = Raise e)).
Proof.
  unfold argv_at. destruct (argv !! i); inversion 1; subst; split; eauto.
Qed.

Tactic Notation "step" hyp(H) "as" ident(w1) ident(a) ident(Hm) :=
  let e := fresh "e" in
  apply bind_inv in H as [(w1 & a & Hm & H) | (e & Hm & H)].

Lemma result_line_early hook : result_line hook ∈ early_lines.
Proof.
  unfold result_line, early_lines. destruct (String.eqb hook "on_instance_setup"); set_solver.
Qed.

Lemma nitro_hook_check hook w :
  (if negb (Nitro.recognized hook)
   then print "$_Incorrect hook";; Nitro.set_result hook else pass) w
  = (says w (hook_lines hook), Done tt).
Proof.
  unfold hook_lines. destruct (Nitro.recognized hook); simpl.
  - by rewrite says_nil.
  - unfold mbind, py_bind, print. rewrite nitro_set_result_says. unfold says; simpl.
    by rewrite <- app_assoc.
Qed.

Lemma hook_lines_early hook : Forall (λ l, l ∈ early_lines) (hook_lines hook).
Proof.
  unfold hook_lines. destruct (Nitro.recognized hook); [by apply Forall_nil|].
  apply Forall_cons; split; [set_solver|].
  apply Forall_cons; split; [apply result_line_early|by apply Forall_nil].
Qed.

Lemma nitro_run_stops_early loads engine argv w w1 e :
  Nitro.run loads engine argv w = (w1, Raise e) →
  ∃ out, stdout w1 = stdout w ++ out ∧ Forall (λ l, l ∈ early_lines) out.
Proof.
  intros H. unfold Nitro.run in H.
  step H as wa hook Hhook; [|apply argv_at_inv in Hhook as [-> _]; exists []; by rewrite app_nil_r].
  apply argv_at_inv in Hhook as [-> _].
  step H as wb u Hc; rewrite nitro_hook_check in Hc; [|discriminate Hc].
  inversion Hc; subst; clear Hc.
  assert (Hstay : ∃ out, stdout (says w (hook_lines hook)) = stdout w ++ out
                         ∧ Forall (λ l, l ∈ early_lines) out)
    by (exists (hook_lines hook); split; [done|apply hook_lines_early]).
  step H as wc raw Hm; [|apply argv_at_inv in Hm as [-> _]; done].
  apply argv_at_inv in Hm as [-> _].
  step H as wd arg Hm; rewrite lift_run in Hm; inversion Hm; subst; clear Hm; [|done].
  step H as we deferred Hm; rewrite lift_run in Hm; inversion Hm; subst; clear Hm; [|done].
  destruct deferred; [by rewrite nitro_set_result_says in H|].
  step H as wf disabled Hm; rewrite lift_run in Hm; inversion Hm; subst; clear Hm; [|done].
  destruct disabled; [by rewrite nitro_set_result_says in H|].
  step H as wg u1 Hm; rewrite nitro_start_says in Hm; [|discriminate Hm].
  inversion Hm; subst; clear Hm.
  step H as wh u2 Hm; rewrite nitro_start_message_says in Hm; [|discriminate Hm].
  inversion Hm; subst; clear Hm.
  clear Hstay.
  rewrite !says_says in H.
  set (w2 := says w _) in H.
  assert (Hstay : ∃ out, stdout w2 = stdout w ++ out ∧ Forall (λ l, l ∈ early_lines) out).
  { eexists. split; [reflexivity|].
    apply Forall_app; split; [apply hook_lines_early|].
    apply Forall_cons; split; [set_solver|].
    apply Forall_cons; split; [set_solver|by apply Forall_nil]. }
  clearbody w2.
  step H as wi gd Hm; rewrite lift_run in Hm; inversion Hm; subst; clear Hm; [|done].
  assert (Hrest :
    (let* game_dir := to_path gd in
     let* datapacks := Nitro.datapack_dirs arg game_dir in
     let resourcepack_dirs := [joinpath game_dir (Path_of "resourcepacks")] in
     let* weld_ignore := lift (Nitro.weld_ignore_of arg) in
     for_each datapacks (λ dir, Nitro.weld_dir engine dir weld_ignore "data");;
     for_each resourcepack_dirs (λ dir, Nitro.weld_dir engine dir weld_ignore "resource");;
     Nitro.output "message" Nitro.success_message;;
     Nitro.output "end_process" JNull;;
     Nitro.set_result hook) wi = (w1, Raise e) → stdout w1 = stdout wi).
  { clear H. intros H.
    step H as wj game_dir Hm; apply (quiet_run _ _ _ _ (quiet_to_path gd)) in Hm; [|done].
    rewrite <- Hm.
    step H as wk dirs Hd; apply (quiet_run _ _ _ _ (quiet_nitro_datapack_dirs _ _)) in Hd; [|done].
    rewrite <- Hd. cbv zeta in H.
    step H as wl ignore Hi; rewrite lift_run in Hi; inversion Hi; subst; clear Hi; [|done].
    step H as wm u3 Hw1;
      (eapply quiet_run in Hw1; [|apply quiet_for_each; intros ?; apply quiet_nitro_weld_dir]);
      [|done].
    rewrite <- Hw1.
    step H as wn u4 Hw2;
      (eapply quiet_run in Hw2; [|apply quiet_for_each; intros ?; apply quiet_nitro_weld_dir]);
      [|done].
    exfalso. clear -H.
    unfold mbind, py_bind in H.
    rewrite nitro_success_says, nitro_end_says, nitro_set_result_says in H. discriminate H. }
  destruct gd; try (rewrite (Hrest H); exact Hstay).
  by rewrite nitro_set_result_says in H.
Qed.

Lemma early_not_end : end_line ∉ early_lines.
Proof. unfold early_lines. intros H. repeat (apply elem_of_cons in H as [H|H]; [discriminate H|]). by apply elem_of_nil in H. Qed.

Lemma prefix_append (a b : string) : String.prefix a (a +:+ b) = true.
Proof.
  induction a as [|x a IH]; [by destruct b|].
  change (String x a +:+ b) with (String x (a +:+ b)). simpl.
  destruct (ascii_dec x x); [exact IH|done].
Qed.

Lemma early_not_error e : error_line e ∉ early_lines.
Proof.
  assert (Hnone : Forall (λ l, String.prefix error_head l = false) early_lines)
    by (repeat constructor).
  intros Hin. rewrite Forall_forall in Hnone. specialize (Hnone _ Hin).
  unfold error_line in Hnone. by rewrite prefix_append in Hnone.
Qed.

(** ** The file system *)

Lemma fs_lookup_app p q n :
  fs_lookup (p ++ q) n = match fs_lookup p n with Some m => fs_lookup q m | None => None end.
Proof.
  revert n. induction p as [|x p IH]; intros n; simpl; [done|].
  destruct n as [|es]; [done|]. destruct (es !! x); [apply IH|done].
Qed.

Lemma fs_lookup_graft p n' n m :
  fs_lookup p n = Some m → fs_lookup p (fs_graft p n' n) = Some n'.
Proof.
  revert n. induction p as [|x p IH]; intros n; simpl; [done|].
  destruct n as [|es]; [done|]. destruct (es !! x) as [k|] eqn:E; [|done].
  intros H. simpl. rewrite lookup_insert_eq. by apply IH.
Qed.

Lemma fs_graft_graft p a b n : fs_graft p a (fs_graft p b n) = fs_graft p a n.
Proof.
  revert n. induction p as [|x p IH]; intros n; simpl; [done|].
  destruct n as [|es]; [done|]. destruct (es !! x) as [k|] eqn:E; simpl; [|by rewrite E].
  by rewrite lookup_insert_eq, insert_insert_eq, IH.
Qed.

Lemma fs_graft_id p n m : fs_lookup p n = Some m → fs_graft p m n = n.
Proof.
  revert n. induction p as [|x p IH]; intros n; simpl; [congruence|].
  destruct n as [|es]; [done|]. destruct (es !! x) as [k|] eqn:E; [|done].
  intros H. rewrite (IH _ H). by rewrite insert_id.
Qed.

Lemma fs_put_cons x q v es :
  q ≠ [] →
  fs_put (x :: q) v (Dir es)
  = match es !! x with
    | Some m => match fs_put q v m with Some m' => Some (Dir (<[x:=m']> es)) | None => None end
    | None => None
    end.
Proof. destruct q; [done|reflexivity]. Qed.

Lemma fs_put_app p q v n m :
  q ≠ [] → fs_lookup p n = Some m →
  fs_put (p ++ q) v n = (λ m', fs_graft p m' n) <$> fs_put q v m.
Proof.
  intros Hq. revert n. induction p as [|x p IH]; intros n.
  - simpl. intros [= ->]. by destruct (fs_put q v m).
  - rewrite <- app_comm_cons. cbn [fs_lookup fs_graft].
    destruct n as [|es]; [done|]. destruct (es !! x) as [k|] eqn:E; [|done].
    intros H. rewrite fs_put_cons by (by destruct p, q). rewrite E, (IH _ H).
    by destruct (fs_put q v m).
Qed.

Lemma fs_put_parent p x v n n' :
  fs_put (p ++ [x]) v n = Some n' → ∃ es, fs_lookup p n = Some (Dir es).
Proof.
  revert n n'. induction p as [|y p IH]; intros n n'.
  - simpl. destruct n as [|es]; [done|]. intros _. eauto.
  - rewrite <- app_comm_cons. destruct n as [|es]; [done|].
    rewrite fs_put_cons by (by destruct p). cbn [fs_lookup].
    destruct (es !! y) as [k|]; [|done].
    destruct (fs_put (p ++ [x]) v k) eqn:E; [|done]. intros _. eauto.
Qed.

Section in_dir.
Context (dir : Path) (w : world) (d : gmap string node).
Hypothesis Hat : at_dir dir d w.

Local Abbreviation unwelded_path := (child dir "unwelded").

Lemma at_with d' : at_dir dir d' (with_dir dir d' w).
Proof. unfold at_dir, with_dir; simpl. by eapply fs_lookup_graft. Qed.

Lemma with_id : with_dir dir d w = w.
Proof. unfold with_dir. rewrite (fs_graft_id _ _ _ Hat). by destruct w. Qed.

Lemma lookup_child e : fs_lookup (parts (child dir e)) (fs w) = d !! e.
Proof. simpl. rewrite fs_lookup_app, Hat. simpl. by destruct (d !! e). Qed.

Lemma lookup_staging : fs_lookup (parts unwelded_path) (fs w) = d !! "unwelded".
Proof. apply lookup_child. Qed.

Lemma lookup_staged e :
  fs_lookup (parts (child unwelded_path e)) (fs w)
  = match staged d with Some u => u !! e | None => None end.
Proof.
  simpl. rewrite <- app_assoc, fs_lookup_app, Hat. simpl. unfold staged.
  destruct (d !! "unwelded") as [[|u]|]; try done. by destruct (u !! e).
Qed.

Lemma put_child e v :
  fs_put (parts (child dir e)) v (fs w)
  = Some (fs_graft (parts dir)
            (Dir (match v with Some m => <[e:=m]> d | None => delete e d end)) (fs w)).
Proof.
  simpl. rewrite (fs_put_app (parts dir) [e] v (fs w) (Dir d)); [reflexivity|done|exact Hat].
Qed.

Lemma put_staged e v :
  fs_put (parts (child unwelded_path e)) v (fs w)
  = match staged d with
    | Some u =>
        Some (fs_graft (parts dir)
                (Dir (<["unwelded" := Dir (match v with Some m => <[e:=m]> u | None => delete e u end)]> d))
                (fs w))
    | None => None
    end.
Proof.
  simpl. rewrite <- app_assoc.
  rewrite (fs_put_app (parts dir) (["unwelded"] ++ [e]) v (fs w) (Dir d)); [|done|exact Hat].
  cbn [app fs_put]. unfold staged. by destruct (d !! "unwelded") as [[|u]|].
Qed.

Lemma exists_child e :
  path_exists (child dir e) w = (w, Done (bool_decide (is_Some (d !! e)))).
Proof. unfold path_exists. by rewrite lookup_child. Qed.

Lemma is_file_child e : is_file (child dir e) w = (w, Done (is_file_node (d !! e))).
Proof. unfold is_file. by rewrite lookup_child. Qed.

Lemma exists_staged e :
  path_exists (child unwelded_path e) w
  = (w, Done (bool_decide (is_Some (match staged d with Some u => u !! e | None => None end)))).
Proof. unfold path_exists. by rewrite lookup_staged. Qed.

Lemma listdir_dir : os_listdir dir w = (w, Done (names d)).
Proof. unfold os_listdir. by rewrite Hat. Qed.

Lemma listdir_staged u :
  staged d = Some u → os_listdir unwelded_path w = (w, Done (names u)).
Proof.
  unfold os_listdir, staged. rewrite lookup_staging.
  destruct (d !! "unwelded") as [[|u']|]; try done. by intros [= ->].
Qed.

Lemma mkdir_staging :
  d !! "unwelded" = None →
  os_mkdir unwelded_path w = (with_dir dir (<["unwelded" := Dir ∅]> d) w, Done tt).
Proof. intros H. unfold os_mkdir. by rewrite lookup_staging, H, put_child. Qed.

Lemma remove_child e x :
  d !! e = Some (File x) → os_remove (child dir e) w = (with_dir dir (delete e d) w, Done tt).
Proof. intros H. unfold os_remove. by rewrite lookup_child, H, put_child. Qed.

Lemma remove_child_dir e es :
  d !! e = Some (Dir es) → ∃ ex, os_remove (child dir e) w = (w, Raise ex).
Proof. intros H. unfold os_remove. rewrite lookup_child, H. eauto. Qed.

Lemma remove_staged u e x :
  staged d = Some u → u !! e = Some (File x) →
  os_remove (child unwelded_path e) w
  = (with_dir dir (<["unwelded" := Dir (delete e u)]> d) w, Done tt).
Proof. intros Hu H. unfold os_remove. by rewrite lookup_staged, put_staged, Hu, H. Qed.

Lemma remove_staged_dir u e es :
  staged d = Some u → u !! e = Some (Dir es) →
  ∃ ex, os_remove (child unwelded_path e) w = (w, Raise ex).
Proof. intros Hu H. unfold os_remove. rewrite lookup_staged, Hu, H. eauto. Qed.

Lemma save_child name bytes :
  save_pack (child dir name) bytes w = (with_dir dir (<[name := File bytes]> d) w, Done tt).
Proof. unfold save_pack. by rewrite put_child. Qed.
End in_dir.

Lemma with_with dir d d' w : with_dir dir d' (with_dir dir d w) = with_dir dir d' w.
Proof. unfold with_dir; simpl. by rewrite fs_graft_graft. Qed.

Lemma staged_Some d u : staged d = Some u ↔ d !! "unwelded" = Some (Dir u).
Proof. unfold staged. destruct (d !! "unwelded") as [[|u']|]; naive_solver. Qed.

Lemma staged_insert d u : staged (<["unwelded" := Dir u]> d) = Some u.
Proof. unfold staged. by rewrite lookup_insert_eq. Qed.

Lemma staged_delete d e : e ≠ "unwelded" → staged (delete e d) = staged d.
Proof. intros H. unfold staged. by rewrite lookup_delete_ne. Qed.

Lemma staged_insert_ne d e n : e ≠ "unwelded" → staged (<[e:=n]> d) = staged d.
Proof. intros H. unfold staged. by rewrite lookup_insert_ne. Qed.

Lemma parts_differ (l : list string) (x e : string) : l ++ [e] ≠ (l ++ [x]) ++ [e].
Proof. intros H. apply (f_equal length) in H. rewrite !length_app in H. simpl in H. lia. Qed.

Section renames.
Context (dir : Path) (w : world) (d : gmap string node).
Hypothesis Hat : at_dir dir d w.

Local Abbreviation unwelded_path := (child dir "unwelded").

(** Into the staging directory. *)
Lemma rename_in e n u :
  d !! e = Some n → e ≠ "unwelded" → staged d = Some u → u !! e = None →
  os_rename (child dir e) (child unwelded_path e) w
  = (with_dir dir (<["unwelded" := Dir (<[e:=n]> u)]> (delete e d)) w, Done tt).
Proof.
  intros Hn Hne Hu He. unfold os_rename.
  rewrite (lookup_child dir w d Hat), Hn.
  rewrite bool_decide_eq_false_2 by apply parts_differ.
  rewrite (lookup_staged dir w d Hat), Hu, He.
  replace (rename_blocked n (child unwelded_path e) None) with (@None exn) by (by destruct n).
  rewrite (put_child dir w d Hat).
  pose proof (at_with dir w d Hat (delete e d)) as Hat1.
  change (fs_graft (parts dir) (Dir (delete e d)) (fs w))
    with (fs (with_dir dir (delete e d) w)).
  rewrite (put_staged dir _ _ Hat1), staged_delete, Hu by done.
  unfold set_fs, with_dir; simpl. by rewrite fs_graft_graft.
Qed.

Lemma rename_in_unstaged e x :
  d !! e = Some (File x) → staged d = None →
  ∃ ex, os_rename (child dir e) (child unwelded_path e) w = (w, Raise ex).
Proof.
  intros Hn Hu. unfold os_rename.
  rewrite (lookup_child dir w d Hat), Hn.
  rewrite bool_decide_eq_false_2 by apply parts_differ.
  rewrite (lookup_staged dir w d Hat), Hu. cbn [rename_blocked].
  rewrite (put_child dir w d Hat).
  pose proof (at_with dir w d Hat (delete e d)) as Hat1.
  change (fs_graft (parts dir) (Dir (delete e d)) (fs w))
    with (fs (with_dir dir (delete e d) w)).
  rewrite (put_staged dir _ _ Hat1).
  assert (staged (delete e d) = None) as ->; [|eauto].
  unfold staged in *. destruct (decide (e = "unwelded")) as [->|Hne].
  - by rewrite lookup_delete_eq.
  - by rewrite lookup_delete_ne.
Qed.

(** Out of the staging directory. *)
Lemma rename_out e n u :
  staged d = Some u → u !! e = Some n → d !! e = None →
  os_rename (child unwelded_path e) (child dir e) w
  = (with_dir dir (<[e:=n]> (<["unwelded" := Dir (delete e u)]> d)) w, Done tt).
Proof.
  intros Hu Hn He. unfold os_rename.
  rewrite (lookup_staged dir w d Hat), Hu, Hn.
  rewrite bool_decide_eq_false_2 by (intros H; symmetry in H; by apply parts_differ in H).
  rewrite (lookup_child dir w d Hat), He.
  replace (rename_blocked n (child dir e) None) with (@None exn) by (by destruct n).
  rewrite (put_staged dir w d Hat), Hu.
  pose proof (at_with dir w d Hat (<["unwelded" := Dir (delete e u)]> d)) as Hat1.
  change (fs_graft (parts dir) (Dir (<["unwelded" := Dir (delete e u)]> d)) (fs w))
    with (fs (with_dir dir (<["unwelded" := Dir (delete e u)]> d) w)).
  rewrite (put_child dir _ _ Hat1).
  unfold set_fs, with_dir; simpl. by rewrite fs_graft_graft.
Qed.

Lemma rename_out_missing e :
  (match staged d with Some u => u !! e | None => None end) = None →
  ∃ ex, os_rename (child unwelded_path e) (child dir e) w = (w, Raise ex).
Proof.
  intros Hn. unfold os_rename. rewrite (lookup_staged dir w d Hat), Hn. eauto.
Qed.
End renames.

(** ** The loops of the staging, on the entries of the directory *)

Lemma elem_of_names (d : gmap string node) e : e ∈ names d ↔ is_Some (d !! e).
Proof.
  unfold names. rewrite list_elem_of_fmap. split.
  - intros ([k n] & -> & Hin). apply elem_of_map_to_list in Hin. eauto.
  - intros [n Hn]. exists (e, n). split; [done|]. by apply elem_of_map_to_list.
Qed.

Lemma NoDup_names (d : gmap string node) : NoDup (names d).
Proof. apply NoDup_fst_map_to_list. Qed.

Lemma movable_file mk d e : movable mk d e = true → ∃ x, d !! e = Some (File x).
Proof.
  unfold movable. intros [_ H]%andb_true_iff. destruct (d !! e) as [[x|]|]; try done. eauto.
Qed.

Lemma movable_not_staging mk d u e :
  staged d = Some u → movable mk d e = true → e ≠ "unwelded".
Proof.
  intros Hu [x Hx]%movable_file ->. apply staged_Some in Hu. congruence.
Qed.

Lemma movable_agree mk d d' e : d' !! e = d !! e → movable mk d' e = movable mk d e.
Proof. unfold movable. by intros ->. Qed.

Lemma stage_entry_idle mk d e : movable mk d e = false → stage_entry mk e d = Some d.
Proof.
  unfold movable, stage_entry, move_in. destruct (contains mk e); [done|]. simpl.
  by destruct (d !! e) as [[x|]|].
Qed.

Lemma stage_entry_moves mk d u e :
  staged d = Some u → movable mk d e = true →
  stage_entry mk e d
  = if is_dir_entry (u !! e) then None
    else Some (<["unwelded" := Dir (<[e:=default (File "") (d !! e)]> u)]> (delete e d)).
Proof.
  intros Hu Hm. destruct (movable_file _ _ _ Hm) as [x Hx].
  unfold movable in Hm. apply andb_true_iff in Hm as [Hmk _].
  unfold stage_entry, move_in. destruct (contains mk e); [done|].
  rewrite Hx, Hu. simpl. by destruct (u !! e) as [[y|]|].
Qed.

Lemma bool_decide_cons_ne (e x : string) (l : list string) :
  e ≠ x → bool_decide (e ∈ x :: l) = bool_decide (e ∈ l).
Proof.
  intros He. apply bool_decide_ext. rewrite elem_of_cons. split; [|auto].
  by intros [?|?].
Qed.

Lemma bool_decide_cons_eq (x : string) (l : list string) : bool_decide (x ∈ x :: l) = true.
Proof. apply bool_decide_eq_true_2, elem_of_cons. by left. Qed.

Lemma bool_decide_nil (e : string) : bool_decide (e ∈ @nil string) = false.
Proof. apply bool_decide_eq_false_2, not_elem_of_nil. Qed.

Lemma elem_of_tail (e x : string) (l : list string) : e ∈ l → e ∈ x :: l.
Proof. intros. apply elem_of_cons. by right. Qed.

Lemma elem_of_head (x : string) (l : list string) : x ∈ x :: l.
Proof. apply elem_of_cons. by left. Qed.

Lemma elem_of_other (e x : string) (l : list string) : x ∉ l → e ∈ l → e ≠ x.
Proof. by intros Hx He ->. Qed.

Lemma stage_each mk l :
  NoDup l → ∀ d u, staged d = Some u →
  match each l (stage_entry mk) d with
  | Some d' =>
      ∃ u', staged d' = Some u'
        ∧ (∀ e, u' !! e = if bool_decide (e ∈ l) && movable mk d e then d !! e else u !! e)
        ∧ (∀ e, e ≠ "unwelded" →
                d' !! e = if bool_decide (e ∈ l) && movable mk d e then None else d !! e)
  | None => ∃ e, e ∈ l ∧ movable mk d e = true ∧ is_dir_entry (u !! e) = true
  end.
Proof.
  induction 1 as [|x l Hx Hl IH]; intros d u Hu; simpl.
  { exists u. split; [done|]. split; intros e; by rewrite ?bool_decide_nil. }
  destruct (movable mk d x) eqn:Hm.
  - rewrite (stage_entry_moves mk d u x Hu Hm).
    destruct (is_dir_entry (u !! x)) eqn:Hdir.
    { exists x. split; [apply elem_of_head|done]. }
    destruct (movable_file _ _ _ Hm) as [c Hc]. rewrite Hc. simpl.
    pose proof (movable_not_staging _ _ _ _ Hu Hm) as Hne.
    set (u1 := <[x:=File c]> u). set (d1 := <["unwelded" := Dir u1]> (delete x d)).
    assert (Hu1 : staged d1 = Some u1) by apply staged_insert.
    assert (Hsame : ∀ e, e ≠ x → movable mk d1 e = movable mk d e).
    { intros e He. unfold movable. f_equal. unfold d1.
      destruct (decide (e = "unwelded")) as [->|He'].
      - rewrite lookup_insert_eq. apply staged_Some in Hu. by rewrite Hu.
      - by rewrite lookup_insert_ne, lookup_delete_ne. }
    specialize (IH d1 u1 Hu1). destruct (each l (stage_entry mk) d1) as [d'|].
    + destruct IH as (u' & Hu' & Hin & Hout). exists u'. split; [done|]. split.
      * intros e. rewrite Hin. destruct (decide (e = x)) as [->|He].
        -- rewrite bool_decide_eq_false_2 by done. rewrite bool_decide_cons_eq.
           rewrite Hm. simpl. unfold u1. by rewrite lookup_insert_eq.
        -- rewrite (Hsame e He).
           rewrite (bool_decide_cons_ne e x l He).
           destruct (bool_decide (e ∈ l) && movable mk d e) eqn:Hb.
           ++ apply andb_true_iff in Hb as [_ Hb].
              pose proof (movable_not_staging _ _ _ _ Hu Hb).
              unfold d1. by rewrite lookup_insert_ne, lookup_delete_ne.
           ++ unfold u1. by rewrite lookup_insert_ne.
      * intros e Hunw. rewrite (Hout e Hunw). destruct (decide (e = x)) as [->|He].
        -- rewrite bool_decide_eq_false_2 by done. rewrite bool_decide_cons_eq.
           rewrite Hm. simpl. unfold d1. by rewrite lookup_insert_ne, lookup_delete_eq.
        -- rewrite (Hsame e He).
           rewrite (bool_decide_cons_ne e x l He).
           unfold d1. by rewrite lookup_insert_ne, lookup_delete_ne.
    + destruct IH as (e & He & Hme & Hde). pose proof (elem_of_other e x l Hx He).
      exists e. split; [by apply elem_of_tail|]. rewrite <- (Hsame e) by done. split; [done|].
      unfold u1 in Hde. by rewrite lookup_insert_ne in Hde.
  - rewrite (stage_entry_idle mk d x Hm).
    specialize (IH d u Hu). destruct (each l (stage_entry mk) d) as [d'|].
    + destruct IH as (u' & Hu' & Hin & Hout). exists u'. split; [done|].
      assert (Hb : ∀ e, bool_decide (e ∈ x :: l) && movable mk d e
                        = bool_decide (e ∈ l) && movable mk d e).
      { intros e. destruct (decide (e = x)) as [->|He].
        - by rewrite Hm, !andb_false_r.
        - by rewrite (bool_decide_cons_ne e x l He). }
      split; intros e; rewrite Hb; auto.
    + destruct IH as (e & He & Hme & Hde). exists e. split; [by apply elem_of_tail|done].
Qed.

Lemma ignored_hits P e : ignored P e = negb (hits P e =? 0)%nat.
Proof.
  induction P as [|p P IH]; simpl; [done|].
  destruct (contains p e); simpl; [done|exact IH].
Qed.

Lemma move_out_again e d d1 : move_out e d = Some d1 → move_out e d1 = None.
Proof.
  unfold move_out. destruct (staged d) as [u|] eqn:Hu; [|done].
  destruct (is_dir_entry (d !! e)) eqn:Hd.
  { by destruct (d !! e) as [[|]|]. }
  assert (Hne : e ≠ "unwelded").
  { intros ->. apply staged_Some in Hu. by rewrite Hu in Hd. }
  destruct (u !! e) as [n|] eqn:Hn; [|by destruct (d !! e) as [[|]|]].
  intros Hd1. assert (d1 = <[e:=n]> (<["unwelded" := Dir (delete e u)]> d)) as ->
    by (destruct (d !! e) as [[|]|]; congruence).
  rewrite staged_insert_ne, staged_insert by done.
  rewrite lookup_insert_eq, lookup_delete_eq. by destruct n.
Qed.

Lemma restore_stuck P e d :
  move_out e d = None → restore P e d = if ignored P e then None else Some d.
Proof.
  intros Hm. induction P as [|p P IH]; simpl; [done|].
  destruct (contains p e); simpl; [by rewrite Hm|exact IH].
Qed.

(** An entry that several patterns match is moved out once, and the next
    move finds nothing to move. *)
Lemma restore_entry P e d :
  restore P e d
  = if ignored P e then (if (hits P e =? 1)%nat then move_out e d else None) else Some d.
Proof.
  induction P as [|p P IH]; simpl; [done|].
  destruct (contains p e); simpl; [|exact IH].
  destruct (move_out e d) as [d1|] eqn:Hm; [|by destruct (hits P e =? 0)%nat].
  rewrite (restore_stuck P e d1 (move_out_again _ _ _ Hm)), ignored_hits.
  by destruct (hits P e).
Qed.

Lemma move_out_moves e d u :
  staged d = Some u →
  move_out e d
  = if is_dir_entry (d !! e) then None
    else match u !! e with
         | Some n => Some (<[e:=n]> (<["unwelded" := Dir (delete e u)]> d))
         | None => None
         end.
Proof. intros Hu. unfold move_out. rewrite Hu. by destruct (d !! e) as [[|]|]. Qed.

Lemma restore_each P l :
  NoDup l → ∀ d u, staged d = Some u →
  match each l (restore P) d with
  | Some d' =>
      ∃ u', staged d' = Some u'
        ∧ (∀ e, u' !! e = if bool_decide (e ∈ l) && ignored P e then None else u !! e)
        ∧ (∀ e, e ≠ "unwelded" →
                d' !! e = if bool_decide (e ∈ l) && ignored P e then u !! e else d !! e)
        ∧ (∀ e, e ∈ l → ignored P e = true →
                hits P e = 1 ∧ is_Some (u !! e) ∧ is_dir_entry (d !! e) = false)
  | None =>
      ∃ e, e ∈ l ∧ ignored P e = true
           ∧ (hits P e ≠ 1 ∨ u !! e = None ∨ is_dir_entry (d !! e) = true)
  end.
Proof.
  induction 1 as [|x l Hx Hl IH]; intros d u Hu; simpl.
  { exists u. split; [done|]. split; [|split]; intros e; rewrite ?bool_decide_nil; try done.
    by intros ?%elem_of_nil. }
  rewrite restore_entry. destruct (ignored P x) eqn:Hi.
  - destruct (hits P x =? 1)%nat eqn:Hh.
    2:{ exists x. split; [apply elem_of_head|]. split; [done|]. left. by apply Nat.eqb_neq. }
    apply Nat.eqb_eq in Hh. rewrite (move_out_moves x d u Hu).
    destruct (is_dir_entry (d !! x)) eqn:Hd.
    { exists x. split; [apply elem_of_head|]. eauto. }
    assert (Hne : x ≠ "unwelded").
    { intros ->. apply staged_Some in Hu. by rewrite Hu in Hd. }
    destruct (u !! x) as [n|] eqn:Hn.
    2:{ exists x. split; [apply elem_of_head|]. eauto. }
    set (u1 := delete x u). set (d1 := <[x:=n]> (<["unwelded" := Dir u1]> d)).
    assert (Hu1 : staged d1 = Some u1).
    { unfold d1. rewrite staged_insert_ne by done. apply staged_insert. }
    specialize (IH d1 u1 Hu1). destruct (each l (restore P) d1) as [d'|].
    + destruct IH as (u' & Hu' & Hin & Hout & Hok). exists u'. split; [done|].
      split; [|split].
      * intros e. rewrite Hin. destruct (decide (e = x)) as [->|He].
        -- rewrite bool_decide_eq_false_2 by done. rewrite bool_decide_cons_eq.
           rewrite Hi. simpl. unfold u1. apply lookup_delete_eq.
        -- rewrite (bool_decide_cons_ne e x l He).
           unfold u1. by rewrite lookup_delete_ne.
      * intros e Hunw. rewrite (Hout e Hunw). destruct (decide (e = x)) as [->|He].
        -- rewrite bool_decide_eq_false_2 by done. rewrite bool_decide_cons_eq.
           rewrite Hi. simpl. unfold d1. by rewrite lookup_insert_eq.
        -- rewrite (bool_decide_cons_ne e x l He).
           unfold u1, d1. by rewrite !lookup_insert_ne, lookup_delete_ne.
      * intros e [->|He]%elem_of_cons Hie.
        -- rewrite Hn, Hd. eauto.
        -- pose proof (elem_of_other e x l Hx He). destruct (Hok e He Hie) as (H1 & H2 & H3).
           split; [done|]. unfold u1 in H2. rewrite lookup_delete_ne in H2 by done.
           split; [done|]. unfold d1 in H3. rewrite lookup_insert_ne in H3 by done.
           destruct (decide (e = "unwelded")) as [->|He'].
           ++ by rewrite lookup_insert_eq in H3.
           ++ by rewrite lookup_insert_ne in H3.
    + destruct IH as (e & He & Hie & Hbad). pose proof (elem_of_other e x l Hx He).
      exists e. split; [by apply elem_of_tail|]. split; [done|].
      destruct Hbad as [Hbad|[Hbad|Hbad]]; [by left| |].
      * right; left. unfold u1 in Hbad. by rewrite lookup_delete_ne in Hbad.
      * right; right. unfold d1 in Hbad. rewrite lookup_insert_ne in Hbad by done.
        destruct (decide (e = "unwelded")) as [->|He'].
        -- apply staged_Some in Hu. rewrite Hu. reflexivity.
        -- by rewrite lookup_insert_ne in Hbad.
  - specialize (IH d u Hu). destruct (each l (restore P) d) as [d'|].
    + destruct IH as (u' & Hu' & Hin & Hout & Hok). exists u'. split; [done|].
      assert (Hb : ∀ e, bool_decide (e ∈ x :: l) && ignored P e
                        = bool_decide (e ∈ l) && ignored P e).
      { intros e. destruct (decide (e = x)) as [->|He].
        - by rewrite Hi, !andb_false_r.
        - by rewrite (bool_decide_cons_ne e x l He). }
      split; [|split].
      * intros e. by rewrite Hb.
      * intros e He. rewrite Hb. by apply Hout.
      * intros e [->|He]%elem_of_cons Hie; [congruence|auto].
    + destruct IH as (e & He & Hie & Hbad). exists e. split; [by apply elem_of_tail|done].
Qed.

Lemma make_staging_lookup d e : e ≠ "unwelded" → make_staging d !! e = d !! e.
Proof.
  intros He. unfold make_staging. destruct (d !! "unwelded"); [done|].
  by rewrite lookup_insert_ne.
Qed.

Lemma make_staging_staged d u : staged d = Some u → make_staging d = d.
Proof. intros Hu%staged_Some. unfold make_staging. by rewrite Hu. Qed.

Lemma movable_make_staging mk d e : movable mk (make_staging d) e = movable mk d e.
Proof.
  destruct (decide (e = "unwelded")) as [->|He].
  - unfold movable, make_staging. destruct (d !! "unwelded") as [n|] eqn:E.
    + by rewrite E.
    + by rewrite lookup_insert_eq.
  - apply movable_agree. by apply make_staging_lookup.
Qed.

Lemma make_staging_unstaged d :
  staged (make_staging d) = None → ∃ x, make_staging d !! "unwelded" = Some (File x).
Proof.
  unfold staged, make_staging. destruct (d !! "unwelded") as [[x|u]|] eqn:E.
  - rewrite E. eauto.
  - by rewrite E.
  - by rewrite lookup_insert_eq.
Qed.

(** A regular file by the name [unwelded] stops the first loop. *)
Lemma each_stuck mk l d x :
  contains mk "unwelded" = false → d !! "unwelded" = Some (File x) → "unwelded" ∈ l →
  each l (stage_entry mk) d = None.
Proof.
  intros Hmk Hd. induction l as [|y l IH]; [by intros ?%elem_of_nil|].
  intros Hin. simpl.
  assert (Hu : staged d = None) by (unfold staged; by rewrite Hd).
  unfold stage_entry, move_in. rewrite Hu.
  destruct (decide (y = "unwelded")) as [->|Hy].
  - by rewrite Hmk, Hd.
  - apply elem_of_cons in Hin as [?|Hin]; [done|].
    destruct (contains mk y); [by apply IH|].
    destruct (d !! y) as [[z|]|]; [done|by apply IH..].
Qed.

Lemma stage_all_spec mk d :
  contains mk "unwelded" = false →
  match stage_all mk d with
  | Some d1 =>
      ∃ u0 u1, staged (make_staging d) = Some u0 ∧ staged d1 = Some u1
        ∧ (∀ e, u1 !! e = if movable mk d e then d !! e else u0 !! e)
        ∧ (∀ e, e ≠ "unwelded" → d1 !! e = if movable mk d e then None else d !! e)
  | None =>
      staged (make_staging d) = None
      ∨ ∃ u0 e, staged (make_staging d) = Some u0 ∧ movable mk d e = true
                ∧ is_dir_entry (u0 !! e) = true
  end.
Proof.
  intros Hmk. unfold stage_all. cbv zeta. set (d0 := make_staging d).
  destruct (staged d0) as [u0|] eqn:Hu0.
  - assert (Hb : ∀ e, bool_decide (e ∈ names d0) && movable mk d0 e = movable mk d e).
    { intros e. unfold d0. rewrite movable_make_staging.
      destruct (movable mk d e) eqn:Hm; [|by rewrite andb_false_r].
      rewrite andb_true_r. apply bool_decide_eq_true_2, elem_of_names.
      rewrite <- movable_make_staging in Hm. destruct (movable_file _ _ _ Hm). eauto. }
    pose proof (stage_each mk (names d0) (NoDup_names d0) d0 u0 Hu0) as H.
    destruct (each (names d0) (stage_entry mk) d0) as [d1|].
    + destruct H as (u1 & Hu1 & Hin & Hout). exists u0, u1. split; [done|]. split; [done|].
      split.
      * intros e. rewrite Hin, Hb. destruct (movable mk d e) eqn:Hm; [|done].
        rewrite <- movable_make_staging in Hm.
        apply make_staging_lookup. exact (movable_not_staging mk d0 u0 e Hu0 Hm).
      * intros e He. rewrite (Hout e He), Hb. unfold d0. by rewrite make_staging_lookup.
    + destruct H as (e & He & Hm & Hd). right. exists u0, e. split; [done|].
      unfold d0 in Hm. by rewrite movable_make_staging in Hm.
  - destruct (make_staging_unstaged d Hu0) as [x Hx].
    assert (each (names d0) (stage_entry mk) d0 = None) as ->; [|by left].
    apply (each_stuck mk _ d0 x Hmk Hx). apply elem_of_names. unfold d0. rewrite Hx. eauto.
Qed.

Lemma restore_all_spec P d u :
  staged d = Some u →
  match restore_all P d with
  | Some d' =>
      ∃ u', staged d' = Some u'
        ∧ (∀ e, u' !! e = if ignored P e then None else u !! e)
        ∧ (∀ e, e ≠ "unwelded" →
                d' !! e = if ignored P e && bool_decide (is_Some (u !! e)) then u !! e else d !! e)
        ∧ (∀ e, is_Some (u !! e) → ignored P e = true →
                hits P e = 1 ∧ is_dir_entry (d !! e) = false)
  | None =>
      ∃ e, is_Some (u !! e) ∧ ignored P e = true
           ∧ (hits P e ≠ 1 ∨ is_dir_entry (d !! e) = true)
  end.
Proof.
  intros Hu. unfold restore_all. rewrite Hu.
  pose proof (restore_each P (names u) (NoDup_names u) d u Hu) as H.
  assert (Hb : ∀ e, bool_decide (e ∈ names u) = bool_decide (is_Some (u !! e))).
  { intros e. apply bool_decide_ext, elem_of_names. }
  destruct (each (names u) (restore P) d) as [d'|].
  - destruct H as (u' & Hu' & Hin & Hout & Hok). exists u'. split; [done|].
    split; [|split].
    + intros e. rewrite Hin, Hb. destruct (ignored P e); [|by rewrite andb_false_r].
      rewrite andb_true_r. destruct (u !! e) eqn:E; [|done].
      by rewrite bool_decide_eq_true_2.
    + intros e He. rewrite (Hout e He), Hb. by rewrite andb_comm.
    + intros e He Hi. apply elem_of_names in He. destruct (Hok e He Hi) as (? & ? & ?). done.
  - destruct H as (e & He & Hi & Hbad). exists e. apply elem_of_names in He.
    split; [done|]. split; [done|].
    destruct Hbad as [?|[Hn|?]]; [by left| |by right].
    rewrite Hn in He. by destruct He.
Qed.

(** ** Staging what is staged *)

Lemma movable_marked mk d e : contains mk e = true → movable mk d e = false.
Proof. unfold movable. by intros ->. Qed.

Lemma movable_true mk d e x :
  contains mk e = false → d !! e = Some (File x) → movable mk d e = true.
Proof. unfold movable. by intros -> ->. Qed.

(** Variant 1: once a directory is staged and the archive saved, no entry
    is left for the first loop to move. *)
Lemma restage_mcvm mk a d d1 c :
  contains mk "unwelded" = false → contains mk a = true →
  stage_all mk d = Some d1 →
  stage_all mk (<[a:=File c]> d1) = Some (<[a:=File c]> d1).
Proof.
  intros Hmk Ha H1.
  assert (Hau : a ≠ "unwelded") by (intros ->; congruence).
  pose proof (stage_all_spec mk d Hmk) as S. rewrite H1 in S.
  destruct S as (u0 & u1 & _ & Hu1 & S1 & S2).
  set (d3 := <[a:=File c]> d1).
  assert (Hu3 : staged d3 = Some u1) by (unfold d3; by rewrite staged_insert_ne).
  assert (A : ∀ e, movable mk d3 e = false).
  { intros e. destruct (contains mk e) eqn:Hme; [by apply movable_marked|].
    destruct (movable mk d3 e) eqn:Hm; [|done].
    destruct (movable_file _ _ _ Hm) as [x Hx].
    pose proof (movable_not_staging _ _ _ _ Hu3 Hm) as He.
    assert (e ≠ a) by (intros ->; congruence).
    unfold d3 in Hx. rewrite lookup_insert_ne in Hx by done.
    rewrite (S2 e He) in Hx. destruct (movable mk d e) eqn:Hm0; [done|].
    by rewrite (movable_true mk d e x Hme Hx) in Hm0. }
  pose proof (stage_all_spec mk d3 Hmk) as S. rewrite (make_staging_staged d3 u1 Hu3) in S.
  destruct (stage_all mk d3) as [d1'|].
  - destruct S as (u0' & u1' & Hu0' & Hu1' & S1' & S2').
    assert (u0' = u1) as -> by congruence.
    assert (u1' = u1) as ->.
    { apply map_eq. intros e. by rewrite S1', A. }
    f_equal. apply map_eq. intros e. destruct (decide (e = "unwelded")) as [->|He].
    + apply staged_Some in Hu1', Hu3. congruence.
    + by rewrite (S2' e He), A.
  - destruct S as [S|(u0' & e & _ & Hm & _)]; [congruence|]. by rewrite A in Hm.
Qed.

(** Variant 2: a second staging moves the ignored files in and out again
    and ends where it began. *)
Lemma restage_nitro mk a P d d1 d2 d3 :
  contains mk "unwelded" = false → contains mk a = true →
  stage_all mk d = Some d1 → restore_all P d1 = Some d2 →
  (∀ e, e ≠ a → d3 !! e = d2 !! e) →
  ∃ d1', stage_all mk d3 = Some d1' ∧ restore_all P d1' = Some d3.
Proof.
  intros Hmk Ha H1 H2 Hd3.
  assert (Hau : a ≠ "unwelded") by (intros ->; congruence).
  pose proof (stage_all_spec mk d Hmk) as S. rewrite H1 in S.
  destruct S as (u0 & u1 & _ & Hu1 & S1 & S2).
  pose proof (restore_all_spec P d1 u1 Hu1) as R. rewrite H2 in R.
  destruct R as (u2 & Hu2 & R1 & R2 & R3).
  assert (Hu3 : staged d3 = Some u2).
  { apply staged_Some. rewrite Hd3 by done. by apply staged_Some. }
  assert (B : ∀ e, movable mk d3 e = true →
                   ignored P e = true ∧ is_Some (u1 !! e) ∧ u1 !! e = d3 !! e).
  { intros e Hm. destruct (movable_file _ _ _ Hm) as [x Hx].
    pose proof (movable_not_staging _ _ _ _ Hu3 Hm) as He.
    assert (Hme : contains mk e = false).
    { unfold movable in Hm. by destruct (contains mk e). }
    assert (e ≠ a) by (intros ->; congruence).
    rewrite Hx. rewrite Hd3 in Hx by done. rewrite (R2 e He) in Hx.
    destruct (ignored P e && bool_decide (is_Some (u1 !! e))) eqn:Hb.
    - apply andb_true_iff in Hb as [Hi Hs]. apply bool_decide_eq_true in Hs. done.
    - rewrite (S2 e He) in Hx. destruct (movable mk d e) eqn:Hm0; [done|].
      by rewrite (movable_true mk d e x Hme Hx) in Hm0. }
  assert (Hgone : ∀ e, ignored P e = true → u2 !! e = None).
  { intros e Hi. by rewrite R1, Hi. }
  pose proof (stage_all_spec mk d3 Hmk) as S. rewrite (make_staging_staged d3 u2 Hu3) in S.
  destruct (stage_all mk d3) as [d1'|].
  2:{ destruct S as [S|(u0' & e & Hu0' & Hm & Hdir)]; [congruence|].
      assert (u0' = u2) as -> by congruence.
      destruct (B e Hm) as (Hi & _). by rewrite (Hgone e Hi) in Hdir. }
  destruct S as (u0' & u1' & Hu0' & Hu1' & S1' & S2').
  assert (u0' = u2) as -> by congruence. clear Hu0'.
  assert (C : ∀ e, is_Some (u1' !! e) → ignored P e = true → movable mk d3 e = true).
  { intros e Hs Hi. rewrite S1' in Hs. destruct (movable mk d3 e); [done|].
    rewrite (Hgone e Hi) in Hs. by destruct Hs. }
  exists d1'. split; [done|].
  pose proof (restore_all_spec P d1' u1' Hu1') as R.
  destruct (restore_all P d1') as [d2'|].
  2:{ destruct R as (e & Hs & Hi & Hbad). pose proof (C e Hs Hi) as Hm.
      destruct (B e Hm) as (_ & Hs1 & _). destruct (R3 e Hs1 Hi) as [Hh _].
      destruct Hbad as [Hbad|Hbad]; [done|].
      pose proof (movable_not_staging _ _ _ _ Hu3 Hm) as He.
      by rewrite (S2' e He), Hm in Hbad. }
  destruct R as (u2' & Hu2' & R1' & R2' & _).
  assert (u2' = u2) as ->.
  { apply map_eq. intros e. rewrite R1'. destruct (ignored P e) eqn:Hi.
    - by rewrite Hgone.
    - rewrite S1'. destruct (movable mk d3 e) eqn:Hm; [|done].
      destruct (B e Hm) as (Hi' & _). congruence. }
  f_equal. apply map_eq. intros e. destruct (decide (e = "unwelded")) as [->|He].
  - apply staged_Some in Hu2', Hu3. congruence.
  - rewrite (R2' e He).
    destruct (ignored P e && bool_decide (is_Some (u1' !! e))) eqn:Hb.
    + apply andb_true_iff in Hb as [Hi Hs]. apply bool_decide_eq_true in Hs.
      by rewrite S1', (C e Hs Hi).
    + rewrite (S2' e He). destruct (movable mk d3 e) eqn:Hm; [|done].
      destruct (B e Hm) as (Hi & _ & _). rewrite Hi in Hb. simpl in Hb.
      apply bool_decide_eq_false in Hb. destruct Hb. rewrite S1', Hm.
      destruct (movable_file _ _ _ Hm) as [x ->]. eauto.
Qed.

(** ** [weld_dir] on a directory, through its entries *)

Lemma follows_each dir l body f :
  (∀ x, follows dir (body x) (f x)) → follows dir (for_each l body) (each l f).
Proof.
  intros Hb. induction l as [|x l IH]; intros w d Hat; simpl.
  - by rewrite (with_id dir w d Hat).
  - specialize (Hb x w d Hat). destruct (f x d) as [d1|].
    + unfold mbind, py_bind. rewrite Hb.
      specialize (IH _ d1 (at_with dir w d Hat d1)). destruct (each l f d1) as [d2|].
      * by rewrite IH, with_with.
      * destruct IH as (w' & ex & ->). eauto.
    + destruct Hb as (w' & ex & Hb). unfold mbind, py_bind. rewrite Hb. eauto.
Qed.

Lemma ignore_loop_idle P e w :
  for_each (map JStr P) (λ ignored,
    let* hit := lift (in_str ignored e) in
    if hit then pass else pass) w = (w, Done tt).
Proof.
  induction P as [|p P IH]; simpl; [done|].
  unfold mbind, py_bind, bind, mbind, py_bind. simpl. by destruct (contains p e).
Qed.

Lemma ignore_loop_skip {A} P e (k : py A) w :
  (let* ignored_all := lift (py_iter (JArr (map JStr P))) in
   for_each ignored_all (λ ignored,
     let* hit := lift (in_str ignored e) in
     if hit then pass else pass);;
   k) w = k w.
Proof.
  rewrite (bind_done _ _ w w (map JStr P)) by done.
  by rewrite (seq_done _ _ _ _ _ (ignore_loop_idle P e w)).
Qed.

Lemma stage_body_follows dir marker P e :
  follows dir
    (if contains marker e then pass
     else
       let* ignored_all := lift (py_iter (JArr (map JStr P))) in
       for_each ignored_all (λ ignored,
         let* hit := lift (in_str ignored e) in
         if hit then pass else pass);;
       let* regular := is_file (child dir e) in
       if regular then
         let* taken := path_exists (child (child dir "unwelded") e) in
         (if taken then os_remove (child (child dir "unwelded") e) else pass);;
         os_rename (child dir e) (child (child dir "unwelded") e)
       else pass)
    (stage_entry marker e).
Proof.
  intros w d Hat. unfold stage_entry. destruct (contains marker e).
  { by rewrite (with_id dir w d Hat). }
  rewrite ignore_loop_skip.
  rewrite (bind_done _ _ _ _ _ (is_file_child dir w d Hat e)).
  unfold move_in. destruct (d !! e) as [[x|es]|] eqn:He; simpl;
    try by rewrite (with_id dir w d Hat).
  rewrite (bind_done _ _ _ _ _ (exists_staged dir w d Hat e)).
  destruct (staged d) as [u|] eqn:Hu.
  2:{ rewrite bool_decide_eq_false_2 by (by intros [? ?]).
      unfold mbind, py_bind; simpl.
      destruct (rename_in_unstaged dir w d Hat e x He Hu) as [ex ->]. eauto. }
  assert (Hne : e ≠ "unwelded").
  { intros ->. apply staged_Some in Hu. congruence. }
  destruct (u !! e) as [[y|es]|] eqn:Hue.
  - rewrite bool_decide_eq_true_2 by eauto. unfold mbind, py_bind.
    rewrite (remove_staged dir w d Hat u e y Hu Hue).
    rewrite (rename_in dir _ _ (at_with dir w d Hat _) e (File x) (delete e u)).
    + rewrite with_with. do 2 f_equal.
      rewrite delete_insert_ne, insert_insert_eq, insert_delete_eq by done. done.
    + by rewrite lookup_insert_ne.
    + done.
    + apply staged_insert.
    + apply lookup_delete_eq.
  - rewrite bool_decide_eq_true_2 by eauto. unfold mbind, py_bind.
    destruct (remove_staged_dir dir w d Hat u e es Hu Hue) as [ex ->]. eauto.
  - rewrite bool_decide_eq_false_2 by (by intros [? ?]). unfold mbind, py_bind; simpl.
    by rewrite (rename_in dir w d Hat e (File x) u).
Qed.

Lemma staged_delete_None d e : staged d = None → staged (delete e d) = None.
Proof.
  unfold staged. destruct (decide (e = "unwelded")) as [->|Hne].
  - by rewrite lookup_delete_eq.
  - by rewrite lookup_delete_ne.
Qed.

Lemma move_out_follows dir e :
  follows dir
    (let* taken := path_exists (child dir e) in
     (if taken then os_remove (child dir e) else pass);;
     os_rename (child (child dir "unwelded") e) (child dir e))
    (move_out e).
Proof.
  intros w d Hat. unfold move_out.
  rewrite (bind_done _ _ _ _ _ (exists_child dir w d Hat e)).
  destruct (d !! e) as [[x|es]|] eqn:He.
  - (* a regular file is in the way: it is removed first *)
    rewrite bool_decide_eq_true_2 by eauto.
    rewrite (seq_done _ _ _ _ _ (remove_child dir w d Hat e x He)).
    pose proof (at_with dir w d Hat (delete e d)) as Hat1.
    destruct (staged d) as [u|] eqn:Hu.
    + assert (Hne : e ≠ "unwelded") by (intros ->; apply staged_Some in Hu; congruence).
      destruct (u !! e) as [n|] eqn:Hue.
      * rewrite (rename_out dir _ _ Hat1 e n u);
          [|by rewrite staged_delete|done|apply lookup_delete_eq].
        rewrite with_with. do 2 f_equal.
        rewrite <- delete_insert_ne by done. by rewrite insert_delete_eq.
      * destruct (rename_out_missing dir _ _ Hat1 e) as [ex ->]; [|eauto].
        by rewrite staged_delete, Hu.
    + destruct (rename_out_missing dir _ _ Hat1 e) as [ex ->]; [|eauto].
      by rewrite staged_delete_None.
  - rewrite bool_decide_eq_true_2 by eauto.
    destruct (remove_child_dir dir w d Hat e es He) as [ex Hr].
    rewrite (seq_raise _ _ _ _ _ Hr). destruct (staged d); eauto.
  - rewrite bool_decide_eq_false_2 by (by intros [? ?]).
    rewrite (seq_done pass _ w w tt) by done.
    destruct (staged d) as [u|] eqn:Hu.
    + destruct (u !! e) as [n|] eqn:Hue.
      * by rewrite (rename_out dir w d Hat e n u).
      * destruct (rename_out_missing dir w d Hat e) as [ex ->]; [|eauto]. by rewrite Hu.
    + destruct (rename_out_missing dir w d Hat e) as [ex ->]; [|eauto]. by rewrite Hu.
Qed.

Lemma restore_loop_follows dir P e :
  follows dir
    (for_each (map JStr P) (λ ignored,
       let* hit := lift (in_str ignored e) in
       if hit then
         let* taken := path_exists (child dir e) in
         (if taken then os_remove (child dir e) else pass);;
         os_rename (child (child dir "unwelded") e) (child dir e)
       else pass))
    (restore P e).
Proof.
  induction P as [|p P IH]; intros w d Hat.
  - simpl. by rewrite (with_id dir w d Hat).
  - cbn [map restore]. rewrite for_each_cons.
    pose proof (move_out_follows dir e w d Hat) as Hm.
    destruct (contains p e) eqn:Hp.
    + destruct (move_out e d) as [d1|].
      * erewrite seq_done; [|rewrite (bind_done _ _ w w true) by (by simpl; rewrite Hp); exact Hm].
        specialize (IH _ d1 (at_with dir w d Hat d1)).
        destruct (restore P e d1) as [d2|].
        -- by rewrite IH, with_with.
        -- destruct IH as (w' & ex & ->). eauto.
      * destruct Hm as (w' & ex & Hm).
        erewrite seq_raise; [eauto|].
        rewrite (bind_done _ _ w w true) by (by simpl; rewrite Hp). exact Hm.
    + erewrite seq_done; [|by rewrite (bind_done _ _ w w false) by (by simpl; rewrite Hp)].
      apply (IH w d Hat).
Qed.

Lemma restore_body_follows dir P e :
  follows dir
    (let* ignored_all := lift (py_iter (JArr (map JStr P))) in
     for_each ignored_all (λ ignored,
       let* hit := lift (in_str ignored e) in
       if hit then
         let* taken := path_exists (child dir e) in
         (if taken then os_remove (child dir e) else pass);;
         os_rename (child (child dir "unwelded") e) (child dir e)
       else pass))
    (restore P e).
Proof.
  intros w d Hat. rewrite (bind_done _ _ w w (map JStr P)) by done.
  apply (restore_loop_follows dir P e w d Hat).
Qed.

Lemma make_staging_then {A} dir w d (k : py A) :
  at_dir dir d w →
  (let* there := path_exists (child dir "unwelded") in
   (if negb there then os_mkdir (child dir "unwelded") else pass);;
   k) w
  = k (with_dir dir (make_staging d) w).
Proof.
  intros Hat. rewrite (bind_done _ _ _ _ _ (exists_child dir w d Hat "unwelded")).
  unfold make_staging. destruct (d !! "unwelded") as [n|] eqn:E.
  - rewrite bool_decide_eq_true_2 by eauto. simpl.
    rewrite (seq_done pass _ w w tt) by done. by rewrite (with_id dir w d Hat).
  - rewrite bool_decide_eq_false_2 by (by intros [? ?]). simpl.
    by rewrite (seq_done _ _ _ _ _ (mkdir_staging dir w d Hat E)).
Qed.

Lemma listdir_unstaged dir w d :
  at_dir dir d w → staged d = None →
  ∃ ex, os_listdir (child dir "unwelded") w = (w, Raise ex).
Proof.
  intros Hat Hu. unfold os_listdir. rewrite (lookup_staging dir w d Hat).
  unfold staged in Hu. destruct (d !! "unwelded") as [[|u]|]; try done; eauto.
Qed.

Lemma called_with dir d w c : called (with_dir dir d w) c = with_dir dir d (called w c).
Proof. reflexivity. Qed.

Lemma mcvm_weld_dir_at engine dir P w d :
  at_dir dir d w →
  match stage_all "weld_pack" d with
  | Some d1 =>
      match staged d1 with
      | Some u1 =>
          let c := mcvm_call dir u1 in
          Mcvm.weld_dir engine dir (JArr (map JStr P)) w
          = match engine c (fs (with_dir dir d1 w)) with
            | Done ctx =>
                (called (with_dir dir (<["weld_pack.zip" := File (ctx_data ctx)]> d1) w) c, Done tt)
            | Raise ex => (called (with_dir dir d1 w) c, Raise ex)
            end
      | None => ∃ w' ex, Mcvm.weld_dir engine dir (JArr (map JStr P)) w = (w', Raise ex)
      end
  | None => ∃ w' ex, Mcvm.weld_dir engine dir (JArr (map JStr P)) w = (w', Raise ex)
  end.
Proof.
  intros Hat. unfold Mcvm.weld_dir, stage_all. cbv zeta.
  rewrite (make_staging_then dir w d _ Hat).
  pose proof (at_with dir w d Hat (make_staging d)) as Hat0.
  set (d0 := make_staging d) in *. set (w0 := with_dir dir d0 w) in *.
  rewrite (bind_done _ _ _ _ _ (listdir_dir dir w0 d0 Hat0)).
  pose proof (follows_each dir (names d0) _ _ (λ e, stage_body_follows dir "weld_pack" P e) w0 d0 Hat0)
    as Hloop.
  destruct (each (names d0) (stage_entry "weld_pack") d0) as [d1|].
  - rewrite (seq_done _ _ _ _ _ Hloop). unfold w0. rewrite with_with. clear Hloop.
    pose proof (at_with dir w d Hat d1) as Hat1.
    destruct (staged d1) as [u1|] eqn:Hu1.
    + rewrite (bind_done _ _ _ _ _ (listdir_staged dir _ d1 Hat1 u1 Hu1)).
      unfold bind, mbind, py_bind, call_engine. fold (mcvm_call dir u1).
      destruct (engine (mcvm_call dir u1) (fs (with_dir dir d1 w))) as [ctx|ex]; [|done].
      rewrite (save_child dir _ d1); [|exact Hat1].
      unfold with_dir, called; simpl. by rewrite fs_graft_graft.
    + destruct (listdir_unstaged dir _ d1 Hat1 Hu1) as [ex Hl].
      rewrite (bind_raise _ _ _ _ _ Hl). eauto.
  - destruct Hloop as (w' & ex & Hloop). rewrite (seq_raise _ _ _ _ _ Hloop). eauto.
Qed.

Lemma nitro_weld_dir_at engine dir P mode w d :
  at_dir dir d w →
  match stage_all "Welded Packs" d with
  | Some d1 =>
      match restore_all P d1 with
      | Some d2 =>
          match staged d2 with
          | Some u2 =>
              let c := nitro_call dir u2 in
              Nitro.weld_dir engine dir (JArr (map JStr P)) mode w
              = match engine c (fs (with_dir dir d2 w)) with
                | Done ctx => (called (with_dir dir (saved mode ctx d2) w) c, Done tt)
                | Raise ex => (called (with_dir dir d2 w) c, Raise ex)
                end
          | None => ∃ w' ex, Nitro.weld_dir engine dir (JArr (map JStr P)) mode w = (w', Raise ex)
          end
      | None => ∃ w' ex, Nitro.weld_dir engine dir (JArr (map JStr P)) mode w = (w', Raise ex)
      end
  | None => ∃ w' ex, Nitro.weld_dir engine dir (JArr (map JStr P)) mode w = (w', Raise ex)
  end.
Proof.
  intros Hat. unfold Nitro.weld_dir, stage_all. cbv zeta.
  rewrite (make_staging_then dir w d _ Hat).
  pose proof (at_with dir w d Hat (make_staging d)) as Hat0.
  set (d0 := make_staging d) in *. set (w0 := with_dir dir d0 w) in *.
  rewrite (bind_done _ _ _ _ _ (listdir_dir dir w0 d0 Hat0)).
  pose proof (follows_each dir (names d0) _ _
                (λ e, stage_body_follows dir "Welded Packs" P e) w0 d0 Hat0) as Hloop.
  destruct (each (names d0) (stage_entry "Welded Packs") d0) as [d1|].
  2:{ destruct Hloop as (w' & ex & Hloop). rewrite (seq_raise _ _ _ _ _ Hloop). eauto. }
  rewrite (seq_done _ _ _ _ _ Hloop). unfold w0. rewrite with_with. clear Hloop.
  pose proof (at_with dir w d Hat d1) as Hat1.
  unfold restore_all. destruct (staged d1) as [u1|] eqn:Hu1.
  2:{ destruct (listdir_unstaged dir _ d1 Hat1 Hu1) as [ex Hl].
      rewrite (bind_raise _ _ _ _ _ Hl). eauto. }
  rewrite (bind_done _ _ _ _ _ (listdir_staged dir _ d1 Hat1 u1 Hu1)).
  pose proof (follows_each dir (names u1) _ _
                (λ e, restore_body_follows dir P e) _ d1 Hat1) as Hloop.
  destruct (each (names u1) (restore P) d1) as [d2|].
  2:{ destruct Hloop as (w' & ex & Hloop). rewrite (seq_raise _ _ _ _ _ Hloop). eauto. }
  rewrite (seq_done _ _ _ _ _ Hloop). rewrite with_with. clear Hloop.
  pose proof (at_with dir w d Hat d2) as Hat2.
  destruct (staged d2) as [u2|] eqn:Hu2.
  2:{ destruct (listdir_unstaged dir _ d2 Hat2 Hu2) as [ex Hl].
      rewrite (bind_raise _ _ _ _ _ Hl). eauto. }
  rewrite (bind_done _ _ _ _ _ (listdir_staged dir _ d2 Hat2 u2 Hu2)).
  unfold bind, mbind, py_bind, call_engine. fold (nitro_call dir u2).
  destruct (engine (nitro_call dir u2) (fs (with_dir dir d2 w))) as [ctx|ex]; [|done].
  unfold saved. destruct (String.eqb mode "data").
  { rewrite (save_child dir _ d2); [|exact Hat2].
    unfold with_dir, called; simpl. by rewrite fs_graft_graft. }
  destruct (String.eqb mode "resource").
  { rewrite (save_child dir _ d2); [|exact Hat2].
    unfold with_dir, called; simpl. by rewrite fs_graft_graft. }
  reflexivity.
Qed.

(** ** Two runs of [weld_dir] *)

(** [weld_dir] ends well on directories only. *)
Lemma staging_needs_dir {A} dir (k : list string → py A) w w1 a :
  (let* there := path_exists (child dir "unwelded") in
   (if negb there then os_mkdir (child dir "unwelded") else pass);;
   let* entries := os_listdir dir in
   k entries) w = (w1, Done a) →
  ∃ d, at_dir dir d w.
Proof.
  intros H. step H as wa there Ht; [|discriminate H].
  unfold path_exists in Ht. injection Ht as <- <-.
  step H as wb u Hm; [|discriminate H].
  step H as wc entries Hl; [|discriminate H]. clear H.
  assert (Hb : ∃ d, at_dir dir d wb).
  { unfold os_listdir, at_dir in *.
    destruct (fs_lookup (parts dir) (fs wb)) as [[|es]|]; try discriminate Hl. eauto. }
  destruct Hb as [d0 Hd0]. cbn [parts child] in Hm.
  destruct (fs_lookup (parts dir ++ ["unwelded"]) (fs w)) as [n|] eqn:E.
  - rewrite bool_decide_eq_true_2 in Hm by eauto.
    change (pass w = (wb, Done u)) in Hm. injection Hm as <-. eauto.
  - rewrite bool_decide_eq_false_2 in Hm by (by intros [? ?]).
    cbn [negb] in Hm. unfold os_mkdir in Hm. cbn [parts child] in Hm. rewrite E in Hm.
    destruct (fs_put (parts dir ++ ["unwelded"]) (Some (Dir ∅)) (fs w)) as [m|] eqn:Hp;
      [|discriminate Hm].
    apply fs_put_parent in Hp as [es Hes]. by exists es.
Qed.

Lemma staging_of_at dir d w : at_dir dir d w → staging_of dir w = d !! "unwelded".
Proof. intros Hat. apply (lookup_staging dir w d Hat). Qed.

Lemma at_called dir d w c : at_dir dir d w → at_dir dir d (called w c).
Proof. done. Qed.

Lemma saved_lookup mode ctx d e : e ≠ "Welded Packs.zip" → saved mode ctx d !! e = d !! e.
Proof.
  intros He. unfold saved. destruct (String.eqb mode "data"); [by rewrite lookup_insert_ne|].
  destruct (String.eqb mode "resource"); [by rewrite lookup_insert_ne|done].
Qed.

(** ** Where [weld_dir] leaves the files, and what it hands to the engine *)

Lemma make_staging_file d x :
  d !! "unwelded" = Some (File x) → staged (make_staging d) = None.
Proof. intros H. unfold staged, make_staging. by rewrite H, H. Qed.

Lemma lookup_top dir d w e : at_dir dir d w → fs_lookup (parts dir ++ [e]) (fs w) = d !! e.
Proof. intros Hat. apply (lookup_child dir w d Hat). Qed.

Lemma lookup_below dir d u w e :
  at_dir dir d w → staged d = Some u → fs_lookup (parts dir ++ ["unwelded"; e]) (fs w) = u !! e.
Proof.
  intros Hat Hu. pose proof (lookup_staged dir w d Hat e) as H. simpl in H.
  rewrite <- app_assoc in H. simpl in H. by rewrite H, Hu.
Qed.

(** X1. A run of [weld_dir] of variant 2 that completes, and a regular file
    of the directory: if an entry of the ignore list matches its name it is
    in the directory and not in the staging directory afterwards; if none
    does and the name carries no marker it is in the staging directory and
    no longer in the directory. *)
Lemma nitro_weld_dir_places engine dir P mode w w1 d :
  at_dir dir d w →
  Nitro.weld_dir engine dir (JArr (map JStr P)) mode w = (w1, Done tt) →
  ∀ e x, d !! e = Some (File x) →
    (ignored P e = true →
       fs_lookup (parts dir ++ ["unwelded"; e]) (fs w1) = None
       ∧ is_Some (fs_lookup (parts dir ++ [e]) (fs w1)))
    ∧ (ignored P e = false → contains "Welded Packs" e = false →
       fs_lookup (parts dir ++ ["unwelded"; e]) (fs w1) = Some (File x)
       ∧ fs_lookup (parts dir ++ [e]) (fs w1) = None).
Proof.
  intros Hat H e x He.
  pose proof (nitro_weld_dir_at engine dir P mode w d Hat) as H1.
  pose proof (stage_all_spec "Welded Packs" d eq_refl) as S.
  destruct (stage_all "Welded Packs" d) as [d1|]; [|destruct H1 as (? & ? & H1); congruence].
  destruct S as (u0 & u1 & Hu0 & Hu1 & S1 & S2).
  assert (Hne : e ≠ "unwelded").
  { intros ->. by rewrite (make_staging_file d x He) in Hu0. }
  pose proof (restore_all_spec P d1 u1 Hu1) as R.
  destruct (restore_all P d1) as [d2|]; [|destruct H1 as (? & ? & H1); congruence].
  destruct R as (u2 & Hu2 & R1 & R2 & _). rewrite Hu2 in H1. cbv zeta in H1. rewrite H in H1.
  destruct (engine (nitro_call dir u2) (fs (with_dir dir d2 w))) as [ctx|ex]; [|discriminate H1].
  injection H1 as ->.
  assert (Hat1 : at_dir dir (saved mode ctx d2) (called (with_dir dir (saved mode ctx d2) w)
                                                       (nitro_call dir u2)))
    by apply (at_with dir w d Hat).
  assert (Hu3 : staged (saved mode ctx d2) = Some u2).
  { apply staged_Some. rewrite saved_lookup by done. by apply staged_Some. }
  rewrite (lookup_below dir _ u2 _ e Hat1 Hu3), (lookup_top dir _ _ e Hat1).
  split.
  - intros Hi. split; [by rewrite R1, Hi|].
    destruct (decide (e = "Welded Packs.zip")) as [->|Ha].
    + unfold saved. destruct (String.eqb mode "data"); [rewrite lookup_insert_eq; eauto|].
      destruct (String.eqb mode "resource"); [rewrite lookup_insert_eq; eauto|].
      rewrite (R2 _ Hne), Hi. simpl. destruct (u1 !! "Welded Packs.zip") eqn:E.
      * rewrite bool_decide_eq_true_2 by eauto. eauto.
      * rewrite bool_decide_eq_false_2 by (by intros [? ?]).
        rewrite (S2 _ Hne). unfold movable. simpl. rewrite He. eauto.
    + rewrite saved_lookup by done. rewrite (R2 _ Hne), Hi. simpl.
      destruct (u1 !! e) eqn:E.
      * rewrite bool_decide_eq_true_2 by eauto. eauto.
      * rewrite bool_decide_eq_false_2 by (by intros [? ?]).
        rewrite (S2 _ Hne). rewrite S1 in E. destruct (movable "Welded Packs" d e); [congruence|].
        rewrite He. eauto.
  - intros Hi Hmk. assert (Hm : movable "Welded Packs" d e = true) by (by eapply movable_true).
    split; [by rewrite R1, Hi, S1, Hm|].
    assert (e ≠ "Welded Packs.zip") by (intros ->; discriminate Hmk).
    rewrite saved_lookup by done. by rewrite (R2 _ Hne), Hi, (S2 _ Hne), Hm.
Qed.

(** X2. A run of [weld_dir] of variant 1 that completes moves every
    regular file without the marker into the staging directory, whether an
    entry of the ignore list matches its name or not. *)
Lemma mcvm_weld_dir_places engine dir P w w1 d :
  at_dir dir d w →
  Mcvm.weld_dir engine dir (JArr (map JStr P)) w = (w1, Done tt) →
  ∀ e x, d !! e = Some (File x) → contains "weld_pack" e = false →
    fs_lookup (parts dir ++ ["unwelded"; e]) (fs w1) = Some (File x)
    ∧ fs_lookup (parts dir ++ [e]) (fs w1) = None.
Proof.
  intros Hat H e x He Hmk.
  pose proof (mcvm_weld_dir_at engine dir P w d Hat) as H1.
  pose proof (stage_all_spec "weld_pack" d eq_refl) as S.
  destruct (stage_all "weld_pack" d) as [d1|]; [|destruct H1 as (? & ? & H1); congruence].
  destruct S as (u0 & u1 & Hu0 & Hu1 & S1 & S2). rewrite Hu1 in H1. cbv zeta in H1.
  rewrite H in H1.
  destruct (engine (mcvm_call dir u1) (fs (with_dir dir d1 w))) as [ctx|ex]; [|discriminate H1].
  injection H1 as ->.
  set (d3 := <["weld_pack.zip" := File (ctx_data ctx)]> d1).
  assert (Hat1 : at_dir dir d3 (called (with_dir dir d3 w) (mcvm_call dir u1)))
    by apply (at_with dir w d Hat).
  assert (Hu3 : staged d3 = Some u1) by (unfold d3; by rewrite staged_insert_ne).
  rewrite (lookup_below dir _ u1 _ e Hat1 Hu3), (lookup_top dir _ _ e Hat1).
  assert (Hm : movable "weld_pack" d e = true) by (by eapply movable_true).
  assert (Hne : e ≠ "unwelded").
  { intros ->. by rewrite (make_staging_file d x He) in Hu0. }
  assert (e ≠ "weld_pack.zip") by (intros ->; discriminate Hmk).
  split; [by rewrite S1, Hm|]. unfold d3. by rewrite lookup_insert_ne, (S2 _ Hne), Hm.
Qed.

(** X3. A run of [weld_dir] of variant 2 that completes has called the
    engine once: with the entries of the staging directory as it leaves it,
    each named by the text of its path below the staging directory, with
    the text of the directory as output and the directory as working
    directory. *)
Lemma nitro_weld_dir_packs engine dir P mode w w1 :
  Nitro.weld_dir engine dir (JArr (map JStr P)) mode w = (w1, Done tt) →
  ∃ u, staging_of dir w1 = Some (Dir u)
       ∧ welds w1 = welds w ++ [nitro_call dir u].
Proof.
  intros H. destruct (staging_needs_dir dir _ w w1 tt H) as [d Hat].
  pose proof (nitro_weld_dir_at engine dir P mode w d Hat) as H1.
  destruct (stage_all "Welded Packs" d) as [d1|]; [|destruct H1 as (? & ? & H1); congruence].
  destruct (restore_all P d1) as [d2|]; [|destruct H1 as (? & ? & H1); congruence].
  destruct (staged d2) as [u2|] eqn:Hu2; [|destruct H1 as (? & ? & H1); congruence].
  cbv zeta in H1. rewrite H in H1.
  destruct (engine (nitro_call dir u2) (fs (with_dir dir d2 w))) as [ctx|ex]; [|discriminate H1].
  injection H1 as ->. exists u2. split; [|done].
  erewrite staging_of_at; [|apply at_called, (at_with dir w d Hat)].
  rewrite saved_lookup by done. by apply staged_Some.
Qed.

(** The packs of variant 1 are named below the directory itself. *)
Lemma mcvm_weld_dir_packs engine dir P w w1 :
  Mcvm.weld_dir engine dir (JArr (map JStr P)) w = (w1, Done tt) →
  ∃ u, staging_of dir w1 = Some (Dir u)
       ∧ welds w1 = welds w ++ [mcvm_call dir u].
Proof.
  intros H. destruct (staging_needs_dir dir _ w w1 tt H) as [d Hat].
  pose proof (mcvm_weld_dir_at engine dir P w d Hat) as H1.
  destruct (stage_all "weld_pack" d) as [d1|]; [|destruct H1 as (? & ? & H1); congruence].
  destruct (staged d1) as [u1|] eqn:Hu1; [|destruct H1 as (? & ? & H1); congruence].
  cbv zeta in H1. rewrite H in H1.
  destruct (engine (mcvm_call dir u1) (fs (with_dir dir d1 w))) as [ctx|ex]; [|discriminate H1].
  injection H1 as ->. exists u1. split; [|done].
  erewrite staging_of_at; [|apply at_called, (at_with dir w d Hat)].
  rewrite lookup_insert_ne by done. by apply staged_Some.
Qed.

(** ** The datapack directories of a client *)

Lemma joinpath_name (p : Path) (name : string) :
  anchor (Path_of name) = false → parts (Path_of name) = [name] →
  joinpath p (Path_of name) = child p name.
Proof. intros Ha Hp. unfold joinpath, child. by rewrite Ha, Hp. Qed.

Lemma joinpath_saves p : joinpath p (Path_of "saves") = child p "saves".
Proof. by apply joinpath_name. Qed.

Lemma joinpath_datapacks p : joinpath p (Path_of "datapacks") = child p "datapacks".
Proof. by apply joinpath_name. Qed.

Lemma existing_datapacks_run saves entries found w :
  Nitro.existing_datapacks saves entries found w
  = (w, Done (found ++ List.filter (λ p, bool_decide (is_Some (fs_lookup (parts p) (fs w))))
                         (map (λ e, child (child saves e) "datapacks") entries))).
Proof.
  revert found. induction entries as [|e l IH]; intros found.
  - simpl. by rewrite app_nil_r.
  - cbn [Nitro.existing_datapacks map List.filter]. rewrite joinpath_datapacks.
    rewrite (bind_done _ _ w w _ eq_refl).
    destruct (bool_decide (is_Some (fs_lookup _ (fs w)))).
    + rewrite IH. by rewrite <- app_assoc.
    + apply IH.
Qed.

(** X4. Variant 2, client side, no datapack folder (the key is absent or
    null): the datapack directories are [saves/<save>/datapacks] for the
    subdirectories of [saves] that have one, in the order of the walk;
    nothing is created or changed. *)
Lemma nitro_client_datapacks fields cfg game_dir w es :
  assoc "config" fields = Some (JObj cfg) →
  assoc "datapack_folder" cfg = None ∨ assoc "datapack_folder" cfg = Some JNull →
  assoc "side" fields = Some (JStr "client") →
  fs_lookup (parts game_dir ++ ["saves"]) (fs w) = Some (Dir es) →
  Nitro.datapack_dirs (JObj fields) game_dir w
  = (w, Done (List.filter (λ p, bool_decide (is_Some (fs_lookup (parts p) (fs w))))
                (map (λ e, child (child (child game_dir "saves") e) "datapacks")
                     (List.filter (λ kv, is_dir_node kv.2) (map_to_list es)).*1))).
Proof.
  intros Hc Hf Hs Hsaves. unfold Nitro.datapack_dirs. rewrite joinpath_saves.
  rewrite (bind_done _ _ w w (JObj cfg)) by (by rewrite lift_run; simpl; rewrite Hc).
  assert (Hside : lift (py_getitem (JObj fields) "side") w = (w, Done (JStr "client")))
    by (by rewrite lift_run; simpl; rewrite Hs).
  assert (Hwalk : walk_dirs (child game_dir "saves") w
                  = (w, Done (List.filter (λ kv, is_dir_node kv.2) (map_to_list es)).*1))
    by (unfold walk_dirs; simpl; by rewrite Hsaves).
  destruct Hf as [Hf|Hf].
  - rewrite (bind_done _ _ w w false) by (by rewrite lift_run; simpl; rewrite Hf).
    rewrite (bind_done _ _ w w JNull) by done.
    rewrite (bind_done _ _ _ _ _ Hside). cbn [is_str String.eqb]. simpl.
    rewrite (bind_done _ _ _ _ _ Hwalk). by rewrite existing_datapacks_run.
  - rewrite (bind_done _ _ w w true) by (by rewrite lift_run; simpl; rewrite Hf).
    rewrite (bind_done _ _ w w JNull).
    2:{ rewrite (bind_done _ _ w w (JObj cfg)) by (by rewrite lift_run; simpl; rewrite Hc).
        by rewrite lift_run; simpl; rewrite Hf. }
    rewrite (bind_done _ _ _ _ _ Hside). simpl.
    rewrite (bind_done _ _ _ _ _ Hwalk). by rewrite existing_datapacks_run.
Qed.

Example nitro_client_saves_example :
  Nitro.datapack_dirs client_arg (Path_of "/g") demo_world
  = (demo_world, Done [child (child (child (Path_of "/g") "saves") "A") "datapacks"]).
Proof. vm_compute. reflexivity. Qed.

(** Variant 1, client side: the first save raises. *)
Lemma mcvm_client_datapacks_raise fields cfg game_dir w es sub rest :
  assoc "config" fields = Some (JObj cfg) →
  assoc "datapack_folder" cfg = Some JNull →
  assoc "side" fields = Some (JStr "client") →
  fs_lookup (parts game_dir ++ ["saves"]) (fs w) = Some (Dir es) →
  (List.filter (λ kv, is_dir_node kv.2) (map_to_list es)).*1 = sub :: rest →
  Mcvm.datapack_dirs (JObj fields) game_dir w
  = (w, Raise (Exn "AttributeError" "'PosixPath' object has no attribute 'join'")).
Proof.
  intros Hc Hf Hs Hsaves Hsub. unfold Mcvm.datapack_dirs. rewrite joinpath_saves.
  rewrite (bind_done _ _ w w (JObj cfg)) by (by rewrite lift_run; simpl; rewrite Hc).
  rewrite (bind_done _ _ w w JNull) by (by rewrite lift_run; simpl; rewrite Hf).
  rewrite (bind_done _ _ w w (JStr "client")) by (by rewrite lift_run; simpl; rewrite Hs).
  simpl.
  rewrite (bind_done _ _ w w (sub :: rest)) by (unfold walk_dirs; simpl; by rewrite Hsaves, Hsub).
  reflexivity.
Qed.

(** ** An unrecognized hook in variant 2 *)

(** A run that returns has printed the result last. *)
Lemma nitro_run_ends_with_result loads engine argv hook w w' :
  argv !! 1 = Some hook →
  Nitro.run loads engine argv w = (w', Done tt) →
  ∃ out, stdout w' = stdout w ++ hook_lines hook ++ out ++ [result_line hook].
Proof.
  intros H1 H. unfold Nitro.run in H.
  rewrite (bind_done _ _ w w hook) in H by (unfold argv_at; by rewrite H1).
  step H as wa u Hc; rewrite nitro_hook_check in Hc; [|discriminate Hc].
  injection Hc as <-.
  step H as wb raw Hm; [|discriminate H]. apply argv_at_inv in Hm as [-> _].
  step H as wc arg Hm; rewrite lift_run in Hm; [|discriminate H]. injection Hm as <- _.
  step H as wd deferred Hm; rewrite lift_run in Hm; [|discriminate H]. injection Hm as <- _.
  destruct deferred.
  { rewrite nitro_set_result_says in H. injection H as <-. exists []. simpl.
    by rewrite <- app_assoc. }
  step H as we disabled Hm; rewrite lift_run in Hm; [|discriminate H]. injection Hm as <- _.
  destruct disabled.
  { rewrite nitro_set_result_says in H. injection H as <-. exists []. simpl.
    by rewrite <- app_assoc. }
  step H as wf u1 Hm; rewrite nitro_start_says in Hm; [|discriminate Hm]. injection Hm as <-.
  step H as wg u2 Hm; rewrite nitro_start_message_says in Hm; [|discriminate Hm].
  injection Hm as <-.
  step H as wh gd Hm; rewrite lift_run in Hm; [|discriminate H]. injection Hm as <- _.
  assert (Hgo : ∀ w0,
    (let* game_dir := to_path gd in
     let* datapacks := Nitro.datapack_dirs arg game_dir in
     let resourcepack_dirs := [joinpath game_dir (Path_of "resourcepacks")] in
     let* weld_ignore := lift (Nitro.weld_ignore_of arg) in
     for_each datapacks (λ dir, Nitro.weld_dir engine dir weld_ignore "data");;
     for_each resourcepack_dirs (λ dir, Nitro.weld_dir engine dir weld_ignore "resource");;
     Nitro.output "message" Nitro.success_message;;
     Nitro.output "end_process" JNull;;
     Nitro.set_result hook) w0 = (w', Done tt) →
    stdout w' = stdout w0 ++ [success_line; end_line] ++ [result_line hook]).
  { clear H. intros w0 H.
    step H as wi game_dir Hm; apply (quiet_run _ _ _ _ (quiet_to_path gd)) in Hm; [|discriminate H].
    step H as wj dirs Hd; apply (quiet_run _ _ _ _ (quiet_nitro_datapack_dirs _ _)) in Hd;
      [|discriminate H].
    cbv zeta in H.
    step H as wk ignore Hi; rewrite lift_run in Hi; [|discriminate H]. injection Hi as <- _.
    step H as wl u3 Hw1;
      (eapply quiet_run in Hw1; [|apply quiet_for_each; intros ?; apply quiet_nitro_weld_dir]);
      [|discriminate H].
    step H as wm u4 Hw2;
      (eapply quiet_run in Hw2; [|apply quiet_for_each; intros ?; apply quiet_nitro_weld_dir]);
      [|discriminate H].
    unfold mbind, py_bind in H.
    rewrite nitro_success_says, nitro_end_says, nitro_set_result_says in H.
    injection H as <-. simpl. rewrite Hw2, Hw1, Hd, Hm. by rewrite <- !app_assoc. }
  destruct gd; try (rewrite (Hgo _ H); exists [start_line; start_message_line; success_line; end_line];
                    simpl; by rewrite <- !app_assoc).
  rewrite nitro_set_result_says in H. injection H as <-.
  exists [start_line; start_message_line]. simpl. by rewrite <- !app_assoc.
Qed.

(** A statement only adds to what is printed. *)
Lemma quiet_grows {A} (m : py A) : quiet m → grows m.
Proof.
  intros Hq w w' r H. exists []. rewrite app_nil_r. by eapply quiet_run.
Qed.

Lemma grows_bind {A B} (m : py A) (f : A → py B) :
  grows m → (∀ a, grows (f a)) → grows (bind m f).
Proof.
  intros Hm Hf w w' r H. step H as w1 a H1.
  - destruct (Hm _ _ _ H1) as [o1 E1]. destruct (Hf a _ _ _ H) as [o2 E2].
    exists (o1 ++ o2). by rewrite E2, E1, <- app_assoc.
  - by apply (Hm _ _ _ H1).
Qed.

Lemma grows_seq {A B} (m : py A) (k : py B) : grows m → grows k → grows (m;; k).
Proof. intros Hm Hk. apply (grows_bind m (λ _, k)); auto. Qed.

Lemma grows_print s : grows (print s).
Proof. intros w w' r H. rewrite print_run in H. injection H as <- _. by exists [s]. Qed.

Lemma grows_nitro_output method data : grows (Nitro.output method data).
Proof. unfold Nitro.output. destruct data; apply grows_print. Qed.

Lemma grows_nitro_set_result hook : grows (Nitro.set_result hook).
Proof.
  unfold Nitro.set_result. destruct (String.eqb hook "on_instance_setup");
    apply grows_nitro_output.
Qed.

Lemma grows_nitro_weld_dirs engine dirs ignore mode :
  grows (for_each dirs (λ dir, Nitro.weld_dir engine dir ignore mode)).
Proof. apply quiet_grows, quiet_for_each. intros ?. apply quiet_nitro_weld_dir. Qed.

(** X5. Variant 2 goes on after the result of an unrecognized hook: whatever
    the arguments and the file system, the script prints the diagnostic
    line, the result, and then at least one more line (line 81 has no
    [return]). *)
Lemma nitro_unknown_hook_never_stops loads engine argv hook w :
  argv !! 1 = Some hook → Nitro.recognized hook = false →
  ∃ more, more ≠ []
    ∧ stdout (Nitro.script loads engine argv w).1
      = stdout w ++ [incorrect_hook_line; result_line hook] ++ more.
Proof.
  intros H1 Hrec. unfold Nitro.script, Nitro.main, try_except.
  destruct (Nitro.run loads engine argv w) as [w' [[]|e]] eqn:H.
  - destruct (nitro_run_ends_with_result _ _ _ _ _ _ H1 H) as [out Hout].
    unfold hook_lines in Hout. rewrite Hrec in Hout.
    exists (out ++ [result_line hook]). split; [by destruct out|]. simpl. by rewrite Hout.
  - rewrite nitro_error_says. simpl.
    assert (Hpre : ∃ out, stdout w' = stdout w ++ hook_lines hook ++ out).
    { unfold Nitro.run in H.
      rewrite (bind_done _ _ w w hook) in H by (unfold argv_at; by rewrite H1).
      step H as wa u Hc; rewrite nitro_hook_check in Hc; [|discriminate Hc].
      injection Hc as <-.
      assert (Hg : grows (
        let* arg_raw := argv_at argv 2 in
        let* arg := lift (loads arg_raw) in
        let* deferred := lift (Nitro.full_setup hook arg) in
        if deferred then Nitro.set_result hook
        else
          let* disabled := lift (Nitro.weld_disabled arg) in
          if disabled then Nitro.set_result hook
          else
            Nitro.output "start_process" JNull;;
            Nitro.output "message" Nitro.start_message;;
            let* game_dir_raw := lift (py_getitem arg "game_dir") in
            match game_dir_raw with
            | JNull => Nitro.set_result hook
            | _ =>
                let* game_dir := to_path game_dir_raw in
                let* datapacks := Nitro.datapack_dirs arg game_dir in
                let resourcepack_dirs := [joinpath game_dir (Path_of "resourcepacks")] in
                let* weld_ignore := lift (Nitro.weld_ignore_of arg) in
                for_each datapacks (λ dir, Nitro.weld_dir engine dir weld_ignore "data");;
                for_each resourcepack_dirs
                  (λ dir, Nitro.weld_dir engine dir weld_ignore "resource");;
                Nitro.output "message" Nitro.success_message;;
                Nitro.output "end_process" JNull;;
                Nitro.set_result hook
            end)).
      { repeat match goal with
               | |- grows (bind _ _) => apply grows_bind; [|intros ?]
               | |- grows (_ ≫= _) => apply grows_seq
               | |- grows (Nitro.set_result _) => apply grows_nitro_set_result
               | |- grows (Nitro.output _ _) => apply grows_nitro_output
               | |- grows (for_each _ _) => apply grows_nitro_weld_dirs
               | |- grows (if ?b then _ else _) => destruct b
               | |- grows (match ?x with _ => _ end) => destruct x
               | |- grows (argv_at _ _) => apply quiet_grows, quiet_argv_at
               | |- grows (lift _) => apply quiet_grows, quiet_lift
               | |- grows (to_path _) => apply quiet_grows, quiet_to_path
               | |- grows (Nitro.datapack_dirs _ _) =>
                   apply quiet_grows, quiet_nitro_datapack_dirs
               | |- grows (let _ := _ in _) => cbv zeta
               end. }
      destruct (Hg _ _ _ H) as [out Hout]. exists out. rewrite Hout. simpl.
      by rewrite <- app_assoc. }
    destruct Hpre as [out Hout]. unfold hook_lines in Hout. rewrite Hrec in Hout.
    exists (out ++ [error_line e]). split; [by destruct out|]. rewrite Hout.
    by rewrite <- !app_assoc.
Qed.

(** * Further facts: the frame of [weld_dir], fresh directories, the stages of the dispatcher *)

(** ** What [weld_dir] leaves alone *)

Lemma fs_lookup_graft_diverge p q n t :
  diverge p q = true → fs_lookup q (fs_graft p n t) = fs_lookup q t.
Proof.
  revert q t. induction p as [|a p IH]; intros q t H; [done|].
  destruct q as [|b q]; [done|]. simpl in H.
  destruct t as [x|es]; [done|]. simpl.
  destruct (es !! a) as [m|] eqn:Ha; [|done].
  destruct (String.eqb_spec a b) as [->|Hne].
  - simpl. rewrite lookup_insert_eq, Ha. by apply IH.
  - simpl. by rewrite lookup_insert_ne.
Qed.

Lemma fs_graft_missing p n t : fs_lookup p t = None → fs_graft p n t = t.
Proof.
  revert t. induction p as [|a p IH]; intros t H; [done|].
  destruct t as [x|es]; [done|]. simpl in *.
  destruct (es !! a) as [m|] eqn:Ha; [|done].
  rewrite (IH m H). by rewrite insert_id.
Qed.

Lemma fs_graft_self p t : ∃ n, t = fs_graft p n t.
Proof.
  destruct (fs_lookup p t) as [m|] eqn:H.
  - exists m. by rewrite fs_graft_id.
  - exists t. by rewrite fs_graft_missing.
Qed.

Lemma fs_put_missing p q v t :
  q ≠ [] → fs_lookup p t = None → fs_put (p ++ q) v t = None.
Proof.
  intros Hq. revert t. induction p as [|a p IH]; intros t H; [done|].
  destruct t as [x|es]; [done|]. simpl in H.
  change ((a :: p) ++ q) with (a :: (p ++ q)).
  rewrite fs_put_cons by (by destruct p, q).
  destruct (es !! a) as [m|]; [|done]. by rewrite (IH m H).
Qed.

Lemma fs_put_below p q v t t' :
  q ≠ [] → fs_put (p ++ q) v t = Some t' → ∃ n, t' = fs_graft p n t.
Proof.
  intros Hq H. destruct (fs_lookup p t) as [m|] eqn:Hl.
  - rewrite (fs_put_app p q v t m Hq Hl) in H.
    destruct (fs_put q v m) as [m'|]; [|done]. injection H as <-. eauto.
  - by rewrite fs_put_missing in H.
Qed.

Section below.
Context (p : list string).

Lemma below_same {A} (m : py A) : (∀ w, fs (m w).1 = fs w) → stays_below p m.
Proof.
  intros H w w' r E. specialize (H w). rewrite E in H. simpl in H. rewrite H.
  apply fs_graft_self.
Qed.

Lemma below_bind {A B} (m : py A) (f : A → py B) :
  stays_below p m → (∀ a, stays_below p (f a)) → stays_below p (bind m f).
Proof.
  intros Hm Hf w w' r H. step H as w1 a H1.
  - destruct (Hm _ _ _ H1) as [n1 E1]. destruct (Hf a _ _ _ H) as [n2 E2].
    exists n2. by rewrite E2, E1, fs_graft_graft.
  - by apply (Hm _ _ _ H1).
Qed.

Lemma below_seq {A B} (m : py A) (k : py B) :
  stays_below p m → stays_below p k → stays_below p (m;; k).
Proof. intros Hm Hk. apply (below_bind m (λ _, k)); auto. Qed.

Lemma below_for_each {A} (l : list A) (body : A → py unit) :
  (∀ x, stays_below p (body x)) → stays_below p (for_each l body).
Proof.
  intros Hb. induction l as [|x l IH].
  - by apply below_same.
  - rewrite for_each_cons. by apply below_seq.
Qed.

Lemma below_put {A} (q : list string) (m : py A) :
  q ≠ [] →
  (∀ w w' r, m w = (w', r) →
     fs w' = fs w ∨ ∃ v, fs_put (p ++ q) v (fs w) = Some (fs w')) →
  stays_below p m.
Proof.
  intros Hq H w w' r E. destruct (H _ _ _ E) as [->|[v Hv]].
  - apply fs_graft_self.
  - by apply (fs_put_below p q v).
Qed.

Lemma below_mkdir (d : Path) q : q ≠ [] → parts d = p ++ q → stays_below p (os_mkdir d).
Proof.
  intros Hq Hd. apply (below_put q); [done|]. intros w w' r E. unfold os_mkdir in E.
  rewrite Hd in E. destruct (fs_lookup _ _); [injection E as <- _; by left|].
  destruct (fs_put _ _ _) as [n|] eqn:Hp; injection E as <- _; [right; eauto|by left].
Qed.

Lemma below_remove (d : Path) q : q ≠ [] → parts d = p ++ q → stays_below p (os_remove d).
Proof.
  intros Hq Hd. apply (below_put q); [done|]. intros w w' r E. unfold os_remove in E.
  rewrite Hd in E. destruct (fs_lookup _ _) as [[x|es]|]; try (injection E as <- _; by left).
  destruct (fs_put _ _ _) as [n|] eqn:Hp; injection E as <- _; [right; eauto|by left].
Qed.

Lemma below_save_pack (d : Path) q b :
  q ≠ [] → parts d = p ++ q → stays_below p (save_pack d b).
Proof.
  intros Hq Hd. apply (below_put q); [done|]. intros w w' r E. unfold save_pack in E.
  rewrite Hd in E.
  destruct (fs_put _ _ _) as [n|] eqn:Hp; injection E as <- _; [right; eauto|by left].
Qed.

Lemma below_rename (s d : Path) qs qd :
  qs ≠ [] → qd ≠ [] → parts s = p ++ qs → parts d = p ++ qd →
  stays_below p (os_rename s d).
Proof.
  intros Hqs Hqd Hs Hd w w' r E. unfold os_rename in E. rewrite Hs, Hd in E.
  destruct (fs_lookup (p ++ qs) (fs w)) as [n|]; [|injection E as <- _; apply fs_graft_self].
  destruct (bool_decide _); [injection E as <- _; apply fs_graft_self|].
  destruct (rename_blocked _ _ _); [injection E as <- _; apply fs_graft_self|].
  destruct (fs_put (p ++ qs) None (fs w)) as [n1|] eqn:H1;
    [|injection E as <- _; apply fs_graft_self].
  destruct (fs_put (p ++ qd) (Some n) n1) as [n2|] eqn:H2;
    [|injection E as <- _; apply fs_graft_self].
  injection E as <- _. simpl.
  destruct (fs_put_below p qs _ _ _ Hqs H1) as [a ->].
  destruct (fs_put_below p qd _ _ _ Hqd H2) as [b ->].
  exists b. by rewrite fs_graft_graft.
Qed.
End below.

Lemma parts_child dir e : parts (child dir e) = parts dir ++ [e].
Proof. done. Qed.

Lemma parts_staged dir e : parts (child (child dir "unwelded") e) = parts dir ++ ["unwelded"; e].
Proof. simpl. by rewrite <- app_assoc. Qed.

Ltac below_step :=
  match goal with
  | |- stays_below _ (bind _ _) => apply below_bind; [|intros ?]
  | |- stays_below _ (_ ≫= _) => apply below_seq
  | |- stays_below _ (for_each _ _) => apply below_for_each; intros ?
  | |- stays_below _ (if ?b then _ else _) => destruct b
  | |- stays_below _ (let _ := _ in _) => cbv zeta
  | |- stays_below _ (os_mkdir (child _ _)) =>
      eapply below_mkdir; [|apply parts_child]; done
  | |- stays_below _ (os_remove (child (child _ _) _)) =>
      eapply below_remove; [|apply parts_staged]; done
  | |- stays_below _ (os_remove (child _ _)) =>
      eapply below_remove; [|apply parts_child]; done
  | |- stays_below _ (save_pack (child _ _) _) =>
      eapply below_save_pack; [|apply parts_child]; done
  | |- stays_below _ (os_rename (child (child _ _) _) (child _ _)) =>
      eapply below_rename; [| |apply parts_staged|apply parts_child]; done
  | |- stays_below _ (os_rename (child _ _) (child (child _ _) _)) =>
      eapply below_rename; [| |apply parts_child|apply parts_staged]; done
  | |- stays_below _ _ => solve [apply below_same; intros ?; unfold lift, pass, ret, path_exists,
                                   is_file, os_listdir, call_engine; simpl; repeat case_match; done]
  end.

Lemma below_mcvm_weld_dir engine dir ignore :
  stays_below (parts dir) (Mcvm.weld_dir engine dir ignore).
Proof. unfold Mcvm.weld_dir. repeat below_step. Qed.

Lemma below_nitro_weld_dir engine dir ignore mode :
  stays_below (parts dir) (Nitro.weld_dir engine dir ignore mode).
Proof. unfold Nitro.weld_dir. repeat below_step. Qed.

(** ** Statements that agree on every world *)

Lemma bind_ext {A B} (m : py A) (f g : A → py B) :
  (∀ a w, f a w = g a w) → ∀ w, bind m f w = bind m g w.
Proof.
  intros H w. unfold bind, mbind, py_bind. destruct (m w) as [w1 [a|e]]; [apply H|done].
Qed.

Lemma seq_ext {A B} (m : py A) (k k' : py B) :
  (∀ w, k w = k' w) → ∀ w, (m;; k) w = (m;; k') w.
Proof.
  intros H w. unfold mbind, py_bind. destruct (m w) as [w1 [a|e]]; [apply H|done].
Qed.

Lemma seq_ext_l {A B} (m m' : py A) (k : py B) :
  (∀ w, m w = m' w) → ∀ w, (m;; k) w = (m';; k) w.
Proof. intros H w. unfold mbind, py_bind. by rewrite H. Qed.

Lemma for_each_ext {A} (l : list A) (f g : A → py unit) :
  (∀ x w, f x w = g x w) → ∀ w, for_each l f w = for_each l g w.
Proof.
  intros H. induction l as [|x l IH]; intros w; [done|].
  rewrite !for_each_cons. unfold mbind, py_bind. rewrite H.
  destruct (g x w) as [w1 [a|e]]; [apply IH|done].
Qed.

(** ** A directory that was never staged *)

Lemma fresh_staging d : d !! "unwelded" = None → staged (make_staging d) = Some ∅.
Proof. intros H. unfold make_staging. rewrite H. apply staged_insert. Qed.

(** What either variant has staged once it is through with a directory
    that had no staging directory. *)
Lemma fresh_staging_at v engine dir P mode w w1 d :
  at_dir dir d w → d !! "unwelded" = None →
  weld_dir_of v engine dir (JArr (map JStr P)) mode w = (w1, Done tt) →
  ∃ d3 u c, at_dir dir d3 w1 ∧ staged d3 = Some u ∧ welds w1 = welds w ++ [c]
    ∧ call_packs c
      = match v with
        | Variant1 => map (λ x, PackPath (child dir x)) (names u)
        | Variant2 => map (λ x, PackStr (path_str (child (child dir "unwelded") x))) (names u)
        end
    ∧ (∀ e, u !! e = if movable (marker_of v) d e && negb (heeds v P e) then d !! e else None)
    ∧ (∀ e, movable (marker_of v) d e && negb (heeds v P e) = true → d3 !! e = None).
Proof.
  intros Hat Hf H. destruct v; simpl in H.
  - pose proof (mcvm_weld_dir_at engine dir P w d Hat) as H1.
    pose proof (stage_all_spec "weld_pack" d eq_refl) as S.
    destruct (stage_all "weld_pack" d) as [d1|]; [|destruct H1 as (? & ? & H1); congruence].
    destruct S as (u0 & u1 & Hu0 & Hu1 & S1 & S2). rewrite Hu1 in H1. cbv zeta in H1.
    rewrite H in H1. rewrite (fresh_staging d Hf) in Hu0. injection Hu0 as <-.
    destruct (engine (mcvm_call dir u1) (fs (with_dir dir d1 w))) as [ctx|ex]; [|discriminate H1].
    injection H1 as ->.
    exists (<["weld_pack.zip" := File (ctx_data ctx)]> d1), u1, (mcvm_call dir u1).
    split; [apply at_called, (at_with dir w d Hat)|].
    split; [by rewrite staged_insert_ne|]. split; [done|]. split; [done|]. split.
    + intros e. rewrite S1, lookup_empty. simpl. by rewrite andb_true_r.
    + intros e. simpl. rewrite andb_true_r. intros Hm.
      assert (e ≠ "unwelded") by (intros ->; apply movable_file in Hm as [? ?]; congruence).
      assert (e ≠ "weld_pack.zip").
      { intros ->. by rewrite (movable_marked "weld_pack" d "weld_pack.zip") in Hm. }
      rewrite lookup_insert_ne by done. by rewrite S2, Hm.
  - pose proof (nitro_weld_dir_at engine dir P mode w d Hat) as H1.
    pose proof (stage_all_spec "Welded Packs" d eq_refl) as S.
    destruct (stage_all "Welded Packs" d) as [d1|]; [|destruct H1 as (? & ? & H1); congruence].
    destruct S as (u0 & u1 & Hu0 & Hu1 & S1 & S2).
    rewrite (fresh_staging d Hf) in Hu0. injection Hu0 as <-.
    pose proof (restore_all_spec P d1 u1 Hu1) as R.
    destruct (restore_all P d1) as [d2|]; [|destruct H1 as (? & ? & H1); congruence].
    destruct R as (u2 & Hu2 & R1 & R2 & _). rewrite Hu2 in H1. cbv zeta in H1. rewrite H in H1.
    destruct (engine (nitro_call dir u2) (fs (with_dir dir d2 w))) as [ctx|ex]; [|discriminate H1].
    injection H1 as ->.
    exists (saved mode ctx d2), u2, (nitro_call dir u2).
    split; [apply at_called, (at_with dir w d Hat)|].
    split; [apply staged_Some; rewrite saved_lookup by done; by apply staged_Some|].
    split; [done|]. split; [done|]. split.
    + intros e. rewrite R1, S1, lookup_empty. simpl.
      destruct (ignored P e), (movable "Welded Packs" d e); done.
    + intros e. simpl. intros Hm. apply andb_true_iff in Hm as [Hm Hi].
      apply negb_true_iff in Hi.
      assert (e ≠ "unwelded") by (intros ->; apply movable_file in Hm as [? ?]; congruence).
      assert (e ≠ "Welded Packs.zip").
      { intros ->. by rewrite (movable_marked "Welded Packs" d "Welded Packs.zip") in Hm. }
      rewrite saved_lookup by done. by rewrite R2, Hi, S2, Hm.
Qed.

(** ** The dispatcher of variant 2, by its stages *)

Lemma nitro_run_start loads engine argv hook w :
  argv !! 1 = Some hook →
  Nitro.run loads engine argv w
  = (let* arg_raw := argv_at argv 2 in
     let* arg := lift (loads arg_raw) in
     let* deferred := lift (Nitro.full_setup hook arg) in
     if deferred then Nitro.set_result hook
     else
       let* disabled := lift (Nitro.weld_disabled arg) in
       if disabled then Nitro.set_result hook
       else
         Nitro.output "start_process" JNull;;
         Nitro.output "message" Nitro.start_message;;
         let* game_dir_raw := lift (py_getitem arg "game_dir") in
         match game_dir_raw with
         | JNull => Nitro.set_result hook
         | _ =>
             let* game_dir := to_path game_dir_raw in
             let* datapacks := Nitro.datapack_dirs arg game_dir in
             let resourcepack_dirs := [joinpath game_dir (Path_of "resourcepacks")] in
             let* weld_ignore := lift (Nitro.weld_ignore_of arg) in
             for_each datapacks (λ dir, Nitro.weld_dir engine dir weld_ignore "data");;
             for_each resourcepack_dirs (λ dir, Nitro.weld_dir engine dir weld_ignore "resource");;
             Nitro.output "message" Nitro.success_message;;
             Nitro.output "end_process" JNull;;
             Nitro.set_result hook
         end) (says w (hook_lines hook)).
Proof.
  intros H1. unfold Nitro.run.
  rewrite (bind_done _ _ w w hook) by (unfold argv_at; by rewrite H1).
  by rewrite (seq_done _ _ _ _ _ (nitro_hook_check hook w)).
Qed.

(** The run up to the two progress lines, for an argument that is parsed
    and asks for a weld. *)
Lemma nitro_run_opened loads engine argv hook raw arg w :
  argv !! 1 = Some hook → argv !! 2 = Some raw → loads raw = Done arg →
  Nitro.full_setup hook arg = Done false → Nitro.weld_disabled arg = Done false →
  Nitro.run loads engine argv w
  = (let* game_dir_raw := lift (py_getitem arg "game_dir") in
     match game_dir_raw with
     | JNull => Nitro.set_result hook
     | _ =>
         let* game_dir := to_path game_dir_raw in
         let* datapacks := Nitro.datapack_dirs arg game_dir in
         let resourcepack_dirs := [joinpath game_dir (Path_of "resourcepacks")] in
         let* weld_ignore := lift (Nitro.weld_ignore_of arg) in
         for_each datapacks (λ dir, Nitro.weld_dir engine dir weld_ignore "data");;
         for_each resourcepack_dirs (λ dir, Nitro.weld_dir engine dir weld_ignore "resource");;
         Nitro.output "message" Nitro.success_message;;
         Nitro.output "end_process" JNull;;
         Nitro.set_result hook
     end) (says w (hook_lines hook ++ [start_line; start_message_line])).
Proof.
  intros H1 H2 Hl Hf Hd. rewrite (nitro_run_start _ _ _ hook w H1).
  set (w0 := says w (hook_lines hook)).
  rewrite (bind_done _ _ w0 w0 raw) by (unfold argv_at; by rewrite H2).
  rewrite (bind_done _ _ w0 w0 arg) by (by rewrite lift_run, Hl).
  rewrite (bind_done _ _ w0 w0 false) by (by rewrite lift_run, Hf).
  rewrite (bind_done _ _ w0 w0 false) by (by rewrite lift_run, Hd).
  rewrite (seq_done _ _ _ _ _ (nitro_start_says w0)).
  rewrite (seq_done _ _ _ _ _ (nitro_start_message_says _)).
  unfold w0. by rewrite !says_says.
Qed.

Lemma nitro_script_of_run loads engine argv w :
  Nitro.script loads engine argv w
  = match Nitro.run loads engine argv w with
    | (w1, Done a) => (w1, Done a)
    | (w1, Raise e) => (says w1 [error_line e], Done tt)
    end.
Proof.
  unfold Nitro.script, Nitro.main, try_except.
  destruct (Nitro.run loads engine argv w) as [w1 [a|e]]; [done|apply nitro_error_says].
Qed.

(** The welds of variant 2 and its closing lines: a run of them that
    returns has printed the closing lines and nothing else. *)
Lemma nitro_weld_all_says engine hook arg gd w0 w' :
  (let* game_dir := to_path gd in
   let* datapacks := Nitro.datapack_dirs arg game_dir in
   let resourcepack_dirs := [joinpath game_dir (Path_of "resourcepacks")] in
   let* weld_ignore := lift (Nitro.weld_ignore_of arg) in
   for_each datapacks (λ dir, Nitro.weld_dir engine dir weld_ignore "data");;
   for_each resourcepack_dirs (λ dir, Nitro.weld_dir engine dir weld_ignore "resource");;
   Nitro.output "message" Nitro.success_message;;
   Nitro.output "end_process" JNull;;
   Nitro.set_result hook) w0 = (w', Done tt) →
  stdout w' = stdout w0 ++ [success_line; end_line; result_line hook].
Proof.
  intros H.
  step H as wi game_dir Hm; apply (quiet_run _ _ _ _ (quiet_to_path gd)) in Hm; [|discriminate H].
  step H as wj dirs Hd; apply (quiet_run _ _ _ _ (quiet_nitro_datapack_dirs _ _)) in Hd;
    [|discriminate H].
  cbv zeta in H.
  step H as wk ignore Hi; rewrite lift_run in Hi; [|discriminate H]. injection Hi as <- _.
  step H as wl u3 Hw1;
    (eapply quiet_run in Hw1; [|apply quiet_for_each; intros ?; apply quiet_nitro_weld_dir]);
    [|discriminate H].
  step H as wm u4 Hw2;
    (eapply quiet_run in Hw2; [|apply quiet_for_each; intros ?; apply quiet_nitro_weld_dir]);
    [|discriminate H].
  unfold mbind, py_bind in H.
  rewrite nitro_success_says, nitro_end_says, nitro_set_result_says in H.
  injection H as <-. simpl. rewrite Hw2, Hw1, Hd, Hm. by rewrite <- !app_assoc.
Qed.

(** ** The progress lines of variant 1 *)

Lemma mcvm_start_says w :
  Mcvm.output "start_process" JNull w = (says w [start_line], Done tt).
Proof. reflexivity. Qed.

Lemma mcvm_start_message_says w :
  Mcvm.output "message" Mcvm.start_message w = (says w [start_message_line], Done tt).
Proof. reflexivity. Qed.

Lemma mcvm_success_says w :
  Mcvm.output "message" Mcvm.success_message w = (says w [success_line], Done tt).
Proof. reflexivity. Qed.

Lemma mcvm_end_says w :
  Mcvm.output "end_process" JNull w = (says w [end_line], Done tt).
Proof. reflexivity. Qed.

Lemma quiet_mcvm_datapack_dirs arg game_dir : quiet (Mcvm.datapack_dirs arg game_dir).
Proof. unfold Mcvm.datapack_dirs. repeat quiet_step. Qed.

(** The progress lines of a run of variant 1 that is not skipped and returns. *)
Lemma mcvm_run_says_in_order loads engine argv raw arg depth w w' :
  argv !! 1 = Some "on_instance_setup" → argv !! 2 = Some raw → loads raw = Done arg →
  py_getitem arg "update_depth" = Done depth → is_str "shallow" depth = false →
  Mcvm.weld_disabled arg = Done false →
  Mcvm.run loads engine argv w = (w', Done tt) →
  stdout w' = stdout w ++ [start_line; start_message_line; success_line; end_line].
Proof.
  intros H1 H2 Hl Hd Hs Hdis H. unfold Mcvm.run in H.
  rewrite (bind_done _ _ w w "on_instance_setup") in H by (unfold argv_at; by rewrite H1).
  cbn [String.eqb Ascii.eqb Bool.eqb negb] in H.
  rewrite (bind_done _ _ w w raw) in H by (unfold argv_at; by rewrite H2).
  rewrite (bind_done _ _ w w arg) in H by (by rewrite lift_run, Hl).
  rewrite (bind_done _ _ w w depth) in H by (by rewrite lift_run, Hd).
  rewrite Hs in H.
  rewrite (bind_done _ _ w w false) in H by (by rewrite lift_run, Hdis).
  rewrite (seq_done _ _ _ _ _ (mcvm_start_says w)) in H.
  rewrite (seq_done _ _ _ _ _ (mcvm_start_message_says _)) in H. rewrite says_says in H.
  step H as wa gd Hm; rewrite lift_run in Hm; [|discriminate H]. injection Hm as <- _.
  step H as wb game_dir Hm; apply (quiet_run _ _ _ _ (quiet_to_path gd)) in Hm; [|discriminate H].
  step H as wc dirs Hdd; apply (quiet_run _ _ _ _ (quiet_mcvm_datapack_dirs _ _)) in Hdd;
    [|discriminate H].
  cbv zeta in H.
  step H as wd ignore Hi; rewrite lift_run in Hi; [|discriminate H]. injection Hi as <- _.
  step H as we u3 Hw1;
    (eapply quiet_run in Hw1; [|apply quiet_for_each; intros ?; apply quiet_mcvm_weld_dir]);
    [|discriminate H].
  step H as wf u4 Hw2;
    (eapply quiet_run in Hw2; [|apply quiet_for_each; intros ?; apply quiet_mcvm_weld_dir]);
    [|discriminate H].
  unfold mbind, py_bind in H. rewrite mcvm_success_says, mcvm_end_says in H.
  injection H as <-. simpl. rewrite Hw2, Hw1, Hdd, Hm. simpl. by rewrite <- !app_assoc.
Qed.

(** ** A directory that is not there *)

Lemma staging_path_missing parent name d w :
  at_dir parent d w → d !! name = None →
  path_exists (child (child parent name) "unwelded") w = (w, Done false).
Proof.
  intros Hat Hn. unfold path_exists.
  rewrite parts_child, fs_lookup_app, (lookup_child parent w d Hat), Hn.
  by rewrite bool_decide_eq_false_2 by (by intros [? ?]).
Qed.

Lemma mkdir_staging_missing parent name d w :
  at_dir parent d w → d !! name = None →
  os_mkdir (child (child parent name) "unwelded") w
  = (w, Raise (FileNotFoundError (child (child parent name) "unwelded"))).
Proof.
  intros Hat Hn. unfold os_mkdir.
  rewrite parts_child, fs_lookup_app, (lookup_child parent w d Hat), Hn.
  rewrite fs_put_missing; [done|done|]. by rewrite (lookup_child parent w d Hat).
Qed.

Lemma joinpath_world p :
  joinpath p (Path_of "world/datapacks") = child (child p "world") "datapacks".
Proof. unfold joinpath, child. simpl. by rewrite <- app_assoc. Qed.

Lemma nitro_weld_ignore_total fields cfg :
  assoc "config" fields = Some (JObj cfg) →
  ∃ ignore, Nitro.weld_ignore_of (JObj fields) = Done ignore.
Proof.
  intros Hc. unfold Nitro.weld_ignore_of, and_then. simpl. rewrite Hc. simpl.
  destruct (assoc "weld_ignore" cfg) as [v|] eqn:E; simpl; rewrite ?Hc; simpl; rewrite ?E; eauto.
Qed.

Lemma existsb_filter {A} (f : A → bool) (l : list A) :
  existsb f l = match List.filter f l with [] => false | _ => true end.
Proof. induction l as [|x l IH]; [done|]. simpl. by destruct (f x). Qed.

Lemma prefix_sentinel s : String.prefix "%_" ("%_" +:+ s) = true.
Proof. apply prefix_append. Qed.

(** ** The kind without a payload *)

Lemma length_append (a b : string) :
  String.length (a +:+ b) = (String.length a + String.length b)%nat.
Proof.
  induction a as [|x a IH]; [reflexivity|].
  change (String x a +:+ b) with (String x (a +:+ b)). simpl. by rewrite IH.
Qed.

(** An escape is never shorter than its character, and longer when the
    character is not plain. *)
Lemma escape_char_length c :
  (1 <=? String.length (escape_char c))%nat
  && (plain_char c || (2 <=? String.length (escape_char c))%nat) = true.
Proof. destruct c as [[] [] [] [] [] [] [] []]; vm_compute; reflexivity. Qed.

Lemma escape_length s :
  (String.length s ≤ String.length (escape s))%nat
  ∧ (plain s = false → (String.length s < String.length (escape s))%nat).
Proof.
  induction s as [|c s [IH1 IH2]]; [split; [done|discriminate]|].
  rewrite escape_cons, length_append. cbn [String.length plain].
  pose proof (escape_char_length c) as Hc. apply andb_true_iff in Hc as [H1 H2].
  apply Nat.leb_le in H1. split; [lia|].
  intros Hp. apply andb_false_iff in Hp as [Hp|Hp].
  - rewrite Hp in H2. apply Nat.leb_le in H2. lia.
  - specialize (IH2 Hp). lia.
Qed.

Lemma escape_fixed s : String.length (escape s) = String.length s → plain s = true.
Proof.
  intros H. destruct (plain s) eqn:Hp; [done|].
  pose proof (proj2 (escape_length s) Hp). lia.
Qed.

(** The kind between quotes is its JSON string only if it is plain. *)
Lemma bare_kind_is_json kind w :
  print ("%_" +:+ quoted kind) w = (says w ["%_" +:+ dumps (JStr kind)], Done tt) →
  plain kind = true.
Proof.
  rewrite print_run. intros H. injection H as H. apply app_inv_head in H.
  injection H as H. apply (f_equal String.length) in H.
  cbn [dumps] in H. unfold dumps_str, quoted in H.
  rewrite !length_append in H. cbn [String.length] in H. apply escape_fixed. lia.
Qed.

(** * The claims *)

(** C1 (code defect, variant 1). After [weld_dir] a regular file whose name
    contains an ignore pattern is to be absent from the staging directory.
    Variant 1 on the directory [/g/resourcepacks] that holds [a.zip] and
    [b.zip], with the ignore list [["b"]]: the run completes, and [b.zip],
    whose name contains [b], stands in [unwelded] and no longer in the
    directory. ([mcvm_weld_dir_places] has it for every file;
    [nitro_weld_dir_places] shows that variant 2 keeps the claim.) *)
Theorem mcvm_stages_ignored_file :
  let dir := Path_of "/g/resourcepacks" in
  let r := Mcvm.weld_dir engine_ok dir (JArr [JStr "b"]) demo_world in
  contains "b" "b.zip" = true
  ∧ fs_lookup (parts dir ++ ["b.zip"]) (fs demo_world) = Some (File "B")
  ∧ r.2 = Done tt
  ∧ fs_lookup (parts dir ++ ["unwelded"; "b.zip"]) (fs r.1) = Some (File "B")
  ∧ fs_lookup (parts dir ++ ["b.zip"]) (fs r.1) = None.
Proof. vm_compute. auto. Qed.

(** C2 (code defect, variant 2). An unrecognized hook is to end the run
    with the result as its only message. Variant 2 called with the hook
    [bogus_hook] prints the result and goes on: it prints the progress
    messages and a second result, calls the engine for both directories and
    stages [a.zip]. ([nitro_unknown_hook_never_stops] has the further output
    for every unrecognized hook and every argument.) *)
Theorem nitro_unknown_hook_goes_on :
  let r := Nitro.script (loads_as server_arg) engine_ok
             ["nitro_weld.py"; "bogus_hook"; "{}"] demo_world in
  Nitro.recognized "bogus_hook" = false
  ∧ stdout r.1 = [incorrect_hook_line; null_result_line; start_line; start_message_line;
                  success_line; end_line; null_result_line]
  ∧ length (welds r.1) = 2
  ∧ fs_lookup ["g"; "resourcepacks"; "unwelded"; "a.zip"] (fs r.1) = Some (File "A").
Proof. vm_compute. auto. Qed.

(** C3 (code defect, variant 1). The packs handed to the engine are to be
    the entries of the staging directory, named below it. Variant 1 on
    [/g/resourcepacks] names them below the directory itself:
    [/g/resourcepacks/a.zip] where the file now is
    [/g/resourcepacks/unwelded/a.zip], so the paths it hands over do not
    exist. ([nitro_weld_dir_packs] shows that variant 2 keeps the claim.) *)
Theorem mcvm_packs_miss_staging :
  let dir := Path_of "/g/resourcepacks" in
  let r := Mcvm.weld_dir engine_ok dir (JArr []) demo_world in
  r.2 = Done tt
  ∧ welds r.1 = [WeldCall [PackPath (child dir "a.zip"); PackPath (child dir "b.zip")]
                          "/g/resourcepacks" dir]
  ∧ fs_lookup (parts (child (child dir "unwelded") "a.zip")) (fs r.1) = Some (File "A")
  ∧ fs_lookup (parts (child dir "a.zip")) (fs r.1) = None.
Proof. vm_compute. auto. Qed.

(** C4. Variant 1 run as a script: whatever the command line, the world is
    left as it was but for one printed line, the [set_result] message with
    [main_class_override] null, [jar_path_override] null and an empty
    [classpath_extension]; the file system and the calls of the engine are
    unchanged, [run] is not reached. *)
Theorem mcvm_script_only_sets_result (argv : list string) (w : world) :
  Mcvm.script argv w = (says w [override_line], Done tt).
Proof. reflexivity. Qed.

(** C5 (code defect, variant 1). On the client side without a datapack
    folder each save is to give the target [saves/<save>/datapacks].
    Variant 1 with the saves [A] and [B] raises [AttributeError] at the first
    save ([saves_dir.join]: a [Path] has no such method) and resolves
    nothing. ([mcvm_client_datapacks_raise] has it for every such call;
    [nitro_client_datapacks] shows that variant 2 keeps the claim.) *)
Theorem mcvm_client_saves_raise :
  let r := Mcvm.run (loads_as client_arg) engine_ok
             ["mcvm_weld.py"; "on_instance_setup"; "{}"] demo_world in
  Mcvm.datapack_dirs client_arg (Path_of "/g") demo_world
    = (demo_world, Raise (Exn "AttributeError" "'PosixPath' object has no attribute 'join'"))
  ∧ r.2 = Raise (Exn "AttributeError" "'PosixPath' object has no attribute 'join'")
  ∧ welds r.1 = [].
Proof. vm_compute. auto. Qed.

(** The five lines of variant 2: a recognized hook, none of the skip
    conditions, and a run that returns. *)
Lemma nitro_run_says_in_order loads engine argv hook raw arg w w' :
  argv !! 1 = Some hook → Nitro.recognized hook = true →
  argv !! 2 = Some raw → loads raw = Done arg →
  Nitro.full_setup hook arg = Done false →
  Nitro.weld_disabled arg = Done false →
  py_getitem arg "game_dir" ≠ Done JNull →
  Nitro.run loads engine argv w = (w', Done tt) →
  stdout w' = stdout w ++ [start_line; start_message_line; success_line; end_line; result_line hook].
Proof.
  intros H1 Hrec H2 Hl Hfull Hdis Hgd H. unfold Nitro.run in H.
  rewrite (bind_done _ _ w w hook) in H by (unfold argv_at; by rewrite H1).
  step H as wa u Hc; rewrite nitro_hook_check in Hc; [|discriminate Hc].
  inversion Hc; subst; clear Hc. unfold hook_lines in H. rewrite Hrec, says_nil in H.
  rewrite (bind_done _ _ w w raw) in H by (unfold argv_at; by rewrite H2).
  rewrite (bind_done _ _ w w arg) in H by (by rewrite lift_run, Hl).
  rewrite (bind_done _ _ w w false) in H by (by rewrite lift_run, Hfull).
  rewrite (bind_done _ _ w w false) in H by (by rewrite lift_run, Hdis).
  step H as wb u1 Hm; rewrite nitro_start_says in Hm; [|discriminate Hm].
  inversion Hm; subst; clear Hm.
  step H as wc u2 Hm; rewrite nitro_start_message_says in Hm; [|discriminate Hm].
  inversion Hm; subst; clear Hm. rewrite says_says in H.
  step H as wd gd Hm; rewrite lift_run in Hm; inversion Hm; subst; clear Hm; [|discriminate H].
  assert (Hgo :
    (let* game_dir := to_path gd in
     let* datapacks := Nitro.datapack_dirs arg game_dir in
     let resourcepack_dirs := [joinpath game_dir (Path_of "resourcepacks")] in
     let* weld_ignore := lift (Nitro.weld_ignore_of arg) in
     for_each datapacks (λ dir, Nitro.weld_dir engine dir weld_ignore "data");;
     for_each resourcepack_dirs (λ dir, Nitro.weld_dir engine dir weld_ignore "resource");;
     Nitro.output "message" Nitro.success_message;;
     Nitro.output "end_process" JNull;;
     Nitro.set_result hook) (says w [start_line; start_message_line]) = (w', Done tt) →
    stdout w' = stdout w ++ [start_line; start_message_line; success_line; end_line; result_line hook]).
  { clear H. intros H.
    step H as we game_dir Hm; apply (quiet_run _ _ _ _ (quiet_to_path gd)) in Hm; [|discriminate H].
    step H as wf dirs Hd; apply (quiet_run _ _ _ _ (quiet_nitro_datapack_dirs _ _)) in Hd;
      [|discriminate H].
    cbv zeta in H.
    step H as wg ignore Hi; rewrite lift_run in Hi; inversion Hi; subst; clear Hi; [|discriminate H].
    step H as wh u3 Hw1;
      (eapply quiet_run in Hw1; [|apply quiet_for_each; intros ?; apply quiet_nitro_weld_dir]);
      [|discriminate H].
    step H as wi u4 Hw2;
      (eapply quiet_run in Hw2; [|apply quiet_for_each; intros ?; apply quiet_nitro_weld_dir]);
      [|discriminate H].
    unfold mbind, py_bind in H.
    rewrite nitro_success_says, nitro_end_says, nitro_set_result_says in H.
    inversion H; subst; clear H. simpl.
    rewrite Hw2, Hw1, Hd, Hm. simpl. by rewrite <- !app_assoc. }
  destruct gd; try (exact (Hgo H)). by destruct Hgd.
Qed.

(** C6, as stated, fails twice. Variant 2 on [on_instance_setup], not
    skipped: the run prints the five lines, and the result it ends with
    has [classpath_extension] the empty list, not null. Variant 1 on
    [on_instance_setup], not skipped: [run] prints the four progress lines
    and no result. *)
Lemma messages_claim_fails :
  let r2 := Nitro.run (loads_as server_arg) engine_ok
              ["nitro_weld.py"; "on_instance_setup"; "{}"] demo_world in
  let r1 := Mcvm.run (loads_as setup_arg) engine_ok
              ["mcvm_weld.py"; "on_instance_setup"; "{}"] demo_world in
  (r2.2 = Done tt
   ∧ stdout r2.1 = [start_line; start_message_line; success_line; end_line; override_line]
   ∧ override_line ≠ all_null_override_line)
  ∧ (r1.2 = Done tt
     ∧ stdout r1.1 = [start_line; start_message_line; success_line; end_line]).
Proof.
  vm_compute. split; [split; [reflexivity|split; [reflexivity|discriminate]]|].
  split; reflexivity.
Qed.

(** C6, amended. Variant 2, a recognized hook, none of the skip conditions,
    and a run that returns: exactly five lines are printed, in this order:
    [start_process], the message [StartProcess "Welding packs"] of level
    important, the message [Success "Packs welded"] of level important,
    [end_process], and the result of the hook last; the staging of the
    directories between the second and the third prints nothing. The
    result is the override struct with [main_class_override] and
    [jar_path_override] null and [classpath_extension] the empty list for
    [on_instance_setup], and a top-level null for another hook. Variant 1:
    [run], on [on_instance_setup], not shallow, not disabled and
    returning, prints the first four of these lines and no result; the
    script prints the result with the override struct and nothing else,
    whatever the hook. *)
Theorem messages_in_order loads engine argv hook raw arg w :
  argv !! 1 = Some hook → argv !! 2 = Some raw → loads raw = Done arg →
  (Nitro.recognized hook = true →
   Nitro.full_setup hook arg = Done false → Nitro.weld_disabled arg = Done false →
   py_getitem arg "game_dir" ≠ Done JNull →
   ∀ w', Nitro.run loads engine argv w = (w', Done tt) →
     stdout w' = stdout w ++ [start_line; start_message_line; success_line; end_line;
                              if String.eqb hook "on_instance_setup"
                              then override_line else null_result_line])
  ∧ (hook = "on_instance_setup" →
     ∀ depth, py_getitem arg "update_depth" = Done depth → is_str "shallow" depth = false →
     Mcvm.weld_disabled arg = Done false →
     ∀ w', Mcvm.run loads engine argv w = (w', Done tt) →
       stdout w' = stdout w ++ [start_line; start_message_line; success_line; end_line])
  ∧ Mcvm.script argv w = (says w [override_line], Done tt).
Proof.
  intros H1 H2 Hl. split; [|split].
  - intros Hrec Hfull Hdis Hgd w' H.
    exact (nitro_run_says_in_order loads engine argv hook raw arg w w'
             H1 Hrec H2 Hl Hfull Hdis Hgd H).
  - intros -> depth Hd Hs Hdis w' H.
    exact (mcvm_run_says_in_order loads engine argv raw arg depth w w' H1 H2 Hl Hd Hs Hdis H).
  - reflexivity.
Qed.

Lemma messages_in_order_witness :
  let argv2 := ["nitro_weld.py"; "after_packages_installed"; "{}"] in
  let argv1 := ["mcvm_weld.py"; "on_instance_setup"; "{}"] in
  let r2 := Nitro.run (loads_as server_arg) engine_ok argv2 demo_world in
  let r1 := Mcvm.run (loads_as setup_arg) engine_ok argv1 demo_world in
  (r2.2 = Done tt
   ∧ stdout r2.1 = [start_line; start_message_line; success_line; end_line; null_result_line])
  ∧ (r1.2 = Done tt
     ∧ stdout r1.1 = [start_line; start_message_line; success_line; end_line]).
Proof.
  intros argv2 argv1 r2 r1.
  assert (H2 : Nitro.run (loads_as server_arg) engine_ok argv2 demo_world = (r2.1, Done tt))
    by (vm_compute; reflexivity).
  assert (H1 : Mcvm.run (loads_as setup_arg) engine_ok argv1 demo_world = (r1.1, Done tt))
    by (vm_compute; reflexivity).
  assert (Hgd : py_getitem server_arg "game_dir" ≠ Done JNull) by discriminate.
  split; (split; [vm_compute; reflexivity|]).
  - exact (proj1 (messages_in_order (loads_as server_arg) engine_ok argv2
                    "after_packages_installed" "{}" server_arg demo_world
                    eq_refl eq_refl eq_refl)
             eq_refl eq_refl eq_refl Hgd r2.1 H2).
  - exact (proj1 (proj2 (messages_in_order (loads_as setup_arg) engine_ok argv1
                           "on_instance_setup" "{}" setup_arg demo_world
                           eq_refl eq_refl eq_refl))
             eq_refl (JStr "full") eq_refl eq_refl eq_refl r1.1 H1).
Defined.

(** C7. Variant 2, a run that raises [e]: the script prints one more line,
    the message of level important whose contents are [Error] with the text
    [Failed to weld packs:], a line feed and [str(e)], and ends; nothing
    follows it, and among the lines printed before it there is neither
    [end_process] nor an [Error] message. *)
Theorem nitro_failure_is_reported loads engine argv w w1 e :
  Nitro.run loads engine argv w = (w1, Raise e) →
  Nitro.script loads engine argv w = (says w1 [error_line e], Done tt)
  ∧ (∃ out, stdout w1 = stdout w ++ out ∧ (end_line ∉ out) ∧ (∀ e', error_line e' ∉ out)).
Proof.
  intros H. split.
  - unfold Nitro.script, Nitro.main, try_except. rewrite H. apply nitro_error_says.
  - destruct (nitro_run_stops_early _ _ _ _ _ _ H) as (out & Hout & Hearly).
    exists out. split; [done|]. rewrite Forall_forall in Hearly. split.
    + intros Hin. by apply early_not_end, Hearly.
    + intros e' Hin. by apply (early_not_error e'), Hearly.
Qed.

Lemma nitro_failure_is_reported_witness :
  let argv := ["nitro_weld.py"; "update_world_files"; "{}"] in
  let w1 := says demo_world [start_line; start_message_line] in
  let e := FileNotFoundError (Path_of "/nowhere/world/datapacks/unwelded") in
  Nitro.run (loads_as lost_arg) engine_ok argv demo_world = (w1, Raise e)
  ∧ Nitro.script (loads_as lost_arg) engine_ok argv demo_world
    = (says w1 [error_line e], Done tt).
Proof.
  intros argv w1 e.
  assert (H : Nitro.run (loads_as lost_arg) engine_ok argv demo_world = (w1, Raise e))
    by (vm_compute; reflexivity).
  split; [exact H|].
  exact (proj1 (nitro_failure_is_reported (loads_as lost_arg) engine_ok argv demo_world w1 e H)).
Defined.

(** [disable_weld] set to a true value in the config, in general: variant 2
    leaves the file system and the calls of the engine as they were and
    prints the result of the hook and no progress message, once for a
    recognized hook and twice, after the diagnostic line, for another;
    variant 1 as a script prints the result only, and its [run] leaves the
    world as it was. *)
Lemma disabled_weld_only_reports loads engine argv hook raw fields cfg v w :
  argv !! 1 = Some hook → argv !! 2 = Some raw → loads raw = Done (JObj fields) →
  assoc "config" fields = Some (JObj cfg) → assoc "disable_weld" cfg = Some v →
  truthy v = true →
  Nitro.script loads engine argv w
    = (says w ((if Nitro.recognized hook then [] else [incorrect_hook_line; result_line hook])
               ++ [result_line hook]), Done tt)
  ∧ Mcvm.script argv w = (says w [override_line], Done tt)
  ∧ (Mcvm.run loads engine argv w).1 = w.
Proof.
  intros H1 H2 Hl Hc Hd Hv.
  destruct (weld_disabled_true fields cfg v Hc Hd) as [Hn Hm]. rewrite Hv in Hn, Hm.
  destruct (full_setup_total hook fields) as [b Hb].
  split; [|split].
  - unfold Nitro.script, Nitro.main, try_except, Nitro.run, bind, mbind, py_bind, argv_at.
    rewrite H1, H2. cbn [mret py_ret ret].
    assert (Hpre : (if negb (Nitro.recognized hook)
                    then print "$_Incorrect hook" ≫= λ _, Nitro.set_result hook else pass) w
                   = (says w (if Nitro.recognized hook then [] else [incorrect_hook_line; result_line hook]), Done tt)).
    { destruct (Nitro.recognized hook); simpl.
      - by rewrite says_nil.
      - unfold mbind, py_bind, print. rewrite nitro_set_result_says. unfold says; simpl.
        by rewrite <- app_assoc. }
    unfold mbind, py_bind in Hpre |- *. rewrite Hpre.
    unfold lift. rewrite Hl, Hb.
    destruct b; [|rewrite Hn]; rewrite nitro_set_result_says, says_says; reflexivity.
  - reflexivity.
  - unfold Mcvm.run, bind, mbind, py_bind, argv_at. rewrite H1, H2. cbn [mret py_ret ret].
    destruct (negb (hook =? "on_instance_setup")%string); [done|].
    unfold lift. rewrite Hl.
    destruct (py_getitem (JObj fields) "update_depth") as [d|e]; [|done].
    destruct (is_str "shallow" d); [done|]. by rewrite Hm.
Qed.

Lemma disabled_weld_only_reports_witness :
  let argv := ["nitro_weld.py"; "update_world_files"; "{}"] in
  truthy (JBool true) = true
  ∧ Nitro.script (loads_as disabled_arg) engine_ok argv demo_world
    = (says demo_world [null_result_line], Done tt).
Proof.
  intros argv. split; [reflexivity|].
  exact (proj1 (disabled_weld_only_reports (loads_as disabled_arg) engine_ok argv
                  "update_world_files" "{}"
                  [("config", JObj [("disable_weld", JBool true)]); ("game_dir", JStr "/g");
                   ("side", JStr "server")]
                  [("disable_weld", JBool true)] (JBool true) demo_world
                  eq_refl eq_refl eq_refl eq_refl eq_refl eq_refl)).
Defined.

(** C8 (code defect, variant 2). With [disable_weld] set the result is to
    be the only message. Variant 2 called with the hook [bogus_hook] and
    [disable_weld] true prints the diagnostic line and the result, goes on
    (line 81 has no [return]), finds the weld disabled and prints the
    result a second time; the file system and the engine are left alone.
    ([disabled_weld_only_reports] has both cases for every hook, and shows
    that a recognized hook keeps the claim.) *)
Theorem nitro_disabled_unknown_hook_reports_twice :
  let r := Nitro.script (loads_as disabled_arg) engine_ok
             ["nitro_weld.py"; "bogus_hook"; "{}"] demo_world in
  Nitro.recognized "bogus_hook" = false
  ∧ Nitro.weld_disabled disabled_arg = Done true
  ∧ r.2 = Done tt
  ∧ stdout r.1 = [incorrect_hook_line; null_result_line; null_result_line]
  ∧ fs r.1 = fs demo_world ∧ welds r.1 = [].
Proof. vm_compute. auto 10. Qed.

(** C9, as stated, fails twice: variant 1 has no marker and writes
    ["__null__"] as a JSON string, and a kind with a quote in it is written
    between quotes as it is, which is not its JSON encoding. *)
Lemma output_claim_fails :
  (stdout (Mcvm.output "set_result" (JStr "__null__") (World (Dir ∅) [] [])).1
     ≠ ["%_" +:+ dumps (JObj [("set_result", JNull)])])
  ∧ (stdout (Nitro.output odd_kind JNull (World (Dir ∅) [] [])).1
     ≠ ["%_" +:+ dumps (JStr odd_kind)]).
Proof. split; vm_compute; discriminate. Qed.

(** C9, amended. With a payload, for every kind, the emitter prints one
    line: the sentinel [%_] and then the JSON object with the kind as its
    only key and the payload as its value; variant 2 writes a null for the
    payload ["__null__"], variant 1 has no such marker and writes the
    string. Without a payload it prints the sentinel and the kind between
    double quotes as it is, and this is the JSON string of the kind exactly
    when the kind is made of plain characters (printable ASCII, no quote,
    no backslash). *)
Theorem output_writes_one_json_line (kind : string) (payload : json) (w : world) :
  (Mcvm.output kind payload w = (says w [mcvm_line kind payload], Done tt)
   ↔ (payload = JNull → plain kind = true))
  ∧ (Nitro.output kind payload w = (says w [nitro_line kind payload], Done tt)
     ↔ (payload = JNull → plain kind = true))
  ∧ one_line (mcvm_line kind payload) = true
  ∧ one_line (nitro_line kind payload) = true.
Proof.
  split; [|split; [|split]].
  - split.
    + intros H ->. apply (bare_kind_is_json kind w). exact H.
    + intros Hp. unfold Mcvm.output, mcvm_line. destruct payload; try reflexivity.
      simpl. unfold dumps_str. by rewrite (escape_plain kind (Hp eq_refl)).
  - split.
    + intros H ->. apply (bare_kind_is_json kind w). exact H.
    + intros Hp. unfold Nitro.output, nitro_line. destruct payload; try reflexivity.
      * simpl. unfold dumps_str. by rewrite (escape_plain kind (Hp eq_refl)).
      * simpl is_str. destruct (String.eqb s "__null__"); reflexivity.
  - unfold mcvm_line. destruct payload; rewrite one_line_app, one_line_dumps; reflexivity.
  - unfold nitro_line. destruct payload;
      try destruct (is_str _ _); rewrite one_line_app, one_line_dumps; reflexivity.
Qed.

Lemma output_writes_one_json_line_witness :
  Nitro.output "set_result" (JStr "__null__") empty_world
  = (says empty_world [null_result_line], Done tt)
  ∧ Mcvm.output "start_process" JNull empty_world = (says empty_world [start_line], Done tt)
  ∧ Nitro.output odd_kind (JNum 1) empty_world
    = (says empty_world [nitro_line odd_kind (JNum 1)], Done tt).
Proof.
  split; [|split].
  - apply (proj2 (proj1 (proj2 (output_writes_one_json_line "set_result" (JStr "__null__")
                                  empty_world)))).
    discriminate.
  - apply (proj2 (proj1 (output_writes_one_json_line "start_process" JNull empty_world))).
    reflexivity.
  - apply (proj2 (proj1 (proj2 (output_writes_one_json_line odd_kind (JNum 1) empty_world)))).
    discriminate.
Defined.

(** Two runs of [weld_dir] where the first one completes: either variant,
    and the second run on the world the first one left, with the same
    ignore list. The staging directory exists and holds after the second
    run exactly what it held after the first. The second staging itself
    never fails: the second run calls the engine on the file system the
    first run left, and it completes unless that call raises. *)
Lemma staging_idempotent (v : variant) engine dir P mode w w1 :
  weld_dir_of v engine dir (JArr (map JStr P)) mode w = (w1, Done tt) →
  let r := weld_dir_of v engine dir (JArr (map JStr P)) mode w1 in
  is_Some (staging_of dir w1)
  ∧ staging_of dir r.1 = staging_of dir w1
  ∧ ∃ c, welds r.1 = welds w1 ++ [c]
         ∧ r.2 = match engine c (fs w1) with Done _ => Done tt | Raise ex => Raise ex end.
Proof.
  intros H. destruct v; simpl in *.
  - (* variant 1 *)
    destruct (staging_needs_dir dir _ w w1 tt H) as [d Hat].
    pose proof (mcvm_weld_dir_at engine dir P w d Hat) as H1.
    destruct (stage_all "weld_pack" d) as [d1|] eqn:Hs1;
      [|destruct H1 as (? & ? & H1); congruence].
    destruct (staged d1) as [u1|] eqn:Hu1; [|destruct H1 as (? & ? & H1); congruence].
    cbv zeta in H1. rewrite H in H1.
    destruct (engine (mcvm_call dir u1) (fs (with_dir dir d1 w))) as [ctx|ex]; [|discriminate H1].
    injection H1 as ->.
    pose proof (restage_mcvm "weld_pack" "weld_pack.zip" d d1 (ctx_data ctx) eq_refl eq_refl Hs1)
      as Hs2.
    assert (Hu3 : staged (<["weld_pack.zip" := File (ctx_data ctx)]> d1) = Some u1)
      by (by rewrite staged_insert_ne).
    remember (<["weld_pack.zip" := File (ctx_data ctx)]> d1) as d3 eqn:Hd3.
    set (w1 := called (with_dir dir d3 w) (mcvm_call dir u1)).
    assert (Hat1 : at_dir dir d3 w1) by apply (at_with dir w d Hat d3).
    pose proof (mcvm_weld_dir_at engine dir P w1 d3 Hat1) as H2.
    rewrite Hs2, Hu3 in H2. cbv zeta in H2. rewrite (with_id dir w1 d3 Hat1) in H2.
    rewrite H2. split; [|split].
    + rewrite (staging_of_at dir d3 w1 Hat1). apply staged_Some in Hu3. rewrite Hu3. eauto.
    + rewrite (staging_of_at dir d3 w1 Hat1).
      destruct (engine (mcvm_call dir u1) (fs w1)) as [ctx'|ex]; simpl.
      * erewrite staging_of_at; [|apply at_called, (at_with dir w1 d3 Hat1)].
        by rewrite lookup_insert_ne.
      * erewrite staging_of_at; [|apply at_called, Hat1]. done.
    + exists (mcvm_call dir u1). split.
      * by destruct (engine (mcvm_call dir u1) (fs w1)).
      * by destruct (engine _ (fs w1)).
  - (* variant 2 *)
    destruct (staging_needs_dir dir _ w w1 tt H) as [d Hat].
    pose proof (nitro_weld_dir_at engine dir P mode w d Hat) as H1.
    destruct (stage_all "Welded Packs" d) as [d1|] eqn:Hs1;
      [|destruct H1 as (? & ? & H1); congruence].
    destruct (restore_all P d1) as [d2|] eqn:Hr1; [|destruct H1 as (? & ? & H1); congruence].
    destruct (staged d2) as [u2|] eqn:Hu2; [|destruct H1 as (? & ? & H1); congruence].
    cbv zeta in H1. rewrite H in H1.
    destruct (engine (nitro_call dir u2) (fs (with_dir dir d2 w))) as [ctx|ex]; [|discriminate H1].
    injection H1 as ->.
    assert (Hu3 : staged (saved mode ctx d2) = Some u2).
    { apply staged_Some. rewrite saved_lookup by done. by apply staged_Some. }
    assert (Hd3 : ∀ e, e ≠ "Welded Packs.zip" → saved mode ctx d2 !! e = d2 !! e)
      by (intros e He; by apply saved_lookup).
    remember (saved mode ctx d2) as d3 eqn:Ed3.
    set (w1 := called (with_dir dir d3 w) (nitro_call dir u2)).
    assert (Hat1 : at_dir dir d3 w1) by apply (at_with dir w d Hat d3).
    destruct (restage_nitro "Welded Packs" "Welded Packs.zip" P d d1 d2 d3
                eq_refl eq_refl Hs1 Hr1 Hd3) as (d1' & Hs2 & Hr2).
    pose proof (nitro_weld_dir_at engine dir P mode w1 d3 Hat1) as H2.
    rewrite Hs2, Hr2, Hu3 in H2. cbv zeta in H2. rewrite (with_id dir w1 d3 Hat1) in H2.
    rewrite H2. split; [|split].
    + rewrite (staging_of_at dir d3 w1 Hat1). apply staged_Some in Hu3. rewrite Hu3. eauto.
    + rewrite (staging_of_at dir d3 w1 Hat1).
      destruct (engine (nitro_call dir u2) (fs w1)) as [ctx'|ex]; simpl.
      * erewrite staging_of_at; [|apply at_called, (at_with dir w1 d3 Hat1)].
        by rewrite saved_lookup.
      * erewrite staging_of_at; [|apply at_called, Hat1]. done.
    + exists (nitro_call dir u2). split.
      * by destruct (engine (nitro_call dir u2) (fs w1)).
      * by destruct (engine _ (fs w1)).
Qed.

Lemma staging_idempotent_witness :
  let dir := Path_of "/g/resourcepacks" in
  let once := weld_dir_of Variant2 engine_ok dir (JArr (map JStr ["b"])) "resource" demo_world in
  let twice := weld_dir_of Variant2 engine_ok dir (JArr (map JStr ["b"])) "resource" once.1 in
  once.2 = Done tt
  ∧ staging_of dir once.1 = Some (Dir {[ "a.zip" := File "A" ]})
  ∧ staging_of dir twice.1 = staging_of dir once.1.
Proof.
  intros dir once twice.
  assert (H : weld_dir_of Variant2 engine_ok dir (JArr (map JStr ["b"])) "resource" demo_world
              = (once.1, Done tt)) by (vm_compute; reflexivity).
  split; [vm_compute; reflexivity|]. split; [vm_compute; reflexivity|].
  exact (proj1 (proj2 (staging_idempotent Variant2 engine_ok dir ["b"] "resource"
                         demo_world once.1 H))).
Defined.

(** C10 (code defect, variant 2). A second run is to leave the staging
    directory as the first left it, with no file lost. Variant 2 on [/d]
    with the packs [b1.zip] and [b2.zip] and the ignore list [["b"; "zip"]],
    whose two entries match both names: each run raises in its second loop
    (lines 44 to 51 move a file back at the first match and remove it at
    the second, before a rename whose source is gone). The first run
    leaves one pack in the staging directory, the second none, and both
    packs are lost. ([staging_idempotent] has the claim for either variant
    whenever the first run completes.) *)
Theorem staging_twice_loses_files :
  let dir := Path_of "/d" in
  let ignore := JArr (map JStr ["b"; "zip"]) in
  let r1 := Nitro.weld_dir engine_ok dir ignore "data" twin_world in
  let r2 := Nitro.weld_dir engine_ok dir ignore "data" r1.1 in
  at_dir dir twin_packs twin_world
  ∧ hits ["b"; "zip"] "b1.zip" = 2 ∧ hits ["b"; "zip"] "b2.zip" = 2
  ∧ (∃ ex, r1.2 = Raise ex) ∧ (∃ ex, r2.2 = Raise ex)
  ∧ staging_of dir r1.1 = Some (Dir {[ "b2.zip" := File "2" ]})
  ∧ staging_of dir r2.1 = Some (Dir ∅)
  ∧ fs_lookup ["d"; "b1.zip"] (fs r2.1) = None
  ∧ fs_lookup ["d"; "b2.zip"] (fs r2.1) = None.
Proof. vm_compute. repeat split; eauto. Qed.

(** * Further properties of the two variants *)

(** ** Witnesses of the general facts on [weld_dir] and the dispatcher *)

Lemma nitro_weld_dir_places_witness :
  let dir := Path_of "/g/resourcepacks" in
  let r := Nitro.weld_dir engine_ok dir (JArr (map JStr ["b"])) "resource" demo_world in
  r.2 = Done tt
  ∧ (fs_lookup (parts dir ++ ["unwelded"; "b.zip"]) (fs r.1) = None
     ∧ is_Some (fs_lookup (parts dir ++ ["b.zip"]) (fs r.1)))
  ∧ (fs_lookup (parts dir ++ ["unwelded"; "a.zip"]) (fs r.1) = Some (File "A")
     ∧ fs_lookup (parts dir ++ ["a.zip"]) (fs r.1) = None).
Proof.
  intros dir r.
  assert (Hat : at_dir dir demo_packs demo_world) by (vm_compute; reflexivity).
  assert (H : Nitro.weld_dir engine_ok dir (JArr (map JStr ["b"])) "resource" demo_world
              = (r.1, Done tt)) by (vm_compute; reflexivity).
  split; [vm_compute; reflexivity|]. split.
  - exact (proj1 (nitro_weld_dir_places engine_ok dir ["b"] "resource" demo_world r.1 demo_packs
                    Hat H "b.zip" "B" eq_refl) eq_refl).
  - exact (proj2 (nitro_weld_dir_places engine_ok dir ["b"] "resource" demo_world r.1 demo_packs
                    Hat H "a.zip" "A" eq_refl) eq_refl eq_refl).
Defined.

Lemma mcvm_weld_dir_places_witness :
  let dir := Path_of "/g/resourcepacks" in
  let r := Mcvm.weld_dir engine_ok dir (JArr (map JStr ["b"])) demo_world in
  r.2 = Done tt
  ∧ fs_lookup (parts dir ++ ["unwelded"; "b.zip"]) (fs r.1) = Some (File "B")
  ∧ fs_lookup (parts dir ++ ["b.zip"]) (fs r.1) = None.
Proof.
  intros dir r.
  assert (Hat : at_dir dir demo_packs demo_world) by (vm_compute; reflexivity).
  assert (H : Mcvm.weld_dir engine_ok dir (JArr (map JStr ["b"])) demo_world = (r.1, Done tt))
    by (vm_compute; reflexivity).
  split; [vm_compute; reflexivity|].
  exact (mcvm_weld_dir_places engine_ok dir ["b"] demo_world r.1 demo_packs Hat H
           "b.zip" "B" eq_refl eq_refl).
Defined.

Lemma nitro_weld_dir_packs_witness :
  let dir := Path_of "/g/resourcepacks" in
  let r := Nitro.weld_dir engine_ok dir (JArr (map JStr ["b"])) "resource" demo_world in
  r.2 = Done tt
  ∧ ∃ u, staging_of dir r.1 = Some (Dir u) ∧ welds r.1 = welds demo_world ++ [nitro_call dir u].
Proof.
  intros dir r.
  assert (H : Nitro.weld_dir engine_ok dir (JArr (map JStr ["b"])) "resource" demo_world
              = (r.1, Done tt)) by (vm_compute; reflexivity).
  split; [vm_compute; reflexivity|].
  exact (nitro_weld_dir_packs engine_ok dir ["b"] "resource" demo_world r.1 H).
Defined.

Lemma nitro_client_datapacks_witness :
  Nitro.datapack_dirs client_arg (Path_of "/g") demo_world
  = (demo_world, Done [child (child (child (Path_of "/g") "saves") "A") "datapacks"]).
Proof.
  pose (fields := [("update_depth", JStr "full"); ("config", JObj [("datapack_folder", JNull)]);
                   ("game_dir", JStr "/g"); ("side", JStr "client")]).
  assert (Hs : fs_lookup (parts (Path_of "/g") ++ ["saves"]) (fs demo_world)
               = Some (Dir {[ "A" := Dir {[ "datapacks" := Dir ∅ ]}; "B" := Dir ∅ ]}))
    by (vm_compute; reflexivity).
  pose proof (nitro_client_datapacks fields [("datapack_folder", JNull)] (Path_of "/g")
                demo_world _ eq_refl (or_intror eq_refl) eq_refl Hs) as H.
  etransitivity; [exact H|]. vm_compute. reflexivity.
Defined.

Lemma nitro_unknown_hook_never_stops_witness :
  let argv := ["nitro_weld.py"; "bogus_hook"; "{}"] in
  ∃ more, more ≠ []
    ∧ stdout (Nitro.script (loads_as server_arg) engine_ok argv demo_world).1
      = stdout demo_world ++ [incorrect_hook_line; result_line "bogus_hook"] ++ more.
Proof.
  intros argv.
  exact (nitro_unknown_hook_never_stops (loads_as server_arg) engine_ok argv "bogus_hook"
           demo_world eq_refl eq_refl).
Defined.

(** ** The directory stager *)

(** X6. [weld_dir] of either variant, on a directory and for a path that
    are made of entry names (no [..], no [.], no empty name, no slash: the
    tree does not resolve a parent reference), whatever its other arguments
    and however it ends, leaves the path alone if it parts ways with the
    directory: what the plugin itself creates, removes, renames and saves
    lies below [dir] (the engine aside, whose writes are not the
    plugin's). *)
Theorem weld_dir_stays_in_its_directory v engine dir ignore mode w q :
  proper_path (parts dir) = true → proper_path q = true →
  diverge (parts dir) q = true →
  fs_lookup q (fs (weld_dir_of v engine dir ignore mode w).1) = fs_lookup q (fs w).
Proof.
  intros _ _ Hq.
  assert (H : stays_below (parts dir) (weld_dir_of v engine dir ignore mode))
    by (destruct v; [apply below_mcvm_weld_dir|apply below_nitro_weld_dir]).
  destruct (weld_dir_of v engine dir ignore mode w) as [w' r] eqn:E.
  destruct (H _ _ _ E) as [n Hn]. simpl. rewrite Hn. by apply fs_lookup_graft_diverge.
Qed.

Lemma weld_dir_stays_in_its_directory_witness :
  let dir := Path_of "/g/resourcepacks" in
  let r := weld_dir_of Variant2 engine_ok dir (JArr (map JStr ["b"])) "resource" demo_world in
  proper_path (parts dir) = true ∧ proper_path ["g"; "saves"] = true
  ∧ diverge (parts dir) ["g"; "saves"] = true
  ∧ fs_lookup ["g"; "saves"] (fs r.1) = fs_lookup ["g"; "saves"] (fs demo_world).
Proof.
  intros dir r. split; [reflexivity|]. split; [reflexivity|]. split; [reflexivity|].
  exact (weld_dir_stays_in_its_directory Variant2 engine_ok dir (JArr (map JStr ["b"]))
           "resource" demo_world ["g"; "saves"] eq_refl eq_refl eq_refl).
Defined.

(** X7. Variant 1 with two ignore lists of strings ends in the same world
    with the same outcome: its ignore list has no effect at all (the
    [continue] of line 29 belongs to the inner loop). *)
Theorem mcvm_ignore_list_has_no_effect engine dir P P' w :
  Mcvm.weld_dir engine dir (JArr (map JStr P)) w
  = Mcvm.weld_dir engine dir (JArr (map JStr P')) w.
Proof.
  unfold Mcvm.weld_dir. cbv zeta. revert w.
  apply bind_ext; intros there. apply seq_ext. apply bind_ext; intros entries.
  apply seq_ext_l. apply for_each_ext; intros e w.
  destruct (contains "weld_pack" e); [done|]. by rewrite !ignore_loop_skip.
Qed.

(** X8. A directory that does not exist (its parent is a directory without
    an entry of its name): [weld_dir] of either variant raises
    [FileNotFoundError] for the staging directory it cannot create, before
    it looks at the ignore list, and changes nothing. *)
Theorem weld_dir_needs_its_directory v engine parent name d ignore mode w :
  at_dir parent d w → d !! name = None →
  weld_dir_of v engine (child parent name) ignore mode w
  = (w, Raise (FileNotFoundError (child (child parent name) "unwelded"))).
Proof.
  intros Hat Hn.
  destruct v; simpl; [unfold Mcvm.weld_dir|unfold Nitro.weld_dir]; cbv zeta;
    rewrite (bind_done _ _ _ _ _ (staging_path_missing parent name d w Hat Hn)); cbn [negb];
    by rewrite (seq_raise _ _ _ _ _ (mkdir_staging_missing parent name d w Hat Hn)).
Qed.

Lemma weld_dir_needs_its_directory_witness :
  let parent := Path_of "/g/world" in
  at_dir parent {[ "datapacks" := Dir ∅ ]} demo_world
  ∧ weld_dir_of Variant2 engine_ok (child parent "packs") (JArr []) "data" demo_world
    = (demo_world, Raise (FileNotFoundError (Path_of "/g/world/packs/unwelded"))).
Proof.
  intros parent.
  assert (Hat : at_dir parent {[ "datapacks" := Dir ∅ ]} demo_world) by (vm_compute; reflexivity).
  split; [exact Hat|].
  exact (weld_dir_needs_its_directory Variant2 engine_ok parent "packs" _ (JArr []) "data"
           demo_world Hat eq_refl).
Defined.

(** X9. A directory without a staging directory, and a run of [weld_dir]
    that completes: the staging directory it leaves holds the regular files
    of the directory whose name carries no marker and which the variant's
    ignore list does not keep back, and nothing else. *)
Theorem fresh_staging_holds_the_packs v engine dir P mode w w1 d :
  at_dir dir d w → d !! "unwelded" = None →
  weld_dir_of v engine dir (JArr (map JStr P)) mode w = (w1, Done tt) →
  ∃ u, staging_of dir w1 = Some (Dir u)
       ∧ ∀ e, u !! e = if movable (marker_of v) d e && negb (heeds v P e) then d !! e else None.
Proof.
  intros Hat Hf H.
  destruct (fresh_staging_at v engine dir P mode w w1 d Hat Hf H)
    as (d3 & u & c & Hat3 & Hu & _ & _ & Hs & _).
  exists u. split; [|done]. rewrite (staging_of_at dir d3 w1 Hat3). by apply staged_Some.
Qed.

Lemma fresh_staging_holds_the_packs_witness :
  let dir := Path_of "/g/resourcepacks" in
  let r := weld_dir_of Variant2 engine_ok dir (JArr (map JStr ["b"])) "resource" demo_world in
  at_dir dir demo_packs demo_world
  ∧ r.2 = Done tt
  ∧ ∃ u, staging_of dir r.1 = Some (Dir u)
         ∧ ∀ e, u !! e = if movable "Welded Packs" demo_packs e && negb (ignored ["b"] e)
                         then demo_packs !! e else None.
Proof.
  intros dir r.
  assert (Hat : at_dir dir demo_packs demo_world) by (vm_compute; reflexivity).
  assert (H : weld_dir_of Variant2 engine_ok dir (JArr (map JStr ["b"])) "resource" demo_world
              = (r.1, Done tt)) by (vm_compute; reflexivity).
  split; [exact Hat|]. split; [vm_compute; reflexivity|].
  exact (fresh_staging_holds_the_packs Variant2 engine_ok dir ["b"] "resource" demo_world r.1
           demo_packs Hat eq_refl H).
Defined.

(** X10. Variant 1 on a directory without a staging directory: every path
    handed to the engine names nothing, the file it stands for is in the
    staging directory (line 42 joins the names onto [dir]). *)
Theorem mcvm_hands_over_missing_paths engine dir P w w1 d :
  at_dir dir d w → d !! "unwelded" = None →
  Mcvm.weld_dir engine dir (JArr (map JStr P)) w = (w1, Done tt) →
  ∃ c, welds w1 = welds w ++ [c] ∧ forallb (pack_missing (fs w1)) (call_packs c) = true.
Proof.
  intros Hat Hf H.
  destruct (fresh_staging_at Variant1 engine dir P "" w w1 d Hat Hf H)
    as (d3 & u & c & Hat3 & Hu & Hc & Hp & Hs & Hd).
  exists c. split; [done|]. rewrite Hp. apply forallb_forall. intros pk Hin.
  apply in_map_iff in Hin as (x & <- & Hx). apply list_elem_of_In, elem_of_names in Hx.
  unfold pack_missing. apply bool_decide_eq_true. rewrite (lookup_child dir w1 d3 Hat3).
  apply Hd. specialize (Hs x). destruct (movable _ d x && _); [done|].
  rewrite Hs in Hx. by destruct Hx.
Qed.

Lemma mcvm_hands_over_missing_paths_witness :
  let dir := Path_of "/g/resourcepacks" in
  let r := Mcvm.weld_dir engine_ok dir (JArr (map JStr [])) demo_world in
  at_dir dir demo_packs demo_world
  ∧ r.2 = Done tt
  ∧ ∃ c, welds r.1 = welds demo_world ++ [c]
         ∧ forallb (pack_missing (fs r.1)) (call_packs c) = true.
Proof.
  intros dir r.
  assert (Hat : at_dir dir demo_packs demo_world) by (vm_compute; reflexivity).
  assert (H : Mcvm.weld_dir engine_ok dir (JArr (map JStr [])) demo_world = (r.1, Done tt))
    by (vm_compute; reflexivity).
  split; [exact Hat|]. split; [vm_compute; reflexivity|].
  exact (mcvm_hands_over_missing_paths engine_ok dir [] demo_world r.1 demo_packs Hat eq_refl H).
Defined.

(** X11. A run of [weld_dir] that completes has called the engine once, on
    a file system with the staging directory as the run leaves it, and what
    it leaves is that file system with the archive written from what the
    call returned: the data pack in variant 1, the pack of the mode in
    variant 2, nothing for a mode that is neither [data] nor [resource]. *)
Theorem weld_dir_saves_what_the_engine_returns v engine dir P mode w w1 :
  weld_dir_of v engine dir (JArr (map JStr P)) mode w = (w1, Done tt) →
  ∃ c ctx before,
    welds w1 = welds w ++ [c] ∧ engine c before = Done ctx
    ∧ fs_lookup (parts dir ++ ["unwelded"]) before = staging_of dir w1
    ∧ match archive_bytes v mode ctx with
      | Some b => fs_put (parts dir ++ [archive_of v]) (Some (File b)) before = Some (fs w1)
      | None => fs w1 = before
      end.
Proof.
  intros H. destruct v; simpl in H.
  - destruct (staging_needs_dir dir _ w w1 tt H) as [d Hat].
    pose proof (mcvm_weld_dir_at engine dir P w d Hat) as H1.
    destruct (stage_all "weld_pack" d) as [d1|]; [|destruct H1 as (? & ? & H1); congruence].
    destruct (staged d1) as [u1|] eqn:Hu1; [|destruct H1 as (? & ? & H1); congruence].
    cbv zeta in H1. rewrite H in H1.
    destruct (engine (mcvm_call dir u1) (fs (with_dir dir d1 w))) as [ctx|ex] eqn:He;
      [|discriminate H1].
    injection H1 as ->.
    pose proof (at_with dir w d Hat d1) as Hat1.
    exists (mcvm_call dir u1), ctx, (fs (with_dir dir d1 w)).
    split; [done|]. split; [done|]. split.
    + transitivity (d1 !! "unwelded"); [apply (staging_of_at dir d1 _ Hat1)|].
      erewrite staging_of_at; [|apply at_called, (at_with dir w d Hat)].
      by rewrite lookup_insert_ne.
    + cbn [archive_bytes archive_of].
      change (parts dir ++ ["weld_pack.zip"]) with (parts (child dir "weld_pack.zip")).
      rewrite (put_child dir _ d1 Hat1 "weld_pack.zip" (Some (File (ctx_data ctx)))).
      unfold with_dir, called; cbn [fs]. by rewrite fs_graft_graft.
  - destruct (staging_needs_dir dir _ w w1 tt H) as [d Hat].
    pose proof (nitro_weld_dir_at engine dir P mode w d Hat) as H1.
    destruct (stage_all "Welded Packs" d) as [d1|]; [|destruct H1 as (? & ? & H1); congruence].
    destruct (restore_all P d1) as [d2|]; [|destruct H1 as (? & ? & H1); congruence].
    destruct (staged d2) as [u2|] eqn:Hu2; [|destruct H1 as (? & ? & H1); congruence].
    cbv zeta in H1. rewrite H in H1.
    destruct (engine (nitro_call dir u2) (fs (with_dir dir d2 w))) as [ctx|ex] eqn:He;
      [|discriminate H1].
    injection H1 as ->.
    pose proof (at_with dir w d Hat d2) as Hat2.
    exists (nitro_call dir u2), ctx, (fs (with_dir dir d2 w)).
    split; [done|]. split; [done|]. split.
    + transitivity (d2 !! "unwelded"); [apply (staging_of_at dir d2 _ Hat2)|].
      erewrite staging_of_at; [|apply at_called, (at_with dir w d Hat)].
      by rewrite saved_lookup.
    + cbn [archive_bytes archive_of]. unfold saved.
      change (parts dir ++ ["Welded Packs.zip"]) with (parts (child dir "Welded Packs.zip")).
      destruct (String.eqb mode "data").
      { rewrite (put_child dir _ d2 Hat2 "Welded Packs.zip" (Some (File (ctx_data ctx)))).
        unfold with_dir, called; cbn [fs]. by rewrite fs_graft_graft. }
      destruct (String.eqb mode "resource"); [|done].
      rewrite (put_child dir _ d2 Hat2 "Welded Packs.zip" (Some (File (ctx_assets ctx)))).
      unfold with_dir, called; cbn [fs]. by rewrite fs_graft_graft.
Qed.

Lemma weld_dir_saves_what_the_engine_returns_witness :
  let dir := Path_of "/g/resourcepacks" in
  let r := weld_dir_of Variant2 engine_ok dir (JArr (map JStr ["b"])) "resource" demo_world in
  r.2 = Done tt
  ∧ fs_lookup (parts dir ++ ["Welded Packs.zip"]) (fs r.1) = Some (File "merged assets")
  ∧ ∃ c ctx before,
      welds r.1 = welds demo_world ++ [c] ∧ engine_ok c before = Done ctx
      ∧ fs_lookup (parts dir ++ ["unwelded"]) before = staging_of dir r.1
      ∧ match archive_bytes Variant2 "resource" ctx with
        | Some b => fs_put (parts dir ++ [archive_of Variant2]) (Some (File b)) before
                    = Some (fs r.1)
        | None => fs r.1 = before
        end.
Proof.
  intros dir r.
  assert (H : weld_dir_of Variant2 engine_ok dir (JArr (map JStr ["b"])) "resource" demo_world
              = (r.1, Done tt)) by (vm_compute; reflexivity).
  split; [vm_compute; reflexivity|]. split; [vm_compute; reflexivity|].
  exact (weld_dir_saves_what_the_engine_returns Variant2 engine_ok dir ["b"] "resource"
           demo_world r.1 H).
Defined.

(** X12. Variant 2 and a regular file without the marker whose name two
    entries of the ignore list match (be it the same pattern twice): the
    run raises. The second loop moves the file back at the first match and
    removes it at the second, before the rename that then fails. *)
Theorem nitro_two_matching_patterns_fail engine dir P mode w d e x :
  at_dir dir d w → d !! e = Some (File x) → contains "Welded Packs" e = false →
  (2 ≤ hits P e)%nat →
  ∃ w' ex, Nitro.weld_dir engine dir (JArr (map JStr P)) mode w = (w', Raise ex).
Proof.
  intros Hat He Hmk Hh.
  pose proof (nitro_weld_dir_at engine dir P mode w d Hat) as H1.
  pose proof (stage_all_spec "Welded Packs" d eq_refl) as S.
  destruct (stage_all "Welded Packs" d) as [d1|]; [|done].
  destruct S as (u0 & u1 & Hu0 & Hu1 & S1 & S2).
  pose proof (restore_all_spec P d1 u1 Hu1) as R.
  destruct (restore_all P d1) as [d2|]; [|done].
  destruct R as (u2 & Hu2 & R1 & R2 & R3).
  assert (Hm : movable "Welded Packs" d e = true) by (by eapply movable_true).
  destruct (R3 e) as [Hone _].
  - rewrite S1, Hm, He. eauto.
  - rewrite ignored_hits. destruct (hits P e); [lia|done].
  - lia.
Qed.

Lemma nitro_two_matching_patterns_fail_witness :
  let dir := Path_of "/g/resourcepacks" in
  let r := Nitro.weld_dir engine_ok dir (JArr (map JStr ["b"; "zip"])) "resource" demo_world in
  at_dir dir demo_packs demo_world
  ∧ hits ["b"; "zip"] "b.zip" = 2
  ∧ (∃ w' ex, Nitro.weld_dir engine_ok dir (JArr (map JStr ["b"; "zip"])) "resource" demo_world
              = (w', Raise ex))
  ∧ (∃ ex, r.2 = Raise ex ∧ exn_type ex = "FileNotFoundError")
  ∧ fs_lookup (parts dir ++ ["b.zip"]) (fs r.1) = None
  ∧ fs_lookup (parts dir ++ ["unwelded"; "b.zip"]) (fs r.1) = None.
Proof.
  intros dir r.
  assert (Hat : at_dir dir demo_packs demo_world) by (vm_compute; reflexivity).
  split; [exact Hat|]. split; [reflexivity|]. split.
  - exact (nitro_two_matching_patterns_fail engine_ok dir ["b"; "zip"] "resource" demo_world
             demo_packs "b.zip" "B" Hat eq_refl eq_refl (le_n 2)).
  - vm_compute. split; [eexists; split; reflexivity|split; reflexivity].
Defined.

(** X13. Nothing is rolled back when the merge fails: on a directory
    without a staging directory, with no name matched twice, the engine's
    exception leaves [weld_dir], and the files it staged are in the staging
    directory and no longer in the directory. *)
Theorem failed_merge_leaves_the_packs_staged v engine dir P mode w d ex :
  at_dir dir d w → d !! "unwelded" = None →
  (∀ c n, engine c n = Raise ex) →
  (∀ e, is_Some (d !! e) → (hits P e ≤ 1)%nat) →
  ∃ w1, weld_dir_of v engine dir (JArr (map JStr P)) mode w = (w1, Raise ex)
    ∧ ∀ e, movable (marker_of v) d e && negb (heeds v P e) = true →
        fs_lookup (parts dir ++ [e]) (fs w1) = None
        ∧ fs_lookup (parts dir ++ ["unwelded"; e]) (fs w1) = d !! e.
Proof.
  intros Hat Hf He Hh.
  assert (Hmv : ∀ mk e, movable mk d e = true → e ≠ "unwelded")
    by (intros mk e Hm ->; apply movable_file in Hm as [? ?]; congruence).
  destruct v; simpl.
  - pose proof (mcvm_weld_dir_at engine dir P w d Hat) as H1.
    pose proof (stage_all_spec "weld_pack" d eq_refl) as S.
    rewrite (fresh_staging d Hf) in S.
    destruct (stage_all "weld_pack" d) as [d1|].
    2:{ destruct S as [S|(u0 & e & Hu0 & Hm & Hd)]; [done|].
        injection Hu0 as <-. by rewrite lookup_empty in Hd. }
    destruct S as (u0 & u1 & Hu0 & Hu1 & S1 & S2). injection Hu0 as <-.
    rewrite Hu1 in H1. cbv zeta in H1. rewrite He in H1.
    eexists. split; [exact H1|]. intros e Hm. rewrite andb_true_r in Hm.
    pose proof (at_with dir w d Hat d1) as Hat1.
    rewrite (lookup_below dir d1 u1 _ e (at_called _ _ _ _ Hat1) Hu1).
    rewrite (lookup_top dir d1 _ e (at_called _ _ _ _ Hat1)).
    by rewrite S1, S2, Hm by (by eapply Hmv).
  - pose proof (nitro_weld_dir_at engine dir P mode w d Hat) as H1.
    pose proof (stage_all_spec "Welded Packs" d eq_refl) as S.
    rewrite (fresh_staging d Hf) in S.
    destruct (stage_all "Welded Packs" d) as [d1|].
    2:{ destruct S as [S|(u0 & e & Hu0 & Hm & Hd)]; [done|].
        injection Hu0 as <-. by rewrite lookup_empty in Hd. }
    destruct S as (u0 & u1 & Hu0 & Hu1 & S1 & S2). injection Hu0 as <-.
    pose proof (restore_all_spec P d1 u1 Hu1) as R.
    destruct (restore_all P d1) as [d2|].
    2:{ exfalso. destruct R as (e & Hin & Hi & Hbad).
        rewrite S1, lookup_empty in Hin.
        destruct (movable "Welded Packs" d e) eqn:Hm; [|by destruct Hin].
        destruct Hbad as [Hbad|Hbad].
        - specialize (Hh e Hin). rewrite ignored_hits in Hi.
          destruct (hits P e) as [|[|n]]; [done|done|lia].
        - by rewrite S2, Hm in Hbad by (by eapply Hmv). }
    destruct R as (u2 & Hu2 & R1 & R2 & _). rewrite Hu2 in H1. cbv zeta in H1.
    rewrite He in H1.
    eexists. split; [exact H1|]. intros e Hm. apply andb_true_iff in Hm as [Hm Hi].
    apply negb_true_iff in Hi.
    pose proof (at_with dir w d Hat d2) as Hat2.
    rewrite (lookup_below dir d2 u2 _ e (at_called _ _ _ _ Hat2) Hu2).
    rewrite (lookup_top dir d2 _ e (at_called _ _ _ _ Hat2)).
    rewrite R1, R2, Hi by (by eapply Hmv). simpl.
    by rewrite S1, S2, Hm by (by eapply Hmv).
Qed.

Lemma failed_merge_leaves_the_packs_staged_witness :
  let dir := Path_of "/g/resourcepacks" in
  at_dir dir demo_packs demo_world
  ∧ ∃ w1, weld_dir_of Variant2 engine_down dir (JArr (map JStr ["b"])) "resource" demo_world
          = (w1, Raise (Exn "RuntimeError" "merge failed"))
    ∧ fs_lookup (parts dir ++ ["a.zip"]) (fs w1) = None
    ∧ fs_lookup (parts dir ++ ["unwelded"; "a.zip"]) (fs w1) = Some (File "A").
Proof.
  intros dir.
  assert (Hat : at_dir dir demo_packs demo_world) by (vm_compute; reflexivity).
  split; [exact Hat|].
  assert (Hh : ∀ e, is_Some (demo_packs !! e) → (hits ["b"] e ≤ 1)%nat)
    by (intros e _; simpl; destruct (contains "b" e); lia).
  destruct (failed_merge_leaves_the_packs_staged Variant2 engine_down dir ["b"] "resource"
              demo_world demo_packs _ Hat eq_refl (λ _ _, eq_refl) Hh) as (w1 & H & Hs).
  exists w1. split; [exact H|].
  assert (Ha : demo_packs !! "a.zip" = Some (File "A")) by (vm_compute; reflexivity).
  rewrite <- Ha. exact (Hs "a.zip" eq_refl).
Defined.

(** ** The dispatcher of variant 2 *)

(** X14. Variant 2 with a null [game_dir] (and no skip before it): the
    process is started, the start message is sent, and the run ends with the
    result; no [end_process] follows the [start_process], the file system
    and the engine are not touched. *)
Theorem nitro_null_game_dir_stops_midway loads engine argv hook raw arg w :
  argv !! 1 = Some hook → argv !! 2 = Some raw → loads raw = Done arg →
  Nitro.full_setup hook arg = Done false → Nitro.weld_disabled arg = Done false →
  py_getitem arg "game_dir" = Done JNull →
  Nitro.script loads engine argv w
  = (says w (hook_lines hook ++ [start_line; start_message_line; result_line hook]), Done tt).
Proof.
  intros H1 H2 Hl Hf Hd Hg. rewrite nitro_script_of_run.
  rewrite (nitro_run_opened _ _ _ hook raw arg w H1 H2 Hl Hf Hd).
  rewrite (bind_done _ _ _ _ JNull) by (by rewrite lift_run, Hg).
  rewrite nitro_set_result_says, says_says. by rewrite <- app_assoc.
Qed.

Lemma nitro_null_game_dir_stops_midway_witness :
  let arg := JObj [("config", JObj []); ("game_dir", JNull)] in
  let argv := ["nitro_weld.py"; "update_world_files"; "{}"] in
  Nitro.script (loads_as arg) engine_ok argv demo_world
  = (says demo_world [start_line; start_message_line; null_result_line], Done tt).
Proof.
  intros arg argv.
  exact (nitro_null_game_dir_stops_midway (loads_as arg) engine_ok argv "update_world_files"
           "{}" arg demo_world eq_refl eq_refl eq_refl eq_refl eq_refl eq_refl).
Defined.

(** X15. Variant 2 on [on_instance_setup] with the update depth [full]:
    the weld is left to [after_packages_installed]; the only line is the
    result with the override struct, whatever else the argument holds. *)
Theorem nitro_full_setup_is_deferred loads engine argv raw fields w :
  argv !! 1 = Some "on_instance_setup" → argv !! 2 = Some raw →
  loads raw = Done (JObj fields) →
  assoc "update_depth" fields = Some (JStr "full") →
  Nitro.script loads engine argv w = (says w [override_line], Done tt).
Proof.
  intros H1 H2 Hl Hu. rewrite nitro_script_of_run.
  rewrite (nitro_run_start _ _ _ _ w H1).
  change (hook_lines "on_instance_setup") with (@nil string). rewrite says_nil.
  rewrite (bind_done _ _ w w raw) by (unfold argv_at; by rewrite H2).
  rewrite (bind_done _ _ w w (JObj fields)) by (by rewrite lift_run, Hl).
  rewrite (bind_done _ _ w w true).
  2:{ rewrite lift_run. unfold Nitro.full_setup, and_then. simpl. by rewrite Hu. }
  by rewrite nitro_set_result_says.
Qed.

Lemma nitro_full_setup_is_deferred_witness :
  let argv := ["nitro_weld.py"; "on_instance_setup"; "{}"] in
  Nitro.script (loads_as client_arg) engine_ok argv demo_world
  = (says demo_world [override_line], Done tt).
Proof.
  intros argv.
  exact (nitro_full_setup_is_deferred (loads_as client_arg) engine_ok argv "{}" _ demo_world
           eq_refl eq_refl eq_refl eq_refl).
Defined.

(** X16. Variant 2 with an argument object without the key [config]: the
    [KeyError] of line 92 becomes the one error message, with the key
    between single quotes as its text; no progress line is printed. *)
Theorem nitro_missing_config_is_reported loads engine argv hook raw fields w :
  argv !! 1 = Some hook → argv !! 2 = Some raw → loads raw = Done (JObj fields) →
  Nitro.full_setup hook (JObj fields) = Done false →
  assoc "config" fields = None →
  Nitro.script loads engine argv w
  = (says w (hook_lines hook ++ [error_line (KeyError "config")]), Done tt).
Proof.
  intros H1 H2 Hl Hf Hc. rewrite nitro_script_of_run.
  rewrite (nitro_run_start _ _ _ hook w H1). set (w0 := says w (hook_lines hook)).
  rewrite (bind_done _ _ w0 w0 raw) by (unfold argv_at; by rewrite H2).
  rewrite (bind_done _ _ w0 w0 (JObj fields)) by (by rewrite lift_run, Hl).
  rewrite (bind_done _ _ w0 w0 false) by (by rewrite lift_run, Hf).
  rewrite (bind_raise _ _ w0 w0 (KeyError "config")).
  2:{ rewrite lift_run. unfold Nitro.weld_disabled, and_then. simpl. by rewrite Hc. }
  unfold w0. by rewrite says_says.
Qed.

Lemma nitro_missing_config_is_reported_witness :
  let arg := JObj [("game_dir", JStr "/g"); ("side", JStr "server")] in
  let argv := ["nitro_weld.py"; "after_packages_installed"; "{}"] in
  Nitro.script (loads_as arg) engine_ok argv demo_world
  = (says demo_world [error_line (KeyError "config")], Done tt).
Proof.
  intros arg argv.
  exact (nitro_missing_config_is_reported (loads_as arg) engine_ok argv
           "after_packages_installed" "{}" _ demo_world eq_refl eq_refl eq_refl eq_refl eq_refl).
Defined.

(** X17. Variant 2 on a command line without the argument: after the lines
    of the hook check, if any, the [IndexError] of [sys.argv] becomes the error
    message, and nothing else happens. *)
Theorem nitro_too_few_arguments loads engine argv w :
  argv !! 2 = None →
  Nitro.script loads engine argv w
  = (says w (argv_hook_lines argv ++ [error_line IndexError]), Done tt).
Proof.
  intros H2. rewrite nitro_script_of_run. unfold argv_hook_lines.
  destruct (argv !! 1) as [hook|] eqn:H1.
  - rewrite (nitro_run_start _ _ _ hook w H1).
    rewrite (bind_raise _ _ _ _ IndexError) by (unfold argv_at; by rewrite H2).
    by rewrite says_says.
  - unfold Nitro.run. rewrite (bind_raise _ _ w w IndexError) by (unfold argv_at; by rewrite H1).
    done.
Qed.

Lemma nitro_too_few_arguments_witness :
  Nitro.script (loads_as server_arg) engine_ok ["nitro_weld.py"; "update_world_files"] demo_world
  = (says demo_world [error_line IndexError], Done tt)
  ∧ Nitro.script (loads_as server_arg) engine_ok ["nitro_weld.py"] demo_world
    = (says demo_world [error_line IndexError], Done tt).
Proof.
  split.
  - exact (nitro_too_few_arguments (loads_as server_arg) engine_ok
             ["nitro_weld.py"; "update_world_files"] demo_world eq_refl).
  - exact (nitro_too_few_arguments (loads_as server_arg) engine_ok ["nitro_weld.py"] demo_world
             eq_refl).
Defined.

(** X18. Variant 2 on a server whose [world] has no [datapacks] directory:
    the first [weld_dir] fails, so after the two opening lines the error
    message with the [FileNotFoundError] is the last line; the resource
    packs are not welded, the file system and the engine are not touched. *)
Theorem nitro_server_without_datapacks_fails
    loads engine argv hook raw fields cfg gd side entries w :
  argv !! 1 = Some hook → argv !! 2 = Some raw → loads raw = Done (JObj fields) →
  Nitro.full_setup hook (JObj fields) = Done false →
  assoc "config" fields = Some (JObj cfg) →
  assoc "disable_weld" cfg = None → assoc "datapack_folder" cfg = None →
  assoc "game_dir" fields = Some (JStr gd) →
  assoc "side" fields = Some side → is_str "client" side = false →
  at_dir (child (Path_of gd) "world") entries w → entries !! "datapacks" = None →
  Nitro.script loads engine argv w
  = (says w (hook_lines hook
             ++ [start_line; start_message_line;
                 error_line (FileNotFoundError
                               (child (child (child (Path_of gd) "world") "datapacks")
                                      "unwelded"))]),
     Done tt).
Proof.
  intros H1 H2 Hl Hf Hc Hdw Hdf Hg Hs Hside Hat Hn.
  destruct (nitro_weld_ignore_total fields cfg Hc) as [ignore Hi].
  rewrite nitro_script_of_run.
  rewrite (nitro_run_opened _ _ _ hook raw (JObj fields) w H1 H2 Hl Hf).
  2:{ unfold Nitro.weld_disabled, and_then. simpl. rewrite Hc. simpl. rewrite Hdw.
      by rewrite bool_decide_eq_false_2 by (by intros [? ?]). }
  set (w0 := says w _).
  rewrite (bind_done _ _ w0 w0 (JStr gd)) by (rewrite lift_run; simpl; by rewrite Hg).
  rewrite (bind_done _ _ w0 w0 (Path_of gd)) by done.
  rewrite (bind_done _ _ w0 w0 [child (child (Path_of gd) "world") "datapacks"]).
  2:{ unfold Nitro.datapack_dirs.
      rewrite (bind_done _ _ w0 w0 (JObj cfg)) by (rewrite lift_run; simpl; by rewrite Hc).
      rewrite (bind_done _ _ w0 w0 false).
      2:{ rewrite lift_run. simpl. by rewrite Hdf, bool_decide_eq_false_2 by (by intros [? ?]). }
      rewrite (bind_done _ _ w0 w0 JNull) by done.
      rewrite (bind_done _ _ w0 w0 side) by (rewrite lift_run; simpl; by rewrite Hs).
      rewrite Hside. by rewrite joinpath_world. }
  cbv zeta. rewrite (bind_done _ _ w0 w0 ignore) by (by rewrite lift_run, Hi).
  assert (Hat0 : at_dir (child (Path_of gd) "world") entries w0) by exact Hat.
  erewrite seq_raise.
  2:{ rewrite for_each_cons. apply seq_raise. unfold Nitro.weld_dir. cbv zeta.
      rewrite (bind_done _ _ _ _ _ (staging_path_missing _ "datapacks" _ w0 Hat0 Hn)).
      cbn [negb]. apply seq_raise. exact (mkdir_staging_missing _ "datapacks" _ w0 Hat0 Hn). }
  unfold w0. by rewrite says_says, <- app_assoc.
Qed.

Lemma nitro_server_without_datapacks_fails_witness :
  let argv := ["nitro_weld.py"; "update_world_files"; "{}"] in
  let w := World (Dir {[ "g" := Dir {[ "resourcepacks" := Dir demo_packs;
                                       "world" := Dir ∅ ]} ]}) [] [] in
  Nitro.script (loads_as server_arg) engine_ok argv w
  = (says w [start_line; start_message_line;
             error_line (FileNotFoundError (Path_of "/g/world/datapacks/unwelded"))],
     Done tt).
Proof.
  intros argv w.
  assert (Hat : at_dir (child (Path_of "/g") "world") ∅ w) by (vm_compute; reflexivity).
  exact (nitro_server_without_datapacks_fails (loads_as server_arg) engine_ok argv
           "update_world_files" "{}" _ _ "/g" (JStr "server") ∅ w
           eq_refl eq_refl eq_refl eq_refl eq_refl eq_refl eq_refl eq_refl eq_refl eq_refl
           Hat eq_refl).
Defined.

(** X19. What a run of variant 2 that returns has printed: the lines of the
    hook check, then nothing, or the two opening lines, or the two opening
    and the two closing lines, and the result of the hook as its last line. *)
Theorem nitro_completed_run_shapes loads engine argv hook w w' :
  argv !! 1 = Some hook →
  Nitro.run loads engine argv w = (w', Done tt) →
  ∃ out, out ∈ run_shapes
         ∧ stdout w' = stdout w ++ hook_lines hook ++ out ++ [result_line hook].
Proof.
  intros H1 H. rewrite (nitro_run_start _ _ _ hook w H1) in H.
  step H as wb raw Hm; [|discriminate H]. apply argv_at_inv in Hm as [-> _].
  step H as wc arg Hm; rewrite lift_run in Hm; [|discriminate H]. injection Hm as <- _.
  step H as wd deferred Hm; rewrite lift_run in Hm; [|discriminate H]. injection Hm as <- _.
  destruct deferred.
  { rewrite nitro_set_result_says in H. injection H as <-. exists []. split.
    - apply list_elem_of_here.
    - simpl. by rewrite <- app_assoc. }
  step H as we disabled Hm; rewrite lift_run in Hm; [|discriminate H]. injection Hm as <- _.
  destruct disabled.
  { rewrite nitro_set_result_says in H. injection H as <-. exists []. split.
    - apply list_elem_of_here.
    - simpl. by rewrite <- app_assoc. }
  step H as wf u1 Hm; rewrite nitro_start_says in Hm; [|discriminate Hm]. injection Hm as <-.
  step H as wg u2 Hm; rewrite nitro_start_message_says in Hm; [|discriminate Hm].
  injection Hm as <-.
  step H as wh gd Hm; rewrite lift_run in Hm; [|discriminate H]. injection Hm as <- _.
  destruct gd;
    try (exists [start_line; start_message_line; success_line; end_line]; split;
         [apply list_elem_of_further, list_elem_of_further, list_elem_of_here|];
         rewrite (nitro_weld_all_says _ _ _ _ _ _ H); simpl;
         by rewrite <- !app_assoc).
  rewrite nitro_set_result_says in H. injection H as <-.
  exists [start_line; start_message_line]. split.
  - apply list_elem_of_further, list_elem_of_here.
  - simpl. by rewrite <- !app_assoc.
Qed.

Lemma nitro_completed_run_shapes_witness :
  let argv := ["nitro_weld.py"; "after_packages_installed"; "{}"] in
  let r := Nitro.run (loads_as server_arg) engine_ok argv demo_world in
  r.2 = Done tt
  ∧ ∃ out, out ∈ run_shapes
           ∧ stdout r.1 = stdout demo_world ++ hook_lines "after_packages_installed" ++ out
                          ++ [result_line "after_packages_installed"].
Proof.
  intros argv r.
  assert (H : Nitro.run (loads_as server_arg) engine_ok argv demo_world = (r.1, Done tt))
    by (vm_compute; reflexivity).
  split; [vm_compute; reflexivity|].
  exact (nitro_completed_run_shapes (loads_as server_arg) engine_ok argv
           "after_packages_installed" demo_world r.1 eq_refl H).
Defined.

(** ** The dispatcher of variant 1 *)

(** X20. [run] of variant 1 returns at once, with the world as it was, for a
    hook other than [on_instance_setup] (the argument is not read then) and
    for the update depth [shallow]. *)
Theorem mcvm_run_early_exits loads engine argv hook w :
  argv !! 1 = Some hook →
  hook ≠ "on_instance_setup"
  ∨ (∃ raw arg, argv !! 2 = Some raw ∧ loads raw = Done arg
                ∧ py_getitem arg "update_depth" = Done (JStr "shallow")) →
  Mcvm.run loads engine argv w = (w, Done tt).
Proof.
  intros H1 Hc. unfold Mcvm.run.
  rewrite (bind_done _ _ w w hook) by (unfold argv_at; by rewrite H1).
  destruct (String.eqb_spec hook "on_instance_setup") as [->|Hne]; [|done].
  destruct Hc as [Hc|(raw & arg & H2 & Hl & Hd)]; [done|]. cbn [negb].
  rewrite (bind_done _ _ w w raw) by (unfold argv_at; by rewrite H2).
  rewrite (bind_done _ _ w w arg) by (by rewrite lift_run, Hl).
  by rewrite (bind_done _ _ w w (JStr "shallow")) by (by rewrite lift_run, Hd).
Qed.

Lemma mcvm_run_early_exits_witness :
  Mcvm.run (loads_as server_arg) engine_ok ["mcvm_weld.py"; "update_world_files"] demo_world
  = (demo_world, Done tt).
Proof.
  refine (mcvm_run_early_exits (loads_as server_arg) engine_ok
            ["mcvm_weld.py"; "update_world_files"] "update_world_files" demo_world eq_refl
            (or_introl _)).
  discriminate.
Defined.

(** X21. An argument without [update_depth]: [run] of variant 1 raises
    [KeyError] (line 55 reads the key), where the check of variant 2 (line
    88) asks for the key first and is false. *)
Theorem missing_update_depth loads engine argv raw fields w :
  argv !! 1 = Some "on_instance_setup" → argv !! 2 = Some raw →
  loads raw = Done (JObj fields) → assoc "update_depth" fields = None →
  Mcvm.run loads engine argv w = (w, Raise (KeyError "update_depth"))
  ∧ Nitro.full_setup "on_instance_setup" (JObj fields) = Done false.
Proof.
  intros H1 H2 Hl Hu. split.
  - unfold Mcvm.run.
    rewrite (bind_done _ _ w w "on_instance_setup") by (unfold argv_at; by rewrite H1).
    cbn [String.eqb Ascii.eqb Bool.eqb negb].
    rewrite (bind_done _ _ w w raw) by (unfold argv_at; by rewrite H2).
    rewrite (bind_done _ _ w w (JObj fields)) by (by rewrite lift_run, Hl).
    by rewrite (bind_raise _ _ w w (KeyError "update_depth"))
      by (rewrite lift_run; simpl; by rewrite Hu).
  - unfold Nitro.full_setup, and_then. simpl. by rewrite Hu.
Qed.

Lemma missing_update_depth_witness :
  let argv := ["mcvm_weld.py"; "on_instance_setup"; "{}"] in
  Mcvm.run (loads_as server_arg) engine_ok argv demo_world
  = (demo_world, Raise (KeyError "update_depth")).
Proof.
  intros argv.
  exact (proj1 (missing_update_depth (loads_as server_arg) engine_ok argv "{}" _ demo_world
                  eq_refl eq_refl eq_refl eq_refl)).
Defined.

(** X22. [run] of variant 1 on [on_instance_setup], not shallow and not
    disabled, when it returns: it has printed [start_process], the start
    message, the success message and [end_process], in this order, and no
    result. *)
Theorem mcvm_run_messages_in_order loads engine argv raw arg depth w w' :
  argv !! 1 = Some "on_instance_setup" → argv !! 2 = Some raw → loads raw = Done arg →
  py_getitem arg "update_depth" = Done depth → is_str "shallow" depth = false →
  Mcvm.weld_disabled arg = Done false →
  Mcvm.run loads engine argv w = (w', Done tt) →
  stdout w' = stdout w ++ [start_line; start_message_line; success_line; end_line].
Proof.
  intros H1 H2 Hl Hd Hs Hdis H. unfold Mcvm.run in H.
  rewrite (bind_done _ _ w w "on_instance_setup") in H by (unfold argv_at; by rewrite H1).
  cbn [String.eqb Ascii.eqb Bool.eqb negb] in H.
  rewrite (bind_done _ _ w w raw) in H by (unfold argv_at; by rewrite H2).
  rewrite (bind_done _ _ w w arg) in H by (by rewrite lift_run, Hl).
  rewrite (bind_done _ _ w w depth) in H by (by rewrite lift_run, Hd).
  rewrite Hs in H.
  rewrite (bind_done _ _ w w false) in H by (by rewrite lift_run, Hdis).
  rewrite (seq_done _ _ _ _ _ (mcvm_start_says w)) in H.
  rewrite (seq_done _ _ _ _ _ (mcvm_start_message_says _)) in H. rewrite says_says in H.
  step H as wa gd Hm; rewrite lift_run in Hm; [|discriminate H]. injection Hm as <- _.
  step H as wb game_dir Hm; apply (quiet_run _ _ _ _ (quiet_to_path gd)) in Hm; [|discriminate H].
  step H as wc dirs Hdd; apply (quiet_run _ _ _ _ (quiet_mcvm_datapack_dirs _ _)) in Hdd;
    [|discriminate H].
  cbv zeta in H.
  step H as wd ignore Hi; rewrite lift_run in Hi; [|discriminate H]. injection Hi as <- _.
  step H as we u3 Hw1;
    (eapply quiet_run in Hw1; [|apply quiet_for_each; intros ?; apply quiet_mcvm_weld_dir]);
    [|discriminate H].
  step H as wf u4 Hw2;
    (eapply quiet_run in Hw2; [|apply quiet_for_each; intros ?; apply quiet_mcvm_weld_dir]);
    [|discriminate H].
  unfold mbind, py_bind in H. rewrite mcvm_success_says, mcvm_end_says in H.
  injection H as <-. simpl. rewrite Hw2, Hw1, Hdd, Hm. simpl. by rewrite <- !app_assoc.
Qed.

Lemma mcvm_run_messages_in_order_witness :
  let arg := JObj [("update_depth", JStr "full"); ("config", JObj [("datapack_folder", JNull)]);
                   ("game_dir", JStr "/g"); ("side", JStr "server")] in
  let argv := ["mcvm_weld.py"; "on_instance_setup"; "{}"] in
  let r := Mcvm.run (loads_as arg) engine_ok argv demo_world in
  r.2 = Done tt
  ∧ stdout r.1 = [start_line; start_message_line; success_line; end_line].
Proof.
  intros arg argv r.
  assert (H : Mcvm.run (loads_as arg) engine_ok argv demo_world = (r.1, Done tt))
    by (vm_compute; reflexivity).
  split; [vm_compute; reflexivity|].
  exact (mcvm_run_messages_in_order (loads_as arg) engine_ok argv "{}" arg (JStr "full")
           demo_world r.1 eq_refl eq_refl eq_refl eq_refl eq_refl eq_refl H).
Defined.

(** X23. Variant 1, client side, null [datapack_folder]: the datapack
    directories are the empty list when [saves] has no subdirectory, and
    the [AttributeError] of line 80 as soon as it has one. *)
Theorem mcvm_client_datapacks fields cfg game_dir w es :
  assoc "config" fields = Some (JObj cfg) →
  assoc "datapack_folder" cfg = Some JNull →
  assoc "side" fields = Some (JStr "client") →
  fs_lookup (parts game_dir ++ ["saves"]) (fs w) = Some (Dir es) →
  Mcvm.datapack_dirs (JObj fields) game_dir w
  = (w, if existsb (λ kv, is_dir_node kv.2) (map_to_list es)
        then Raise AttributeError_join else Done []).
Proof.
  intros Hc Hf Hs Hsaves. rewrite existsb_filter.
  destruct (List.filter (λ kv, is_dir_node kv.2) (map_to_list es)) as [|kv rest] eqn:E.
  - unfold Mcvm.datapack_dirs. rewrite joinpath_saves.
    rewrite (bind_done _ _ w w (JObj cfg)) by (by rewrite lift_run; simpl; rewrite Hc).
    rewrite (bind_done _ _ w w JNull) by (by rewrite lift_run; simpl; rewrite Hf).
    rewrite (bind_done _ _ w w (JStr "client")) by (by rewrite lift_run; simpl; rewrite Hs).
    simpl.
    by rewrite (bind_done _ _ w w []) by (unfold walk_dirs; simpl; by rewrite Hsaves, E).
  - apply (mcvm_client_datapacks_raise fields cfg game_dir w es kv.1 rest.*1 Hc Hf Hs Hsaves).
    by rewrite E.
Qed.

Lemma mcvm_client_datapacks_witness :
  let bare := World (Dir {[ "g" := Dir {[ "saves" := Dir ∅ ]} ]}) [] [] in
  Mcvm.datapack_dirs client_arg (Path_of "/g") demo_world = (demo_world, Raise AttributeError_join)
  ∧ Mcvm.datapack_dirs client_arg (Path_of "/g") bare = (bare, Done []).
Proof.
  intros bare.
  pose (fields := [("update_depth", JStr "full"); ("config", JObj [("datapack_folder", JNull)]);
                   ("game_dir", JStr "/g"); ("side", JStr "client")]).
  split.
  - assert (Hs : fs_lookup (parts (Path_of "/g") ++ ["saves"]) (fs demo_world)
                 = Some (Dir {[ "A" := Dir {[ "datapacks" := Dir ∅ ]}; "B" := Dir ∅ ]}))
      by (vm_compute; reflexivity).
    assert (He : existsb (λ kv : string * node, is_dir_node kv.2)
                   (map_to_list ({[ "A" := Dir {[ "datapacks" := Dir ∅ ]}; "B" := Dir ∅ ]}
                                   : gmap string node)) = true)
      by (vm_compute; reflexivity).
    pose proof (mcvm_client_datapacks fields [("datapack_folder", JNull)] (Path_of "/g")
                  demo_world _ eq_refl eq_refl eq_refl Hs) as H.
    rewrite He in H. exact H.
  - assert (Hs : fs_lookup (parts (Path_of "/g") ++ ["saves"]) (fs bare) = Some (Dir ∅))
      by (vm_compute; reflexivity).
    assert (He : existsb (λ kv : string * node, is_dir_node kv.2)
                   (map_to_list (∅ : gmap string node)) = false)
      by (vm_compute; reflexivity).
    pose proof (mcvm_client_datapacks fields [("datapack_folder", JNull)] (Path_of "/g")
                  bare _ eq_refl eq_refl eq_refl Hs) as H.
    rewrite He in H. exact H.
Defined.

(** ** The emitter *)

(** X24. [output] of either variant, for every kind and payload, prints one
    entry that starts with the sentinel [%_]; with a payload the entry is one
    line whatever the kind holds, without a payload it is one line exactly
    when the kind has no line feed (the kind is not escaped there). *)
Theorem output_line_protocol kind payload w :
  ∃ l1 l2,
    Mcvm.output kind payload w = (says w [l1], Done tt)
    ∧ Nitro.output kind payload w = (says w [l2], Done tt)
    ∧ String.prefix "%_" l1 = true ∧ String.prefix "%_" l2 = true
    ∧ one_line l1 = match payload with JNull => one_line kind | _ => true end
    ∧ one_line l2 = match payload with JNull => one_line kind | _ => true end.
Proof.
  unfold Mcvm.output, Nitro.output.
  destruct payload; eexists _, _; (split; [reflexivity|]); (split; [reflexivity|]);
    (split; [apply prefix_sentinel|]); (split; [apply prefix_sentinel|]);
    rewrite !one_line_app, ?one_line_dumps, ?one_line_quoted; done.
Qed.

